(** * Electric: the circuit-law calculators and the tab navigation

    A shallow embedding of the two scripts of the repository,
    [src/lab.js] and [src/unnamed/part_000], and the properties their
    specification states about them.

    Numbers.  A JavaScript number is a binary64 floating-point number.  A
    finite one is modelled by its exact value, a rational; [NaN],
    [Infinity] and [-Infinity] are the three other values.  Arithmetic
    computes the exact result on the rationals and rounds it to the nearest
    binary64 number, ties to even, as IEEE 754 prescribes; a result beyond
    the range is an infinity.  The sign of zero is not modelled: the
    scripts cannot observe it ([-0 === 0], [Math.abs(-0)] is [0], and
    [toFixed] prints both zeros alike).

    Document.  The page is the list of the elements of its body, in
    document order; a node is the position of an element in that list, and
    stands for the reference the scripts hold to it.  An element knows the
    element that contains it and whether it is in the document.  The scripts create no element, and
    remove one only by assigning [textContent] to an element that contains
    it; an element so removed keeps its position in the list, since a
    script may still hold and update it, but queries no longer find it. *)

From Stdlib Require Import QArith Qabs Qround Qpower Lqa ZArith String Ascii DecimalString.
From stdpp Require Import base option list strings.

Local Open Scope string_scope.

(** ** Numbers *)

(** [Num q] is the finite number whose exact value is [q]. *)
Inductive number : Type :=
  | Num (q : Q)
  | NaN
  | Infinity (negative : bool).

Declare Scope js_scope.
Delimit Scope js_scope with js.
Bind Scope js_scope with number.

Definition Qltb (a b : Q) : bool := negb (Qle_bool b a).

(** Unary minus. *)
Definition num_neg (x : number) : number :=
  match x with
  | Num q => Num (Qred (- q))
  | NaN => NaN
  | Infinity s => Infinity (negb s)
  end.

(** *** Rounding to binary64

    A binary64 number is [m * 2^e] with [|m| < 2^53] and
    [-1074 <= e <= 971].  Rounding a positive rational [x]: with
    [2^k <= x < 2^(k+1)], the binary64 numbers around [x] are the multiples
    of the unit in the last place [2^(k-52)], or of [2^-1074] below the
    normal range; [x] goes to the nearest multiple, to the even one on a
    tie, and to [Infinity] when that multiple is [2^1024] or more. *)

Definition pow2 (e : Z) : Q := (2 ^ e)%Q.

(** The [k] with [2^k <= x < 2^(k+1)], for a positive [x]. *)
Definition ilog2 (x : Q) : Z :=
  let e := (Z.log2 (Qnum x) - Z.log2 (Z.pos (Qden x)))%Z in
  if Qle_bool (pow2 e) x then e else (e - 1)%Z.

(** The integer nearest to [x], the even one when two are as near. *)
Definition round_half_even (x : Q) : Z :=
  let n := Qfloor x in
  match (x - inject_Z n ?= 1 # 2)%Q with
  | Lt => n
  | Gt => (n + 1)%Z
  | Eq => if Z.even n then n else (n + 1)%Z
  end.

(** The unit in the last place at [x]. *)
Definition ulp64 (x : Q) : Q := pow2 (Z.max (ilog2 x) (-1022) - 52).

Definition nearest64 (x : Q) : Q :=
  (inject_Z (round_half_even (x / ulp64 x)) * ulp64 x)%Q.

Definition round64_pos (x : Q) : number :=
  let r := nearest64 x in
  if Qle_bool (pow2 1024) r then Infinity false else Num (Qred r).

(** The binary64 number nearest to [x].  Finite results are kept in lowest
    terms, so that equal numbers are equal terms. *)
Definition round64 (x : Q) : number :=
  match (x ?= 0)%Q with
  | Eq => Num 0
  | Lt => num_neg (round64_pos (- x))
  | Gt => round64_pos x
  end.

(** A decimal literal of the source, such as [0.01], denotes the binary64
    number nearest to it; so does the text of a control under
    [parseFloat]. *)
Definition literal (q : Q) : number := round64 q.

(** *** The operators *)

(** The operator [+]: the exact sum, rounded. *)
Definition num_add (x y : number) : number :=
  match x, y with
  | NaN, _ | _, NaN => NaN
  | Num a, Num b => round64 (a + b)
  | Num _, Infinity s | Infinity s, Num _ => Infinity s
  | Infinity s, Infinity t => if Bool.eqb s t then Infinity s else NaN
  end.

(** The operator [-]: the exact difference, rounded.  Negation is exact
    and rounding is odd, so this is the sum with the negated operand. *)
Definition num_sub (x y : number) : number := num_add x (num_neg y).

(** The operator [/]: the exact quotient, rounded.  A finite dividend over
    zero is not an error in JavaScript: it is [NaN] for [0 / 0] and an
    infinity otherwise. *)
Definition num_div (x y : number) : number :=
  match x, y with
  | NaN, _ | _, NaN => NaN
  | Num a, Num b =>
      if Qeq_bool b 0 then
        if Qeq_bool a 0 then NaN else Infinity (Qltb a 0)
      else round64 (a / b)
  | Num _, Infinity _ => Num 0
  | Infinity s, Num b => Infinity (xorb s (Qltb b 0))
  | Infinity _, Infinity _ => NaN
  end.

(** [Math.abs], which is exact. *)
Definition Math_abs (x : number) : number :=
  match x with
  | Num q => Num (Qred (Qabs q))
  | NaN => NaN
  | Infinity _ => Infinity false
  end.

(** The operator [<]: false as soon as an operand is [NaN]. *)
Definition num_lt (x y : number) : bool :=
  match x, y with
  | NaN, _ | _, NaN => false
  | Num a, Num b => Qltb a b
  | Num _, Infinity s => negb s
  | Infinity s, Num _ => s
  | Infinity s, Infinity t => s && negb t
  end.

(** The operator [===] on numbers: [NaN] is equal to nothing. *)
Definition strict_equal (x y : number) : bool :=
  match x, y with
  | Num a, Num b => Qeq_bool a b
  | Infinity s, Infinity t => Bool.eqb s t
  | _, _ => false
  end.

Notation "x + y" := (num_add x y) : js_scope.
Notation "x - y" := (num_sub x y) : js_scope.
Notation "x / y" := (num_div x y) : js_scope.
Notation "x < y" := (num_lt x y) : js_scope.
Notation "x === y" := (strict_equal x y) (at level 70, no associativity) : js_scope.

(** ** The formulas

    The four functions are the same in both scripts
    ([src/lab.js] and [src/unnamed/part_000]). *)

Definition calculateOhmsLaw (voltage resistance : number) : number :=
  if (resistance === Num 0)%js then Num 0
  else (voltage / resistance)%js.

Definition calculateKCL (i1 i2 : number) : number := (i1 + i2)%js.

Definition calculateKVL (v1 v2 : number) : number := (v1 + v2)%js.

Definition isKVLBalanced (sourceVoltage voltageSum : number) : bool :=
  let tolerance := literal 0.01 in
  (Math_abs (sourceVoltage - voltageSum) < tolerance)%js.

(** [calculateOhmsLaw] over a division that reports a zero divisor instead
    of producing a non-finite value: [None] is the outcome "divided by
    zero".  Same control flow as [calculateOhmsLaw]. *)
Definition checked_div (x y : number) : option number :=
  if (y === Num 0)%js then None else Some (x / y)%js.

Definition calculateOhmsLaw_checked (voltage resistance : number) : option number :=
  if (resistance === Num 0)%js then Some (Num 0)
  else checked_div voltage resistance.

(** ** [Number.prototype.toFixed]

    ECMAScript's algorithm on the exact value.  A non-finite number prints
    as its name.  Otherwise the sign is split off, and a magnitude below
    [10^21] prints as the integer [n] nearest to [x * 10^digits] (the larger
    one on a tie) with a point before its last [digits] digits.  From
    [10^21] on the result is the runtime's [Number::toString], which depends
    on the binary64 digits of the value: it stays a parameter. *)

Fixpoint zeros (n : nat) : string :=
  match n with
  | O => ""
  | S k => String "0" (zeros k)
  end.

Definition decimal_digits (n : Z) : string :=
  NilZero.string_of_uint (N.to_uint (Z.to_N n)).

(** The integer nearest to [y], the larger one when two are as near. *)
Definition nearest_integer (y : Q) : Z := Qfloor (y + (1 # 2)).

Definition fixed_notation (digits : nat) (x : Q) : string :=
  let n := nearest_integer (x * inject_Z (10 ^ Z.of_nat digits)) in
  let m := decimal_digits n in
  match digits with
  | O => m
  | S _ =>
      let k := String.length m in
      let m := if (k <=? digits)%nat then zeros (digits + 1 - k) ++ m else m in
      let k := String.length m in
      substring 0 (k - digits) m ++ "." ++ substring (k - digits) digits m
  end.

Section ToFixed.
Variable NumberToString : Q -> string.

Definition toFixed (digits : nat) (x : number) : string :=
  match x with
  | NaN => "NaN"
  | Infinity false => "Infinity"
  | Infinity true => "-Infinity"
  | Num q =>
      let s := if Qltb q 0 then "-" else "" in
      let x := Qabs q in
      if Qle_bool (inject_Z (10 ^ 21)) x then s ++ NumberToString x
      else s ++ fixed_notation digits x
  end.
End ToFixed.

(** ** The document *)

(** A node is the position of an element in document order. *)
Abbreviation node := nat.

(** What the scripts read or write of an element, and where it is.
    [attributes] are the attributes other than [id], [class] and [style],
    which the other fields hold.  [value] is the number [parseFloat] makes
    of the control's value ([NaN] when its text does not start with a
    number).  [textContent] is the element's own text; for an element
    without child elements it is what [el.textContent] returns.
    [style_color] is the colour last assigned to [el.style.color], as the
    script wrote it: the scripts never read it back (a browser would return
    it in its own notation, [rgb(74, 222, 128)] for [#4ade80]).  [parent] is
    the element that contains it directly ([el.parentElement]), [None] when
    that is the body itself or when it has none, and [connected] is
    [el.isConnected]: the element is in the document. *)
Record Element := mkElement {
  el_id : option string;
  classList : list string;
  attributes : list (string * string);
  value : number;
  textContent : string;
  style_color : string;
  parent : option node;
  connected : bool
}.

Abbreviation Document := (list Element).

Inductive Level := LevelLog | LevelWarn | LevelError.

(** One call of [console.log], [console.warn] or [console.error] with its
    arguments. *)
Definition ConsoleEntry : Type := Level * list string.

Inductive EventTarget :=
  | TheDocument
  | TheNode (n : node).

Inductive Exception :=
  | TypeError (message : string).

Module DOM.
Section WithListeners.
(** The closures a script registers as event listeners, in closure-converted
    form: each script declares its own. *)
Context {Listener : Type}.

Record State := mkState {
  document : Document;
  console : list ConsoleEntry;
  listeners : list (EventTarget * string * Listener)
}.

(** How a call ends: it returns, or it throws to its caller. *)
Inductive Completion (A : Type) :=
  | Normal (a : A) (s : State)
  | Throw (e : Exception) (s : State).
Global Arguments Normal {A} a s.
Global Arguments Throw {A} e s.

Definition M (A : Type) : Type := State -> Completion A.

Definition ret {A} (a : A) : M A := fun s => Normal a s.

Definition bind {A B} (m : M A) (k : A -> M B) : M B :=
  fun s =>
    match m s with
    | Normal a s' => k a s'
    | Throw e s' => Throw e s'
    end.

Definition throw {A} (e : Exception) : M A := fun s => Throw e s.

Definition gets {A} (f : Document -> A) : M A :=
  fun s => Normal (f (document s)) s.

Definition modify (f : Document -> Document) : M unit :=
  fun s => Normal tt (mkState (f (document s)) (console s) (listeners s)).

(** [list.forEach(f)] *)
Fixpoint forEach {A} (l : list A) (f : A -> M unit) : M unit :=
  match l with
  | [] => ret tt
  | x :: l' => bind (f x) (fun _ => forEach l' f)
  end.

(** *** Queries *)

Definition has_class (c : string) (e : Element) : bool :=
  bool_decide (c ∈ classList e).

(** The element is in the document and of class [c]. *)
Definition matches (c : string) (e : Element) : bool :=
  connected e && has_class c e.

(** [document.querySelectorAll('.c')]: the nodes of class [c] that are in
    the document, in document order. *)
Definition nodes_of_class (c : string) (d : Document) : list node :=
  omap (fun x => x) (imap (fun i e => if matches c e then Some i else None) d).

Definition querySelectorAll (c : string) : M (list node) :=
  gets (nodes_of_class c).

(** [document.getElementById(id)]: the first element in the document with
    that id, [None] for [null].  The empty string is the id of no
    element. *)
Definition element_by_id (id : string) (d : Document) : option node :=
  fst <$> list_find (fun e => connected e = true ∧ el_id e = Some id ∧ id ≠ "") d.

Definition getElementById (id : string) : M (option node) :=
  gets (element_by_id id).

Fixpoint assoc (k : string) (l : list (string * string)) : option string :=
  match l with
  | [] => None
  | (k', v) :: l' => if bool_decide (k' = k) then Some v else assoc k l'
  end.

(** [el.getAttribute(name)], [None] for [null], for a name other than
    [id], [class] and [style]; the scripts ask for [data-section],
    [data-subsection] and [data-element]. *)
Definition attribute_of (n : node) (name : string) (d : Document) : option string :=
  e ← d !! n; assoc name (attributes e).

Definition getAttribute (n : node) (name : string) : M (option string) :=
  gets (attribute_of n name).

(** [parseFloat(el.value)] *)
Definition value_of (n : node) (d : Document) : number :=
  match d !! n with
  | Some e => value e
  | None => NaN
  end.

Definition parseFloat_value (n : node) : M number := gets (value_of n).

(** [el.classList.contains(c)] *)
Definition contains (d : Document) (n : node) (c : string) : bool :=
  match d !! n with
  | Some e => has_class c e
  | None => false
  end.

(** *** Updates

    An update of a node beyond the end of the list changes nothing; the
    scripts only update nodes they got from a query. *)

Definition add_token (c : string) (e : Element) : Element :=
  mkElement (el_id e)
    (if has_class c e then classList e else classList e ++ [c])
    (attributes e) (value e) (textContent e) (style_color e)
    (parent e) (connected e).

Definition remove_token (c : string) (e : Element) : Element :=
  mkElement (el_id e) (filter (fun x => x ≠ c) (classList e))
    (attributes e) (value e) (textContent e) (style_color e)
    (parent e) (connected e).

Definition with_textContent (t : string) (e : Element) : Element :=
  mkElement (el_id e) (classList e) (attributes e) (value e) t (style_color e)
    (parent e) (connected e).

Definition with_color (c : string) (e : Element) : Element :=
  mkElement (el_id e) (classList e) (attributes e) (value e) (textContent e) c
    (parent e) (connected e).

(** [n] is reached from [i] by following [parentElement], in at most
    [fuel] steps: [i] is inside [n]. *)
Fixpoint inside (fuel : nat) (d : Document) (n i : node) : bool :=
  match fuel with
  | O => false
  | S fuel =>
      match d !! i with
      | Some e =>
          match parent e with
          | Some p => bool_decide (p = n) || inside fuel d n p
          | None => false
          end
      | None => false
      end
  end.

(** [i] is a descendant of [n].  A chain of parents in a document has
    fewer steps than the document has elements. *)
Definition is_descendant (d : Document) (n i : node) : bool :=
  inside (length d) d n i.

(** An element that leaves the document with the content of [n]: a child
    of [n] loses its parent, a deeper descendant keeps its own. *)
Definition removed (n : node) (e : Element) : Element :=
  mkElement (el_id e) (classList e) (attributes e) (value e) (textContent e)
    (style_color e)
    (if bool_decide (parent e = Some n) then None else parent e) false.

(** The document after [el.textContent = t] on node [n]: the content of
    [n] is replaced by the text [t], so that every descendant of [n] is
    removed from the document. *)
Definition assign_textContent (n : node) (t : string) (d : Document) : Document :=
  imap (fun i e =>
          if bool_decide (i = n) then with_textContent t e
          else if is_descendant d n i then removed n e
          else e) d.

(** [el.classList.add(c)] *)
Definition classList_add (n : node) (c : string) : M unit :=
  modify (alter (add_token c) n).

(** [el.classList.remove(c)] *)
Definition classList_remove (n : node) (c : string) : M unit :=
  modify (alter (remove_token c) n).

(** [el.textContent = t] *)
Definition set_textContent (n : node) (t : string) : M unit :=
  modify (assign_textContent n t).

(** [el.style.color = c], for a colour [c] of CSS, as the two the scripts
    assign are. *)
Definition set_color (n : node) (c : string) : M unit :=
  modify (alter (with_color c) n).

(** *** Console and listeners *)

Definition console_call (l : Level) (args : list string) : M unit :=
  fun s => Normal tt (mkState (document s) (console s ++ [(l, args)]) (listeners s)).

Definition console_log := console_call LevelLog.
Definition console_warn := console_call LevelWarn.
Definition console_error := console_call LevelError.

(** [target.addEventListener(type, listener)] *)
Definition addEventListener (target : EventTarget) (type : string) (f : Listener) : M unit :=
  fun s => Normal tt
    (mkState (document s) (console s) (listeners s ++ [(target, type, f)])).

(** Member access on the result of a query: a [TypeError] on [null]. *)
Definition member_of (o : option node) : M node :=
  match o with
  | Some n => ret n
  | None => throw (TypeError "Cannot read properties of null")
  end.

(** String conversion of a nullable string, as [+] and
    [getElementById] apply it to their operand. *)
Definition ToString (o : option string) : string :=
  match o with
  | Some s => s
  | None => "null"
  end.
End WithListeners.
Global Arguments State : clear implicits.
Global Arguments Completion : clear implicits.
Global Arguments M : clear implicits.
End DOM.
Import DOM.

Declare Scope dom_scope.
Delimit Scope dom_scope with dom.
Notation "x ← y ; z" := (bind y (fun x => z)) (only parsing) : dom_scope.
Notation "x ;; z" := (bind x (fun _ => z)) (only parsing) : dom_scope.


(** ** What the calculators' closures capture

    Each calculator looks its elements up once, and the functions it
    declares inside share them.  Both scripts use the same names. *)

Record OhmsLawElements := mkOhmsLawElements {
  voltageSlider : node;
  resistanceSlider : node;
  voltageDisplay : node;
  resistanceDisplay : node;
  currentDisplay : node
}.

Record KCLElements := mkKCLElements {
  i1Slider : node;
  i2Slider : node;
  i1Display : node;
  i2Display : node;
  i3Display : node
}.

Record KVLElements := mkKVLElements {
  sourceVoltageSlider : node;
  v1Slider : node;
  v2Slider : node;
  sourceVoltageDisplay : node;
  v1Display : node;
  v2Display : node;
  voltageSumDisplay : node;
  validationDisplay : node
}.

(** ** [src/lab.js] *)

Module Lab.

Inductive Listener :=
  | NavButtonClick (navButtons contentSections : list node) (button : node)
  | ElementTabClick (elementTabs elementPanels : list node) (tab : node)
  | UpdateVoltage (els : OhmsLawElements)
  | UpdateResistance (els : OhmsLawElements)
  | UpdateI1 (els : KCLElements)
  | UpdateI2 (els : KCLElements)
  | UpdateSourceVoltage (els : KVLElements)
  | UpdateV1 (els : KVLElements)
  | UpdateV2 (els : KVLElements)
  | InitApp.

Section Script.
Variable NumberToString : Q -> string.
Local Abbreviation toFixed := (toFixed NumberToString).
Local Abbreviation M := (M Listener).
Local Open Scope dom_scope.

(** *** Navigation *)

(** The click listener of a navigation button. *)
Definition navButton_onclick (navButtons contentSections : list node) (button : node) : M unit :=
  targetSection ← getAttribute button "data-section";
  match targetSection with
  | None | Some "" =>
      console_error ["No data-section attribute found on button"]
  | Some targetSection =>
      targetElement ← getElementById targetSection;
      match targetElement with
      | None => console_error ["Target section not found:"; targetSection]
      | Some targetElement =>
          forEach navButtons (fun btn => classList_remove btn "active");;
          forEach contentSections (fun section => classList_remove section "active");;
          classList_add button "active";;
          classList_add targetElement "active"
      end
  end.

Definition initNavigation : M unit :=
  navButtons ← querySelectorAll "nav-btn";
  contentSections ← querySelectorAll "content-section";
  if (length navButtons =? 0)%nat then
    console_error ["Navigation buttons not found!"]
  else if (length contentSections =? 0)%nat then
    console_error ["Content sections not found!"]
  else
    forEach navButtons (fun button =>
      addEventListener (TheNode button) "click"
        (NavButtonClick navButtons contentSections button)).

(** *** Ohm's law *)

Definition updateOhmsLawCurrent (els : OhmsLawElements) : M unit :=
  voltage ← parseFloat_value (voltageSlider els);
  resistance ← parseFloat_value (resistanceSlider els);
  let current := calculateOhmsLaw voltage resistance in
  set_textContent (currentDisplay els) (toFixed 2 current ++ " A").

Definition updateVoltage (els : OhmsLawElements) : M unit :=
  voltage ← parseFloat_value (voltageSlider els);
  set_textContent (voltageDisplay els) (toFixed 1 voltage ++ " V");;
  updateOhmsLawCurrent els.

Definition updateResistance (els : OhmsLawElements) : M unit :=
  resistance ← parseFloat_value (resistanceSlider els);
  set_textContent (resistanceDisplay els) (toFixed 1 resistance ++ " Ω");;
  updateOhmsLawCurrent els.

Definition initOhmsLaw : M unit :=
  voltageSlider ← getElementById "voltage";
  resistanceSlider ← getElementById "resistance";
  voltageDisplay ← getElementById "voltage-value";
  resistanceDisplay ← getElementById "resistance-value";
  currentDisplay ← getElementById "current-value";
  match voltageSlider, resistanceSlider, voltageDisplay, resistanceDisplay, currentDisplay with
  | Some voltageSlider, Some resistanceSlider, Some voltageDisplay,
    Some resistanceDisplay, Some currentDisplay =>
      let els := mkOhmsLawElements voltageSlider resistanceSlider voltageDisplay
                   resistanceDisplay currentDisplay in
      addEventListener (TheNode voltageSlider) "input" (UpdateVoltage els);;
      addEventListener (TheNode resistanceSlider) "input" (UpdateResistance els);;
      updateVoltage els;;
      updateResistance els;;
      updateOhmsLawCurrent els
  | _, _, _, _, _ =>
      console_warn ["Ohm's Law elements not found, skipping initialization"]
  end.

(** *** Kirchhoff's current law *)

Definition updateKCLCurrent (els : KCLElements) : M unit :=
  i1 ← parseFloat_value (i1Slider els);
  i2 ← parseFloat_value (i2Slider els);
  let i3 := calculateKCL i1 i2 in
  set_textContent (i3Display els) (toFixed 2 i3 ++ " A").

Definition updateI1 (els : KCLElements) : M unit :=
  i1 ← parseFloat_value (i1Slider els);
  set_textContent (i1Display els) (toFixed 1 i1 ++ " A");;
  updateKCLCurrent els.

Definition updateI2 (els : KCLElements) : M unit :=
  i2 ← parseFloat_value (i2Slider els);
  set_textContent (i2Display els) (toFixed 1 i2 ++ " A");;
  updateKCLCurrent els.

Definition initKCL : M unit :=
  i1Slider ← getElementById "i1";
  i2Slider ← getElementById "i2";
  i1Display ← getElementById "i1-value";
  i2Display ← getElementById "i2-value";
  i3Display ← getElementById "i3-value";
  match i1Slider, i2Slider, i1Display, i2Display, i3Display with
  | Some i1Slider, Some i2Slider, Some i1Display, Some i2Display, Some i3Display =>
      let els := mkKCLElements i1Slider i2Slider i1Display i2Display i3Display in
      addEventListener (TheNode i1Slider) "input" (UpdateI1 els);;
      addEventListener (TheNode i2Slider) "input" (UpdateI2 els);;
      updateI1 els;;
      updateI2 els;;
      updateKCLCurrent els
  | _, _, _, _, _ =>
      console_warn ["KCL elements not found, skipping initialization"]
  end.

(** *** Kirchhoff's voltage law *)

Definition validateKVL (els : KVLElements) : M unit :=
  sourceVoltage ← parseFloat_value (sourceVoltageSlider els);
  v1 ← parseFloat_value (v1Slider els);
  v2 ← parseFloat_value (v2Slider els);
  let voltageSum := calculateKVL v1 v2 in
  set_textContent (voltageSumDisplay els) (toFixed 2 voltageSum ++ " V");;
  if isKVLBalanced sourceVoltage voltageSum then
    set_textContent (validationDisplay els) "✓ Equation is balanced";;
    set_color (validationDisplay els) "#4ade80"
  else
    let difference := Math_abs (sourceVoltage - voltageSum) in
    set_textContent (validationDisplay els)
      ("⚠ Difference: " ++ toFixed 2 difference ++ " V");;
    set_color (validationDisplay els) "#fbbf24".

Definition updateSourceVoltage (els : KVLElements) : M unit :=
  sourceVoltage ← parseFloat_value (sourceVoltageSlider els);
  set_textContent (sourceVoltageDisplay els) (toFixed 1 sourceVoltage ++ " V");;
  validateKVL els.

Definition updateV1 (els : KVLElements) : M unit :=
  v1 ← parseFloat_value (v1Slider els);
  set_textContent (v1Display els) (toFixed 1 v1 ++ " V");;
  validateKVL els.

Definition updateV2 (els : KVLElements) : M unit :=
  v2 ← parseFloat_value (v2Slider els);
  set_textContent (v2Display els) (toFixed 1 v2 ++ " V");;
  validateKVL els.

Definition initKVL : M unit :=
  sourceVoltageSlider ← getElementById "source-voltage";
  v1Slider ← getElementById "v1";
  v2Slider ← getElementById "v2";
  sourceVoltageDisplay ← getElementById "source-voltage-value";
  v1Display ← getElementById "v1-value";
  v2Display ← getElementById "v2-value";
  voltageSumDisplay ← getElementById "voltage-sum-value";
  validationDisplay ← getElementById "kvl-validation";
  match sourceVoltageSlider, v1Slider, v2Slider, sourceVoltageDisplay,
        v1Display, v2Display, voltageSumDisplay, validationDisplay with
  | Some sourceVoltageSlider, Some v1Slider, Some v2Slider, Some sourceVoltageDisplay,
    Some v1Display, Some v2Display, Some voltageSumDisplay, Some validationDisplay =>
      let els := mkKVLElements sourceVoltageSlider v1Slider v2Slider sourceVoltageDisplay
                   v1Display v2Display voltageSumDisplay validationDisplay in
      addEventListener (TheNode sourceVoltageSlider) "input" (UpdateSourceVoltage els);;
      addEventListener (TheNode v1Slider) "input" (UpdateV1 els);;
      addEventListener (TheNode v2Slider) "input" (UpdateV2 els);;
      updateSourceVoltage els;;
      updateV1 els;;
      updateV2 els;;
      validateKVL els
  | _, _, _, _, _, _, _, _ =>
      console_warn ["KVL elements not found, skipping initialization"]
  end.

(** *** Element tabs *)

(** The click listener of an element tab. *)
Definition elementTab_onclick (elementTabs elementPanels : list node) (tab : node) : M unit :=
  targetElement ← getAttribute tab "data-element";
  match targetElement with
  | None | Some "" =>
      console_error ["No data-element attribute found on tab"]
  | Some targetElement =>
      targetPanel ← getElementById (targetElement ++ "-panel");
      match targetPanel with
      | None => console_error ["Target panel not found:"; targetElement]
      | Some targetPanel =>
          forEach elementTabs (fun t => classList_remove t "active");;
          forEach elementPanels (fun p => classList_remove p "active");;
          classList_add tab "active";;
          classList_add targetPanel "active"
      end
  end.

Definition initElementTabs : M unit :=
  elementTabs ← querySelectorAll "element-tab";
  elementPanels ← querySelectorAll "element-panel";
  if (length elementTabs =? 0)%nat || (length elementPanels =? 0)%nat then
    ret tt
  else
    forEach elementTabs (fun tab =>
      addEventListener (TheNode tab) "click"
        (ElementTabClick elementTabs elementPanels tab)).

(** *** Start *)

Definition initApp : M unit :=
  initNavigation;;
  initElementTabs;;
  initOhmsLaw;;
  initKCL;;
  initKVL;;
  console_log ["Electrical Circuit Laws application initialized successfully!"].

(** The script itself only registers [initApp]. *)
Definition script : M unit :=
  addEventListener TheDocument "DOMContentLoaded" InitApp.

(** Calling a registered listener. *)
Definition call (f : Listener) : M unit :=
  match f with
  | NavButtonClick navButtons contentSections button =>
      navButton_onclick navButtons contentSections button
  | ElementTabClick elementTabs elementPanels tab =>
      elementTab_onclick elementTabs elementPanels tab
  | UpdateVoltage els => updateVoltage els
  | UpdateResistance els => updateResistance els
  | UpdateI1 els => updateI1 els
  | UpdateI2 els => updateI2 els
  | UpdateSourceVoltage els => updateSourceVoltage els
  | UpdateV1 els => updateV1 els
  | UpdateV2 els => updateV2 els
  | InitApp => initApp
  end.
End Script.
End Lab.

(** ** [src/unnamed/part_000] *)

Module Part000.

Inductive Listener :=
  | NavLinkClick (navLinks contentSections : list node) (link : node)
  | DataNavButtonClick (dataNavButtons dataSubsections : list node) (button : node)
  | ElementTabClick (elementTabs elementPanels : list node) (tab : node)
  | UpdateVoltage (els : OhmsLawElements)
  | UpdateResistance (els : OhmsLawElements)
  | UpdateI1 (els : KCLElements)
  | UpdateI2 (els : KCLElements)
  | UpdateSourceVoltage (els : KVLElements)
  | UpdateV1 (els : KVLElements)
  | UpdateV2 (els : KVLElements)
  | InitApp.

Section Script.
Variable NumberToString : Q -> string.
Local Abbreviation toFixed := (toFixed NumberToString).
Local Abbreviation M := (M Listener).
Local Open Scope dom_scope.

(** *** Main navigation *)

(** The click listener of a navigation link.  [e.preventDefault()] has no
    effect on the document.  The target is used as it comes: a missing
    attribute is looked up as the id ["null"], and the element found is
    dereferenced without a test. *)
Definition navLink_onclick (navLinks contentSections : list node) (link : node) : M unit :=
  targetSection ← getAttribute link "data-section";
  forEach navLinks (fun l => classList_remove l "active");;
  forEach contentSections (fun s => classList_remove s "active");;
  classList_add link "active";;
  target ← getElementById (ToString targetSection);
  target ← member_of target;
  classList_add target "active".

Definition initMainNavigation : M unit :=
  navLinks ← querySelectorAll "nav-link";
  contentSections ← querySelectorAll "content-section";
  forEach navLinks (fun link =>
    addEventListener (TheNode link) "click"
      (NavLinkClick navLinks contentSections link)).

(** *** Data subsection navigation *)

(** The click listener of a data navigation button. *)
Definition dataNavButton_onclick (dataNavButtons dataSubsections : list node) (button : node) : M unit :=
  targetSubsection ← getAttribute button "data-subsection";
  forEach dataNavButtons (fun btn => classList_remove btn "active");;
  forEach dataSubsections (fun sub => classList_remove sub "active");;
  classList_add button "active";;
  targetElement ← getElementById (ToString targetSubsection ++ "-subsection");
  match targetElement with
  | Some targetElement => classList_add targetElement "active"
  | None => ret tt
  end.

Definition initDataNavigation : M unit :=
  dataNavButtons ← querySelectorAll "data-nav-btn";
  dataSubsections ← querySelectorAll "data-subsection";
  forEach dataNavButtons (fun button =>
    addEventListener (TheNode button) "click"
      (DataNavButtonClick dataNavButtons dataSubsections button)).

(** *** Element tabs *)

(** The click listener of an element tab. *)
Definition elementTab_onclick (elementTabs elementPanels : list node) (tab : node) : M unit :=
  targetElement ← getAttribute tab "data-element";
  match targetElement with
  | None | Some "" => ret tt
  | Some targetElement =>
      targetPanel ← getElementById (targetElement ++ "-panel");
      match targetPanel with
      | None => ret tt
      | Some targetPanel =>
          forEach elementTabs (fun t => classList_remove t "active");;
          forEach elementPanels (fun p => classList_remove p "active");;
          classList_add tab "active";;
          classList_add targetPanel "active"
      end
  end.

Definition initElementTabs : M unit :=
  elementTabs ← querySelectorAll "element-tab";
  elementPanels ← querySelectorAll "element-panel";
  forEach elementTabs (fun tab =>
    addEventListener (TheNode tab) "click"
      (ElementTabClick elementTabs elementPanels tab)).

(** *** Ohm's law *)

Definition updateCurrent (els : OhmsLawElements) : M unit :=
  voltage ← parseFloat_value (voltageSlider els);
  resistance ← parseFloat_value (resistanceSlider els);
  let current := calculateOhmsLaw voltage resistance in
  set_textContent (currentDisplay els) (toFixed 2 current ++ " A").

Definition updateVoltage (els : OhmsLawElements) : M unit :=
  voltage ← parseFloat_value (voltageSlider els);
  set_textContent (voltageDisplay els) (toFixed 1 voltage ++ " V");;
  updateCurrent els.

Definition updateResistance (els : OhmsLawElements) : M unit :=
  resistance ← parseFloat_value (resistanceSlider els);
  set_textContent (resistanceDisplay els) (toFixed 1 resistance ++ " Ω");;
  updateCurrent els.

Definition initOhmsLaw : M unit :=
  voltageSlider ← getElementById "voltage";
  resistanceSlider ← getElementById "resistance";
  voltageDisplay ← getElementById "voltage-value";
  resistanceDisplay ← getElementById "resistance-value";
  currentDisplay ← getElementById "current-value";
  match voltageSlider, resistanceSlider, voltageDisplay, resistanceDisplay, currentDisplay with
  | Some voltageSlider, Some resistanceSlider, Some voltageDisplay,
    Some resistanceDisplay, Some currentDisplay =>
      let els := mkOhmsLawElements voltageSlider resistanceSlider voltageDisplay
                   resistanceDisplay currentDisplay in
      addEventListener (TheNode voltageSlider) "input" (UpdateVoltage els);;
      addEventListener (TheNode resistanceSlider) "input" (UpdateResistance els);;
      updateVoltage els;;
      updateResistance els;;
      updateCurrent els
  | _, _, _, _, _ => ret tt
  end.

(** *** Kirchhoff's current law *)

Definition updateKCLCurrent (els : KCLElements) : M unit :=
  i1 ← parseFloat_value (i1Slider els);
  i2 ← parseFloat_value (i2Slider els);
  let i3 := calculateKCL i1 i2 in
  set_textContent (i3Display els) (toFixed 2 i3 ++ " A").

Definition updateI1 (els : KCLElements) : M unit :=
  i1 ← parseFloat_value (i1Slider els);
  set_textContent (i1Display els) (toFixed 1 i1 ++ " A");;
  updateKCLCurrent els.

Definition updateI2 (els : KCLElements) : M unit :=
  i2 ← parseFloat_value (i2Slider els);
  set_textContent (i2Display els) (toFixed 1 i2 ++ " A");;
  updateKCLCurrent els.

Definition initKCL : M unit :=
  i1Slider ← getElementById "i1";
  i2Slider ← getElementById "i2";
  i1Display ← getElementById "i1-value";
  i2Display ← getElementById "i2-value";
  i3Display ← getElementById "i3-value";
  match i1Slider, i2Slider, i1Display, i2Display, i3Display with
  | Some i1Slider, Some i2Slider, Some i1Display, Some i2Display, Some i3Display =>
      let els := mkKCLElements i1Slider i2Slider i1Display i2Display i3Display in
      addEventListener (TheNode i1Slider) "input" (UpdateI1 els);;
      addEventListener (TheNode i2Slider) "input" (UpdateI2 els);;
      updateI1 els;;
      updateI2 els;;
      updateKCLCurrent els
  | _, _, _, _, _ => ret tt
  end.

(** *** Kirchhoff's voltage law *)

Definition validateKVL (els : KVLElements) : M unit :=
  sourceVoltage ← parseFloat_value (sourceVoltageSlider els);
  v1 ← parseFloat_value (v1Slider els);
  v2 ← parseFloat_value (v2Slider els);
  let voltageSum := calculateKVL v1 v2 in
  set_textContent (voltageSumDisplay els) (toFixed 2 voltageSum ++ " V");;
  if isKVLBalanced sourceVoltage voltageSum then
    set_textContent (validationDisplay els) "✓ معادله متعادل است";;
    set_color (validationDisplay els) "#4ade80"
  else
    let difference := Math_abs (sourceVoltage - voltageSum) in
    set_textContent (validationDisplay els)
      ("⚠ تفاوت: " ++ toFixed 2 difference ++ " V");;
    set_color (validationDisplay els) "#fbbf24".

Definition updateSourceVoltage (els : KVLElements) : M unit :=
  sourceVoltage ← parseFloat_value (sourceVoltageSlider els);
  set_textContent (sourceVoltageDisplay els) (toFixed 1 sourceVoltage ++ " V");;
  validateKVL els.

Definition updateV1 (els : KVLElements) : M unit :=
  v1 ← parseFloat_value (v1Slider els);
  set_textContent (v1Display els) (toFixed 1 v1 ++ " V");;
  validateKVL els.

Definition updateV2 (els : KVLElements) : M unit :=
  v2 ← parseFloat_value (v2Slider els);
  set_textContent (v2Display els) (toFixed 1 v2 ++ " V");;
  validateKVL els.

Definition initKVL : M unit :=
  sourceVoltageSlider ← getElementById "source-voltage";
  v1Slider ← getElementById "v1";
  v2Slider ← getElementById "v2";
  sourceVoltageDisplay ← getElementById "source-voltage-value";
  v1Display ← getElementById "v1-value";
  v2Display ← getElementById "v2-value";
  voltageSumDisplay ← getElementById "voltage-sum-value";
  validationDisplay ← getElementById "kvl-validation";
  match sourceVoltageSlider, v1Slider, v2Slider, sourceVoltageDisplay,
        v1Display, v2Display, voltageSumDisplay, validationDisplay with
  | Some sourceVoltageSlider, Some v1Slider, Some v2Slider, Some sourceVoltageDisplay,
    Some v1Display, Some v2Display, Some voltageSumDisplay, Some validationDisplay =>
      let els := mkKVLElements sourceVoltageSlider v1Slider v2Slider sourceVoltageDisplay
                   v1Display v2Display voltageSumDisplay validationDisplay in
      addEventListener (TheNode sourceVoltageSlider) "input" (UpdateSourceVoltage els);;
      addEventListener (TheNode v1Slider) "input" (UpdateV1 els);;
      addEventListener (TheNode v2Slider) "input" (UpdateV2 els);;
      updateSourceVoltage els;;
      updateV1 els;;
      updateV2 els;;
      validateKVL els
  | _, _, _, _, _, _, _, _ => ret tt
  end.

(** *** Start *)

Definition initApp : M unit :=
  initMainNavigation;;
  initDataNavigation;;
  initElementTabs;;
  initOhmsLaw;;
  initKCL;;
  initKVL;;
  console_log ["Electrical Circuits platform initialized successfully!"].

(** The script itself only registers [initApp]. *)
Definition script : M unit :=
  addEventListener TheDocument "DOMContentLoaded" InitApp.

(** Calling a registered listener. *)
Definition call (f : Listener) : M unit :=
  match f with
  | NavLinkClick navLinks contentSections link =>
      navLink_onclick navLinks contentSections link
  | DataNavButtonClick dataNavButtons dataSubsections button =>
      dataNavButton_onclick dataNavButtons dataSubsections button
  | ElementTabClick elementTabs elementPanels tab =>
      elementTab_onclick elementTabs elementPanels tab
  | UpdateVoltage els => updateVoltage els
  | UpdateResistance els => updateResistance els
  | UpdateI1 els => updateI1 els
  | UpdateI2 els => updateI2 els
  | UpdateSourceVoltage els => updateSourceVoltage els
  | UpdateV1 els => updateV1 els
  | UpdateV2 els => updateV2 els
  | InitApp => initApp
  end.
End Script.
End Part000.

(** ** Vocabulary of the statements *)

(** The call returns to its caller (it does not throw). *)
Definition returns {L A} (m : M L A) (s : State L) : Prop :=
  exists a s', m s = Normal a s'.

(** The call returns having done nothing but the console calls [report]:
    no element changed and no listener registered. *)
Definition early_return {L} (m : M L unit) (s : State L) (report : list ConsoleEntry) : Prop :=
  m s = Normal tt (mkState (document s) (console s ++ report) (listeners s)).

(** The element carries the [active] mark. *)
Definition active (d : Document) (n : node) : Prop :=
  contains d n "active" = true.

(** Exactly one node of the list is active. *)
Definition exactly_one_active (d : Document) (l : list node) : Prop :=
  exists x, x ∈ l /\ forall y, y ∈ l -> (active d y <-> y = x).

(** The call returns, and afterwards [selector] is the one active node
    among [selectors] and [target] the one active node among [sections]. *)
Definition selects {L} (selectors sections : list node) (selector target : node)
    (c : Completion L unit) : Prop :=
  exists s', c = Normal tt s' /\
    (forall x, x ∈ selectors -> (active (document s') x <-> x = selector)) /\
    (forall x, x ∈ sections -> (active (document s') x <-> x = target)).

(** The binary64 numbers: [m * 2^e] with [|m| < 2^53] and an exponent in
    range. *)
Definition binary64 (x : Q) : Prop :=
  exists m e : Z,
    (Z.abs m < 2 ^ 53)%Z /\ (-1074 <= e <= 971)%Z /\ (x == inject_Z m * pow2 e)%Q.

(** The tolerance of [isKVLBalanced] as the binary64 number it is,
    [5764607523034235 / 2^59], and the midpoint between it and the binary64
    number before it, [11529215046068469 / 2^60]. *)
Definition tolerance64 : Q := 5764607523034235 # 576460752303423488.
Definition balance_threshold : Q := 11529215046068469 # 1152921504606846976.

(** No element has [n] as its parent: [n] has no child element. *)
Definition childless (n : node) (d : Document) : Prop :=
  Forall (fun e => parent e <> Some n) d.

(** [n] is a display of the page: an element in the document without child
    elements, which shows its own text. *)
Definition display (n : node) (d : Document) : Prop :=
  (exists e, d !! n = Some e /\ connected e = true) /\ childless n d.

(** The own text of the element, wherever it is. *)
Definition own_text (n : node) (d : Document) : option string :=
  textContent <$> d !! n.

(** The text the page shows at [n]: the [el.textContent] of a display,
    nothing for another node. *)
Definition shown (n : node) (d : Document) : option string :=
  match d !! n with
  | Some e =>
      if connected e && bool_decide (childless n d) then Some (textContent e) else None
  | None => None
  end.

(** Some id of the list is the id of no element. *)
Definition some_missing (ids : list string) (d : Document) : Prop :=
  exists id, id ∈ ids /\ element_by_id id d = None.

(** The document after [classList.remove(c)] on each node of [l]. *)
Definition remove_all (c : string) (l : list node) (d : Document) : Document :=
  foldl (fun d n => alter (remove_token c) n d) d l.

(** The ids each calculator looks up. *)
Definition ohms_law_ids : list string :=
  ["voltage"; "resistance"; "voltage-value"; "resistance-value"; "current-value"].

Definition kcl_ids : list string :=
  ["i1"; "i2"; "i1-value"; "i2-value"; "i3-value"].

Definition kvl_ids : list string :=
  ["source-voltage"; "v1"; "v2"; "source-voltage-value"; "v1-value"; "v2-value";
   "voltage-sum-value"; "kvl-validation"].

(** What [!attr] tests of an attribute: it is missing or empty. *)
Definition falsy (o : option string) : Prop := o = None \/ o = Some "".

(** The guards of [lab.js]: the operation, a document in which an element it
    expects is missing, and the console calls it then makes. *)
Inductive lab_guard (f : Q -> string) :
    M Lab.Listener unit -> Document -> list ConsoleEntry -> Prop :=
  | lab_no_nav_buttons d :
      nodes_of_class "nav-btn" d = [] ->
      lab_guard f Lab.initNavigation d
        [(LevelError, ["Navigation buttons not found!"])]
  | lab_no_content_sections d :
      nodes_of_class "nav-btn" d <> [] ->
      nodes_of_class "content-section" d = [] ->
      lab_guard f Lab.initNavigation d
        [(LevelError, ["Content sections not found!"])]
  | lab_nav_no_attribute d navButtons contentSections button :
      falsy (attribute_of button "data-section" d) ->
      lab_guard f (Lab.navButton_onclick navButtons contentSections button) d
        [(LevelError, ["No data-section attribute found on button"])]
  | lab_nav_no_target d navButtons contentSections button a :
      attribute_of button "data-section" d = Some a -> a <> "" ->
      element_by_id a d = None ->
      lab_guard f (Lab.navButton_onclick navButtons contentSections button) d
        [(LevelError, ["Target section not found:"; a])]
  | lab_no_element_tabs d :
      nodes_of_class "element-tab" d = [] \/ nodes_of_class "element-panel" d = [] ->
      lab_guard f Lab.initElementTabs d []
  | lab_tab_no_attribute d elementTabs elementPanels tab :
      falsy (attribute_of tab "data-element" d) ->
      lab_guard f (Lab.elementTab_onclick elementTabs elementPanels tab) d
        [(LevelError, ["No data-element attribute found on tab"])]
  | lab_tab_no_target d elementTabs elementPanels tab a :
      attribute_of tab "data-element" d = Some a -> a <> "" ->
      element_by_id (a ++ "-panel") d = None ->
      lab_guard f (Lab.elementTab_onclick elementTabs elementPanels tab) d
        [(LevelError, ["Target panel not found:"; a])]
  | lab_no_ohms_law d :
      some_missing ohms_law_ids d ->
      lab_guard f (Lab.initOhmsLaw f) d
        [(LevelWarn, ["Ohm's Law elements not found, skipping initialization"])]
  | lab_no_kcl d :
      some_missing kcl_ids d ->
      lab_guard f (Lab.initKCL f) d
        [(LevelWarn, ["KCL elements not found, skipping initialization"])]
  | lab_no_kvl d :
      some_missing kvl_ids d ->
      lab_guard f (Lab.initKVL f) d
        [(LevelWarn, ["KVL elements not found, skipping initialization"])].

(** The guards of [part_000], which make no console call. *)
Inductive part000_guard (f : Q -> string) :
    M Part000.Listener unit -> Document -> Prop :=
  | part000_tab_no_attribute d elementTabs elementPanels tab :
      falsy (attribute_of tab "data-element" d) ->
      part000_guard f (Part000.elementTab_onclick elementTabs elementPanels tab) d
  | part000_tab_no_target d elementTabs elementPanels tab a :
      attribute_of tab "data-element" d = Some a -> a <> "" ->
      element_by_id (a ++ "-panel") d = None ->
      part000_guard f (Part000.elementTab_onclick elementTabs elementPanels tab) d
  | part000_no_ohms_law d :
      some_missing ohms_law_ids d ->
      part000_guard f (Part000.initOhmsLaw f) d
  | part000_no_kcl d :
      some_missing kcl_ids d ->
      part000_guard f (Part000.initKCL f) d
  | part000_no_kvl d :
      some_missing kvl_ids d ->
      part000_guard f (Part000.initKVL f) d.

(** The functions of each script, its listeners apart. *)
Definition lab_functions (f : Q -> string) : list (M Lab.Listener unit) :=
  [ Lab.initNavigation; Lab.initElementTabs; Lab.initOhmsLaw f; Lab.initKCL f;
    Lab.initKVL f; Lab.initApp f; Lab.script ].

Definition part000_functions (f : Q -> string) : list (M Part000.Listener unit) :=
  [ Part000.initMainNavigation; Part000.initDataNavigation; Part000.initElementTabs;
    Part000.initOhmsLaw f; Part000.initKCL f; Part000.initKVL f; Part000.initApp f;
    Part000.script ].

Definition is_NavLinkClick (l : Part000.Listener) : bool :=
  match l with
  | Part000.NavLinkClick _ _ _ => true
  | _ => false
  end.

(** The document after a selection: [active] removed from every selector
    and every section, then added to [selector] and to [target]. *)
Definition activated (selectors sections : list node) (selector target : node)
    (d : Document) : Document :=
  alter (add_token "active") target
    (alter (add_token "active") selector
       (remove_all "active" sections (remove_all "active" selectors d))).

(** ** Two pages

    A page for each script, with a navigation button whose section does not
    exist and the sliders of the voltage-law panel at 12 V, 5 V and 6 V. *)

Definition element (id : option string) (classes : list string)
    (attrs : list (string * string)) (v : number) : Element :=
  mkElement id classes attrs v "" "" None true.

Definition lab_page : Document :=
  [ element None ["nav-btn"; "active"] [("data-section", "ohms-law")] NaN;
    element None ["nav-btn"] [("data-section", "kvl")] NaN;
    element None ["nav-btn"] [("data-section", "power")] NaN;
    element (Some "ohms-law") ["content-section"; "active"] [] NaN;
    element (Some "kvl") ["content-section"] [] NaN;
    element (Some "source-voltage") [] [] (Num 12);
    element (Some "v1") [] [] (Num 5);
    element (Some "v2") [] [] (Num 6);
    element (Some "source-voltage-value") [] [] NaN;
    element (Some "v1-value") [] [] NaN;
    element (Some "v2-value") [] [] NaN;
    element (Some "voltage-sum-value") [] [] NaN;
    element (Some "kvl-validation") [] [] NaN ].

Definition lab_state : State Lab.Listener := mkState lab_page [] [].

Definition part000_page : Document :=
  [ element None ["nav-link"; "active"] [("data-section", "home")] NaN;
    element None ["nav-link"] [("data-section", "about")] NaN;
    element (Some "home") ["content-section"; "active"] [] NaN;
    element None ["data-nav-btn"; "active"] [("data-subsection", "tables")] NaN;
    element None ["data-nav-btn"] [("data-subsection", "charts")] NaN;
    element (Some "tables-subsection") ["data-subsection"; "active"] [] NaN;
    element None ["element-tab"; "active"] [("data-element", "resistor")] NaN;
    element None ["element-tab"] [("data-element", "diode")] NaN;
    element (Some "resistor-panel") ["element-panel"; "active"] [] NaN;
    element (Some "source-voltage") [] [] (Num 12);
    element (Some "v1") [] [] (Num 5);
    element (Some "v2") [] [] (Num 6);
    element (Some "source-voltage-value") [] [] NaN;
    element (Some "v1-value") [] [] NaN;
    element (Some "v2-value") [] [] NaN;
    element (Some "voltage-sum-value") [] [] NaN;
    element (Some "kvl-validation") [] [] NaN ].

Definition part000_state : State Part000.Listener := mkState part000_page [] [].

(** The elements [initKVL] finds on the two pages. *)
Definition lab_kvl : KVLElements := mkKVLElements 5 6 7 8 9 10 11 12.

(** ** Vocabulary of the further properties *)

(** The state a call leaves, whether it returns or throws. *)
Definition state_of {L A} (c : Completion L A) : State L :=
  match c with
  | Normal _ s => s
  | Throw _ s => s
  end.

(** The colour last assigned to [el.style.color], as the script wrote
    it. *)
Definition assigned_color (n : node) (d : Document) : option string :=
  style_color <$> d !! n.

(** Two versions of an element with the same id, attributes and value. *)
Definition same_identity (e e' : Element) : Prop :=
  el_id e = el_id e' /\ attributes e = attributes e' /\ value e = value e'.

(** Two versions of an element that differ at most in the [active] mark:
    same id, attributes, value, text, colour, parent and presence in the
    document, and the same classes other than [active]. *)
Definition same_but_active (e e' : Element) : Prop :=
  same_identity e e' /\
  textContent e = textContent e' /\
  style_color e = style_color e' /\
  parent e = parent e' /\
  connected e = connected e' /\
  forall c, c <> "active" -> (c ∈ classList e <-> c ∈ classList e').

(** Two versions of an element with the same id, attributes, value and
    classes. *)
Definition same_but_display (e e' : Element) : Prop :=
  same_identity e e' /\ classList e = classList e'.


(** What a call may change: the nodes stay the same, each element stays
    within [R] of what it was, and the console and the listeners only
    grow. *)
Definition changes_within {L A} (R : Element -> Element -> Prop)
    (m : M L A) (s : State L) : Prop :=
  Forall2 R (document s) (document (state_of (m s))) /\
  console s `prefix_of` console (state_of (m s)) /\
  listeners s `prefix_of` listeners (state_of (m s)).

(** The section a navigation button of [lab.js] leads to, if any: what its
    click listener computes before it changes anything. *)
Definition lab_nav_target (button : node) (d : Document) : option node :=
  match attribute_of button "data-section" d with
  | None | Some "" => None
  | Some targetSection => element_by_id targetSection d
  end.

(** The panel an element tab leads to, if any (both scripts). *)
Definition tab_target (tab : node) (d : Document) : option node :=
  match attribute_of tab "data-element" d with
  | None | Some "" => None
  | Some targetElement => element_by_id (targetElement ++ "-panel") d
  end.

(** The section a navigation link of [part_000] leads to, if any. *)
Definition part000_nav_target (link : node) (d : Document) : option node :=
  element_by_id (ToString (attribute_of link "data-section" d)) d.

(** The subsection a data navigation button of [part_000] leads to, if
    any. *)
Definition part000_data_target (button : node) (d : Document) : option node :=
  element_by_id (ToString (attribute_of button "data-subsection" d) ++ "-subsection") d.

(** The click listeners a navigation function registers, one per selector
    and in the order of the selectors. *)
Definition click_listeners {L} (make : node -> L) (selectors : list node) :
    list (EventTarget * string * L) :=
  map (fun x => (TheNode x, "click", make x)) selectors.

(** A page with the Ohm's law panel and the current-law panel, its sliders
    at the given values; the page of [lab.js] with 10 V, 5 Ω, 3 A and 4 A;
    and the elements [initOhmsLaw] and [initKCL] find on it. *)
Definition panels_page (voltage resistance i1 i2 : number) : Document :=
  [ element (Some "voltage") [] [] voltage;
    element (Some "resistance") [] [] resistance;
    element (Some "voltage-value") [] [] NaN;
    element (Some "resistance-value") [] [] NaN;
    element (Some "current-value") [] [] NaN;
    element (Some "i1") [] [] i1;
    element (Some "i2") [] [] i2;
    element (Some "i1-value") [] [] NaN;
    element (Some "i2-value") [] [] NaN;
    element (Some "i3-value") [] [] NaN ].

Definition lab_panels_page : Document :=
  panels_page (Num 10) (Num 5) (Num 3) (Num 4).

Definition lab_ohms_law : OhmsLawElements := mkOhmsLawElements 0 1 2 3 4.
Definition lab_kcl : KCLElements := mkKCLElements 5 6 7 8 9.

(** The Ohm's law panel with an element for the unit inside the current
    display. *)
Definition nested_page : Document :=
  [ element (Some "voltage") [] [] (Num 10);
    element (Some "resistance") [] [] (Num 5);
    element (Some "voltage-value") [] [] NaN;
    element (Some "resistance-value") [] [] NaN;
    element (Some "current-value") [] [] NaN;
    mkElement (Some "unit") ["unit"] [] NaN "A" "" (Some 4) true ].

(** The state after the listeners [ls] have been called one after the other,
    as the browser calls them event by event: a listener that throws ends
    there, and the next one starts from the state it left. *)
Definition lab_after (f : Q -> string) (ls : list Lab.Listener)
    (s : State Lab.Listener) : State Lab.Listener :=
  foldl (fun s l => state_of (Lab.call f l s)) s ls.

Definition part000_after (f : Q -> string) (ls : list Part000.Listener)
    (s : State Part000.Listener) : State Part000.Listener :=
  foldl (fun s l => state_of (Part000.call f l s)) s ls.

(** The click listeners of each script. *)
Definition lab_is_click (l : Lab.Listener) : bool :=
  match l with
  | Lab.NavButtonClick _ _ _ | Lab.ElementTabClick _ _ _ => true
  | _ => false
  end.

Definition part000_is_click (l : Part000.Listener) : bool :=
  match l with
  | Part000.NavLinkClick _ _ _ | Part000.DataNavButtonClick _ _ _
  | Part000.ElementTabClick _ _ _ => true
  | _ => false
  end.

(** A call that changes at most [active] marks, so that a query by any other
    class finds the same nodes after it. *)
Definition keeps_groups {L} (m : M L unit) (s : State L) : Prop :=
  changes_within same_but_active m s /\
  forall c, c <> "active" ->
    nodes_of_class c (document (state_of (m s))) = nodes_of_class c (document s).

(** The call returns and the page then shows the text [t] at [n]. *)
Definition shows {L} (c : Completion L unit) (n : node) (t : string) : Prop :=
  exists s', c = Normal tt s' /\ shown n (document s') = Some t.

(** A page with the voltage-law panel alone, its sliders at the given
    values, and the elements [initKVL] finds on it. *)
Definition kvl_panel_page (sourceVoltage v1 v2 : number) : Document :=
  [ element (Some "source-voltage") [] [] sourceVoltage;
    element (Some "v1") [] [] v1;
    element (Some "v2") [] [] v2;
    element (Some "source-voltage-value") [] [] NaN;
    element (Some "v1-value") [] [] NaN;
    element (Some "v2-value") [] [] NaN;
    element (Some "voltage-sum-value") [] [] NaN;
    element (Some "kvl-validation") [] [] NaN ].

Definition kvl_panel : KVLElements := mkKVLElements 0 1 2 3 4 5 6 7.

(** * Properties *)

(** ** Arithmetic *)

Lemma Qltb_lt (a b : Q) : Qltb a b = true <-> (a < b)%Q.
Proof.
  unfold Qltb. rewrite negb_true_iff, <- not_true_iff_false, Qle_bool_iff.
  split; [apply Qnot_le_lt | apply Qlt_not_le].
Qed.

Lemma Qred_eq (a b : Q) : (a == b)%Q -> Qred a = Qred b.
Proof. apply Qred_complete. Qed.

Lemma strict_equal_zero (r : Q) : (Num r === Num 0)%js = true <-> (r == 0)%Q.
Proof. simpl. apply Qeq_bool_iff. Qed.

Lemma strict_equal_zero_false (r : Q) : (Num r === Num 0)%js = false <-> ~ (r == 0)%Q.
Proof. rewrite <- strict_equal_zero. symmetry. apply not_true_iff_false. Qed.

(** [nearest_integer y] is within a half of [y], and a tie goes up. *)
Lemma nearest_integer_spec (y : Q) :
  (inject_Z (nearest_integer y) - (1 # 2) <= y)%Q /\
  (y < inject_Z (nearest_integer y) + (1 # 2))%Q.
Proof.
  unfold nearest_integer.
  pose proof (Qfloor_le (y + (1 # 2))) as Hle.
  pose proof (Qlt_floor (y + (1 # 2))) as Hlt.
  rewrite inject_Z_plus in Hlt. change (inject_Z 1) with 1%Q in Hlt.
  split; lra.
Qed.

(** *** Rounding *)

Section Rounding.
Local Open Scope Q_scope.

Lemma pow2_pos e : 0 < pow2 e.
Proof. apply Qpower_0_lt. reflexivity. Qed.

Lemma pow2_plus a b : pow2 (a + b) == pow2 a * pow2 b.
Proof. apply Qpower_plus. discriminate. Qed.

Lemma pow2_lt a b : (a < b)%Z -> pow2 a < pow2 b.
Proof. intros H. apply Qpower_lt_compat_l; [exact H | reflexivity]. Qed.

Lemma pow2_le a b : (a <= b)%Z -> pow2 a <= pow2 b.
Proof. intros H. apply Qpower_le_compat_l; [exact H | discriminate]. Qed.

Lemma pow2_lt_inv a b : pow2 a < pow2 b -> (a < b)%Z.
Proof.
  intros H. destruct (Z_lt_le_dec a b) as [|Hle]; [assumption |].
  apply pow2_le in Hle. lra.
Qed.

Lemma pow2_nat (n : Z) : (0 <= n)%Z -> pow2 n == inject_Z (2 ^ n).
Proof. intros H. unfold pow2. rewrite Zpower_Qpower by exact H. reflexivity. Qed.

Lemma pow2_succ a : pow2 (a + 1) == 2 * pow2 a.
Proof. rewrite pow2_plus. change (pow2 1) with 2. ring. Qed.


Lemma ilog2_spec x : 0 < x -> pow2 (ilog2 x) <= x /\ x < pow2 (ilog2 x + 1).
Proof.
  intros Hx. destruct x as [n d]. unfold ilog2. cbn [Qnum Qden].
  assert (Hn : (0 < n)%Z).
  { unfold Qlt in Hx. simpl in Hx. lia. }
  set (a := Z.log2 n). set (b := Z.log2 (Z.pos d)).
  assert (Ha : (2 ^ a <= n < 2 ^ (a + 1))%Z).
  { unfold a. pose proof (Z.log2_spec n Hn). replace (a + 1)%Z with (Z.succ (Z.log2 n)) by (unfold a; lia). lia. }
  assert (Hb : (2 ^ b <= Z.pos d < 2 ^ (b + 1))%Z).
  { unfold b. pose proof (Z.log2_spec (Z.pos d) ltac:(lia)). replace (b + 1)%Z with (Z.succ (Z.log2 (Z.pos d))) by (unfold b; lia). lia. }
  assert (Ha0 : (0 <= a)%Z) by apply Z.log2_nonneg.
  assert (Hb0 : (0 <= b)%Z) by apply Z.log2_nonneg.
  assert (Eq : n # d == inject_Z n / inject_Z (Z.pos d)) by apply Qmake_Qdiv.
  assert (Hd : 0 < inject_Z (Z.pos d)) by (unfold Qlt; simpl; lia).
  (* bounds in Q *)
  assert (Qa1 : pow2 a <= inject_Z n).
  { rewrite pow2_nat by lia. rewrite <- Zle_Qle. lia. }
  assert (Qa2 : inject_Z n < pow2 (a + 1)).
  { rewrite pow2_nat by lia. rewrite <- Zlt_Qlt. lia. }
  assert (Qb1 : pow2 b <= inject_Z (Z.pos d)).
  { rewrite pow2_nat by lia. rewrite <- Zle_Qle. lia. }
  assert (Qb2 : inject_Z (Z.pos d) < pow2 (b + 1)).
  { rewrite pow2_nat by lia. rewrite <- Zlt_Qlt. lia. }
  assert (U : n # d < pow2 (a - b + 1)).
  { rewrite Eq. apply Qlt_shift_div_r; [exact Hd |].
    eapply Qlt_le_trans; [exact Qa2 |].
    replace (a + 1)%Z with ((a - b + 1) + b)%Z by lia. rewrite pow2_plus.
    apply Qmult_le_l; [apply pow2_pos | exact Qb1]. }
  assert (Lo : pow2 (a - b - 1) < n # d).
  { rewrite Eq. apply Qlt_shift_div_l; [exact Hd |].
    eapply Qlt_le_trans; [| exact Qa1].
    replace a with ((a - b - 1) + (b + 1))%Z at 2 by lia. rewrite pow2_plus.
    apply Qmult_lt_l; [apply pow2_pos | exact Qb2]. }
  destruct (Qle_bool (pow2 (a - b)) (n # d)) eqn:E.
  - apply Qle_bool_iff in E. split; assumption.
  - assert (E' : n # d < pow2 (a - b)).
    { apply Qnot_le_lt. intros H. apply Qle_bool_iff in H. congruence. }
    replace (a - b - 1 + 1)%Z with (a - b)%Z by lia.
    split; [apply Qlt_le_weak; exact Lo | exact E'].
Qed.

Lemma ilog2_unique x e : pow2 e <= x -> x < pow2 (e + 1) -> ilog2 x = e.
Proof.
  intros H1 H2.
  assert (Hx : 0 < x) by (pose proof (pow2_pos e); lra).
  destruct (ilog2_spec x Hx) as [S1 S2].
  assert (A : (ilog2 x < e + 1)%Z) by (apply pow2_lt_inv; lra).
  assert (B : (e < ilog2 x + 1)%Z) by (apply pow2_lt_inv; lra).
  lia.
Qed.

Lemma ilog2_comp x y : 0 < x -> x == y -> ilog2 x = ilog2 y.
Proof.
  intros Hx E. symmetry. destruct (ilog2_spec x Hx).
  apply ilog2_unique; rewrite <- E; assumption.
Qed.

Lemma ilog2_le x y : 0 < x -> x <= y -> (ilog2 x <= ilog2 y)%Z.
Proof.
  intros Hx Hxy. destruct (ilog2_spec x Hx), (ilog2_spec y ltac:(lra)).
  assert (A : (ilog2 x < ilog2 y + 1)%Z) by (apply pow2_lt_inv; lra). lia.
Qed.

Lemma round_half_even_spec x :
  inject_Z (round_half_even x) - (1 # 2) <= x /\ x <= inject_Z (round_half_even x) + (1 # 2).
Proof.
  unfold round_half_even.
  pose proof (Qfloor_le x) as Hle. pose proof (Qlt_floor x) as Hlt.
  rewrite inject_Z_plus in Hlt. change (inject_Z 1) with 1 in Hlt.
  destruct (x - inject_Z (Qfloor x) ?= 1 # 2) eqn:E.
  - apply Qeq_alt in E. destruct (Z.even (Qfloor x));
      rewrite ?inject_Z_plus; change (inject_Z 1) with 1; split; lra.
  - apply Qlt_alt in E. split; lra.
  - apply Qgt_alt in E. rewrite inject_Z_plus. change (inject_Z 1) with 1. split; lra.
Qed.

Lemma round_half_even_comp x y : x == y -> round_half_even x = round_half_even y.
Proof.
  intros E. unfold round_half_even.
  assert (F : Qfloor x = Qfloor y) by (rewrite E; reflexivity).
  rewrite F.
  assert (C : (x - inject_Z (Qfloor y) ?= 1 # 2) = (y - inject_Z (Qfloor y) ?= 1 # 2))
    by (rewrite E; reflexivity).
  rewrite C. reflexivity.
Qed.

Lemma round_half_even_Z (k : Z) : round_half_even (inject_Z k) = k.
Proof.
  unfold round_half_even. rewrite Qfloor_Z.
  assert (E : (inject_Z k - inject_Z k ?= 1 # 2) = Lt).
  { apply (proj1 (Qlt_alt _ _)). generalize (inject_Z k). intros q. lra. }
  rewrite E. reflexivity.
Qed.

Lemma round_half_even_le x y : x <= y -> (round_half_even x <= round_half_even y)%Z.
Proof.
  intros H.
  destruct (round_half_even_spec x) as [X1 X2], (round_half_even_spec y) as [Y1 Y2].
  destruct (Z_le_gt_dec (round_half_even x) (round_half_even y)) as [| G]; [assumption |].
  exfalso.
  assert (G' : inject_Z (round_half_even y) + 1 <= inject_Z (round_half_even x)).
  { change 1 with (inject_Z 1). rewrite <- inject_Z_plus, <- Zle_Qle. lia. }
  assert (E : x == y) by lra.
  apply round_half_even_comp in E. lia.
Qed.

Lemma ulp64_pos x : 0 < ulp64 x.
Proof. apply pow2_pos. Qed.


Lemma ulp64_comp x y : 0 < x -> x == y -> ulp64 x = ulp64 y.
Proof. intros Hx E. unfold ulp64. rewrite (ilog2_comp x y Hx E). reflexivity. Qed.

Lemma nearest64_comp x y : 0 < x -> x == y -> nearest64 x == nearest64 y.
Proof.
  intros Hx E. unfold nearest64. rewrite (ulp64_comp x y Hx E).
  rewrite (round_half_even_comp (x / ulp64 y) (y / ulp64 y)) by (rewrite E; reflexivity).
  reflexivity.
Qed.

Lemma nearest64_error x : Qabs (nearest64 x - x) <= ulp64 x / 2.
Proof.
  unfold nearest64. pose proof (ulp64_pos x) as Hu.
  destruct (round_half_even_spec (x / ulp64 x)) as [A B].
  assert (X : x == (x / ulp64 x) * ulp64 x) by (field; lra).
  set (m := inject_Z (round_half_even (x / ulp64 x))) in *.
  set (q := x / ulp64 x) in *. set (u := ulp64 x) in *.
  clearbody m q u.
  assert (H1 : (q - (1 # 2)) * u <= m * u) by (apply Qmult_le_compat_r; lra).
  assert (H2 : m * u <= (q + (1 # 2)) * u) by (apply Qmult_le_compat_r; lra).
  assert (E1 : (q - (1 # 2)) * u == q * u - u / 2) by field.
  assert (E2 : (q + (1 # 2)) * u == q * u + u / 2) by field.
  set (a := q * u) in *. set (b := m * u) in *. clearbody a b.
  apply Qabs_Qle_condition. split; lra.
Qed.

Lemma Qred_involutive q : Qred (Qred q) = Qred q.
Proof. apply Qred_complete, Qred_correct. Qed.




Lemma Qle_bool_comp a b c d : a == c -> b == d -> Qle_bool a b = Qle_bool c d.
Proof.
  intros E1 E2. apply eq_true_iff_eq. rewrite !Qle_bool_iff, E1, E2. reflexivity.
Qed.

Lemma round64_pos_comp x y : 0 < x -> x == y -> round64_pos x = round64_pos y.
Proof.
  intros Hx E. unfold round64_pos. cbv zeta.
  pose proof (nearest64_comp x y Hx E) as N.
  rewrite (Qle_bool_comp (pow2 1024) (nearest64 x) (pow2 1024) (nearest64 y))
    by (reflexivity || exact N).
  rewrite (Qred_eq _ _ N). reflexivity.
Qed.

Lemma Qcompare_0_comp x y : x == y -> (x ?= 0) = (y ?= 0).
Proof. intros E. rewrite E. reflexivity. Qed.

(** Rounding sees the value of a fraction, not the way it is written. *)

Lemma round64_comp x y : x == y -> round64 x = round64 y.
Proof.
  intros E. unfold round64. rewrite <- (Qcompare_0_comp x y E).
  destruct (x ?= 0) eqn:C; [reflexivity | |].
  - apply Qlt_alt in C. f_equal. apply round64_pos_comp; [lra | rewrite E; reflexivity].
  - apply Qgt_alt in C. apply round64_pos_comp; [lra | exact E].
Qed.

Lemma num_neg_involutive_pos r : num_neg (num_neg (round64_pos r)) = round64_pos r.
Proof.
  unfold round64_pos. cbv zeta. destruct (Qle_bool _ _); [reflexivity |].
  simpl. f_equal. rewrite <- (Qred_involutive (nearest64 r)) at 2.
  apply Qred_eq. rewrite !Qred_correct. ring.
Qed.

(** Rounding is odd. *)

Lemma round64_opp x : round64 (- x) = num_neg (round64 x).
Proof.
  unfold round64.
  destruct (x ?= 0) eqn:C.
  - apply Qeq_alt in C. assert (E : (- x ?= 0) = Eq) by (apply (proj1 (Qeq_alt _ _)); lra).
    rewrite E. reflexivity.
  - apply Qlt_alt in C. assert (E : (- x ?= 0) = Gt) by (apply (proj1 (Qgt_alt _ _)); lra).
    rewrite E. symmetry. apply num_neg_involutive_pos.
  - apply Qgt_alt in C. assert (E : (- x ?= 0) = Lt) by (apply (proj1 (Qlt_alt _ _)); lra).
    rewrite E. f_equal. apply round64_pos_comp; [lra | ring].
Qed.

(** A finite result is in lowest terms. *)


Lemma nearest64_nonneg x : 0 < x -> 0 <= nearest64 x.
Proof.
  intros Hx. unfold nearest64.
  apply Qmult_le_0_compat; [| apply Qlt_le_weak, ulp64_pos].
  change 0 with (inject_Z 0). rewrite <- Zle_Qle.
  rewrite <- (round_half_even_Z 0). apply round_half_even_le.
  apply Qlt_le_weak, Qlt_shift_div_l; [apply ulp64_pos |].
  change (inject_Z 0) with 0. rewrite Qmult_0_l. exact Hx.
Qed.

(** The result is within half a unit in the last place of the operand. *)

Lemma round64_error x q :
  round64 x = Num q -> Qabs (q - x) <= ulp64 (Qabs x) / 2.
Proof.
  unfold round64, round64_pos. cbv zeta.
  destruct (x ?= 0) eqn:C.
  - apply Qeq_alt in C. intros [= <-].
    pose proof (ulp64_pos (Qabs x)).
    assert (E : 0 - x == 0) by lra. rewrite E. change (Qabs 0) with 0.
    apply Qlt_le_weak, Qlt_shift_div_l; [reflexivity | lra].
  - apply Qlt_alt in C. destruct (Qle_bool _ _); [discriminate |]. cbn [num_neg]. intros [= <-].
    pose proof (nearest64_error (- x)) as H.
    assert (A : Qabs x == - x) by (apply Qabs_neg; lra).
    rewrite (ulp64_comp (Qabs x) (- x)) by (lra || exact A).
    assert (E : Qred (- Qred (nearest64 (- x))) - x == - (nearest64 (- x) - - x)).
    { rewrite !Qred_correct. ring. }
    rewrite E, Qabs_opp. exact H.
  - apply Qgt_alt in C. destruct (Qle_bool _ _); [discriminate |]. intros [= <-].
    pose proof (nearest64_error x) as H.
    assert (A : Qabs x == x) by (apply Qabs_pos; lra).
    rewrite (ulp64_comp (Qabs x) x) by (lra || exact A).
    rewrite Qred_correct. exact H.
Qed.

(** The unit in the last place of a number in the normal range is at most
    [2^-52] times the number. *)

Lemma ulp64_relative y :
  pow2 (-1022) <= y -> ulp64 y <= y * pow2 (-52).
Proof.
  intros Hy. pose proof (pow2_pos (-1022)) as P.
  assert (Hpos : 0 < y) by lra.
  destruct (ilog2_spec y Hpos) as [L U].
  assert (Hge : (-1022 <= ilog2 y)%Z).
  { apply Z.lt_succ_r, pow2_lt_inv. unfold Z.succ. lra. }
  unfold ulp64. rewrite Z.max_l by lia.
  replace (ilog2 y - 52)%Z with (ilog2 y + -52)%Z by lia.
  rewrite pow2_plus. apply Qmult_le_compat_r; [exact L |].
  apply Qlt_le_weak, pow2_pos.
Qed.

Lemma ulp64_subnormal y :
  0 < y -> y < pow2 (-1022) -> ulp64 y = pow2 (-1074).
Proof.
  intros Hpos Hy. destruct (ilog2_spec y Hpos) as [L U].
  assert (Hlt : (ilog2 y < -1022)%Z) by (apply pow2_lt_inv; lra).
  unfold ulp64. rewrite Z.max_r by lia. reflexivity.
Qed.

Lemma ulp64_le x y : 0 < x -> x <= y -> ulp64 x <= ulp64 y.
Proof.
  intros Hx H. unfold ulp64. apply pow2_le.
  pose proof (ilog2_le x y Hx H). lia.
Qed.

Lemma nearest64_bounds x :
  x - ulp64 x * (1 # 2) <= nearest64 x /\ nearest64 x <= x + ulp64 x * (1 # 2).
Proof.
  pose proof (nearest64_error x) as H.
  assert (E : ulp64 x / 2 == ulp64 x * (1 # 2)) by field.
  rewrite E in H. apply Qabs_Qle_condition in H. split; lra.
Qed.

Lemma nearest64_in_binade y (e : Z) :
  pow2 e <= y -> y < pow2 (e + 1) -> (-1022 <= e)%Z ->
  nearest64 y == inject_Z (round_half_even (y / pow2 (e - 52))) * pow2 (e - 52).
Proof.
  intros L U He. unfold nearest64, ulp64.
  rewrite (ilog2_unique y e L U). rewrite Z.max_l by lia. reflexivity.
Qed.

Lemma nearest64_below_tolerance y :
  0 < y -> (nearest64 y < tolerance64 <-> y <= balance_threshold).
Proof.
  intros Hy.
  assert (P7 : pow2 (-7) == 1 # 128) by reflexivity.
  assert (P6 : pow2 (-7 + 1) == 1 # 64) by reflexivity.
  assert (P59 : pow2 (-7 - 52) == 1 # 576460752303423488) by reflexivity.
  assert (P52 : pow2 (-52) == 1 # 4503599627370496) by reflexivity.
  assert (P1022 : pow2 (-1022) <= pow2 (-7)) by (apply pow2_le; lia).
  unfold tolerance64, balance_threshold.
  destruct (Qlt_le_dec y (pow2 (-7))) as [Hsmall | H7].
  - (* below the binade of the tolerance *)
    split; [intros _; lra |]. intros _.
    destruct (nearest64_bounds y) as [_ B].
    assert (Hu : ulp64 y <= ulp64 (pow2 (-7))) by (apply ulp64_le; lra).
    assert (E : ulp64 (pow2 (-7)) == 1 # 576460752303423488).
    { unfold ulp64. rewrite (ilog2_unique (pow2 (-7)) (-7)); [reflexivity | lra | lra]. }
    lra.
  - destruct (Qlt_le_dec y (pow2 (-7 + 1))) as [H6 | Hbig].
    + (* in the binade of the tolerance *)
      rewrite (nearest64_in_binade y (-7) H7 H6) by lia.
      set (q := y / pow2 (-7 - 52)).
      assert (Eq : y == q * (1 # 576460752303423488)).
      { unfold q. rewrite <- P59. field. pose proof (pow2_pos (-7 - 52)). lra. }
      rewrite P59. clearbody q.
      destruct (round_half_even_spec q) as [S1 S2].
      split.
      * intros H. destruct (Qlt_le_dec balance_threshold y) as [Hgt |]; [exfalso | assumption].
        unfold balance_threshold in Hgt.
        assert (Hm : (5764607523034234 < round_half_even q)%Z).
        { rewrite Zlt_Qlt. change (inject_Z 5764607523034234) with (5764607523034234 # 1).
          lra. }
        assert (Hm' : (5764607523034235 <= round_half_even q)%Z) by lia.
        rewrite Zle_Qle in Hm'.
        change (inject_Z 5764607523034235) with (5764607523034235 # 1) in Hm'. lra.
      * intros H.
        assert (Hq : q <= 11529215046068469 # 2) by lra.
        apply round_half_even_le in Hq.
        assert (Ev : round_half_even (11529215046068469 # 2) = 5764607523034234%Z)
          by (vm_compute; reflexivity).
        rewrite Ev, Zle_Qle in Hq.
        change (inject_Z 5764607523034234) with (5764607523034234 # 1) in Hq. lra.
    + (* above it *)
      split; [| intros; lra]. intros H. exfalso.
      destruct (nearest64_bounds y) as [B _].
      assert (Hu : ulp64 y <= y * pow2 (-52)) by (apply ulp64_relative; lra).
      rewrite P52 in Hu. lra.
Qed.

Lemma literal_tolerance : literal 0.01 = Num tolerance64.
Proof. vm_compute. reflexivity. Qed.

Lemma Math_abs_num_neg x : Math_abs (num_neg x) = Math_abs x.
Proof.
  destruct x as [q | | s]; [| reflexivity | reflexivity].
  simpl. f_equal. apply Qred_eq. rewrite Qred_correct. apply Qabs_opp.
Qed.

Lemma round64_pos_below_tolerance y :
  0 < y ->
  num_lt (Math_abs (round64_pos y)) (Num tolerance64) = true <-> y <= balance_threshold.
Proof.
  intros Hy. rewrite <- (nearest64_below_tolerance y Hy).
  unfold round64_pos. cbv zeta.
  destruct (Qle_bool (pow2 1024) (nearest64 y)) eqn:O.
  - apply Qle_bool_iff in O. cbn [Math_abs num_lt].
    split; [discriminate |]. intros H. exfalso.
    assert (P : tolerance64 < pow2 1024).
    { apply Qlt_le_trans with (pow2 0); [reflexivity | apply pow2_le; lia]. }
    lra.
  - cbn [Math_abs num_lt]. rewrite Qltb_lt.
    pose proof (nearest64_nonneg y Hy) as N.
    assert (E : Qred (Qabs (Qred (nearest64 y))) == nearest64 y).
    { rewrite !Qred_correct. apply Qabs_pos. exact N. }
    rewrite E. reflexivity.
Qed.

Lemma round64_below_tolerance z :
  num_lt (Math_abs (round64 z)) (Num tolerance64) = true <-> Qabs z <= balance_threshold.
Proof.
  unfold round64. destruct (z ?= 0) eqn:C.
  - apply Qeq_alt in C. rewrite C. split; [intros _ | reflexivity]. discriminate.
  - apply Qlt_alt in C. rewrite Math_abs_num_neg.
    rewrite round64_pos_below_tolerance by lra.
    rewrite (Qabs_neg z) by lra. reflexivity.
  - apply Qgt_alt in C. rewrite round64_pos_below_tolerance by lra.
    rewrite (Qabs_pos z) by lra. reflexivity.
Qed.

(** Below the largest binary64 number plus half its unit the result is
    finite. *)

Lemma round64_pos_finite y :
  0 < y -> y < pow2 1024 - pow2 970 -> round64_pos y = Num (Qred (nearest64 y)).
Proof.
  intros Hy Hlt. unfold round64_pos. cbv zeta.
  destruct (Qle_bool (pow2 1024) (nearest64 y)) eqn:O; [exfalso | reflexivity].
  apply Qle_bool_iff in O.
  destruct (nearest64_bounds y) as [_ B].
  destruct (ilog2_spec y Hy) as [L _].
  pose proof (pow2_pos 970) as P.
  assert (He : (ilog2 y < 1024)%Z) by (apply pow2_lt_inv; lra).
  assert (Hu : ulp64 y <= pow2 (970 + 1)).
  { unfold ulp64. apply pow2_le. lia. }
  rewrite pow2_succ in Hu. lra.
Qed.

Lemma round64_finite x :
  Qabs x < pow2 1024 - pow2 970 -> exists q, round64 x = Num q.
Proof.
  intros H. unfold round64. destruct (x ?= 0) eqn:C.
  - eexists. reflexivity.
  - apply Qlt_alt in C. rewrite (Qabs_neg x) in H by lra.
    rewrite round64_pos_finite by lra. eexists. reflexivity.
  - apply Qgt_alt in C. rewrite (Qabs_pos x) in H by lra.
    rewrite round64_pos_finite by lra. eexists. reflexivity.
Qed.

Lemma round64_relative x q :
  round64 x = Num q -> pow2 (-1022) <= Qabs x -> Qabs (q - x) <= Qabs x * pow2 (-53).
Proof.
  intros H Hx. apply round64_error in H.
  pose proof (ulp64_relative (Qabs x) Hx) as U.
  assert (E : ulp64 (Qabs x) / 2 == ulp64 (Qabs x) * (1 # 2)) by field.
  rewrite E in H.
  assert (P : pow2 (-53) == pow2 (-52) * (1 # 2)) by reflexivity.
  rewrite P. set (a := Qabs x * pow2 (-52)) in *.
  assert (A : Qabs x * (pow2 (-52) * (1 # 2)) == a * (1 # 2)) by (unfold a; ring).
  rewrite A. clearbody a. lra.
Qed.

Lemma round64_absolute x q :
  round64 x = Num q -> Qabs x < pow2 (-1022) -> Qabs (q - x) <= pow2 (-1075).
Proof.
  intros H Hx. destruct (Qeq_dec x 0) as [Z | NZ].
  - rewrite (round64_comp x 0 Z) in H. injection H as <-.
    assert (E : 0 - x == 0) by lra. rewrite E. discriminate.
  - apply round64_error in H.
    assert (Hpos : 0 < Qabs x).
    { destruct (Q_dec x 0) as [[Hl | Hg] | He];
        [rewrite Qabs_neg by lra; lra | rewrite Qabs_pos by lra; lra | contradiction]. }
    rewrite (ulp64_subnormal (Qabs x) Hpos Hx) in H. exact H.
Qed.

Lemma nearest64_exact (m e : Z) :
  (0 < m < 2 ^ 53)%Z -> (-1074 <= e <= 971)%Z ->
  nearest64 (inject_Z m * pow2 e) == inject_Z m * pow2 e /\
  inject_Z m * pow2 e < pow2 1024.
Proof.
  intros Hm He. set (x := inject_Z m * pow2 e).
  pose proof (pow2_pos e) as Pe.
  assert (Hm0 : 0 < inject_Z m).
  { change 0 with (inject_Z 0). rewrite <- Zlt_Qlt. lia. }
  assert (Hx : 0 < x) by (unfold x; apply Qmult_lt_0_compat; assumption).
  assert (Hm53 : inject_Z m < pow2 53).
  { rewrite (pow2_nat 53) by lia. rewrite <- Zlt_Qlt. lia. }
  assert (Hup : x < pow2 (e + 53)).
  { unfold x. rewrite pow2_plus, (Qmult_comm (pow2 e)).
    apply Qmult_lt_r; assumption. }
  split.
  - destruct (ilog2_spec x Hx) as [L _].
    assert (HE : (ilog2 x < e + 53)%Z) by (apply pow2_lt_inv; lra).
    unfold nearest64, ulp64. fold x.
    set (k := (Z.max (ilog2 x) (-1022) - 52)%Z).
    assert (Hk : (k <= e)%Z) by (unfold k; lia).
    pose proof (pow2_pos k) as Pk.
    assert (Ee : pow2 e == inject_Z (2 ^ (e - k)) * pow2 k).
    { rewrite <- pow2_nat by lia. rewrite <- pow2_plus. f_equiv. lia. }
    assert (Ex : x / pow2 k == inject_Z (m * 2 ^ (e - k))).
    { unfold x. rewrite Ee, inject_Z_mult. field. lra. }
    rewrite (round_half_even_comp _ _ Ex), round_half_even_Z.
    unfold x. rewrite Ee, inject_Z_mult. ring.
  - apply Qlt_le_trans with (pow2 (e + 53)); [exact Hup | apply pow2_le; lia].
Qed.

(** A binary64 number rounds to itself. *)

Lemma round64_exact x : binary64 x -> round64 x = Num (Qred x).
Proof.
  intros (m & e & Hm & He & E).
  rewrite (round64_comp x _ E), (Qred_eq x _ E).
  destruct (Z.lt_trichotomy m 0) as [Hneg | [-> | Hpos]].
  - assert (Em : inject_Z m * pow2 e == - (inject_Z (- m) * pow2 e)).
    { rewrite inject_Z_opp. ring. }
    rewrite (round64_comp _ _ Em), (Qred_eq _ _ Em), round64_opp.
    destruct (nearest64_exact (- m) e) as [N B]; [lia | lia |].
    pose proof (pow2_pos e) as Pe.
    assert (Hx : 0 < inject_Z (- m) * pow2 e).
    { apply Qmult_lt_0_compat; [| assumption].
      change 0 with (inject_Z 0). rewrite <- Zlt_Qlt. lia. }
    unfold round64.
    assert (C : (inject_Z (- m) * pow2 e ?= 0) = Gt) by (apply (proj1 (Qgt_alt _ _)); lra).
    rewrite C. unfold round64_pos. cbv zeta.
    assert (O : Qle_bool (pow2 1024) (nearest64 (inject_Z (- m) * pow2 e)) = false).
    { apply not_true_iff_false. rewrite Qle_bool_iff. lra. }
    rewrite O. cbn [num_neg]. f_equal. apply Qred_eq. rewrite Qred_correct, N. reflexivity.
  - assert (Z0 : inject_Z 0 * pow2 e == 0) by (change (inject_Z 0) with 0; ring).
    rewrite (round64_comp _ _ Z0), (Qred_eq _ _ Z0). reflexivity.
  - destruct (nearest64_exact m e) as [N B]; [lia | lia |].
    pose proof (pow2_pos e) as Pe.
    assert (Hx : 0 < inject_Z m * pow2 e).
    { apply Qmult_lt_0_compat; [| assumption].
      change 0 with (inject_Z 0). rewrite <- Zlt_Qlt. lia. }
    unfold round64.
    assert (C : (inject_Z m * pow2 e ?= 0) = Gt) by (apply (proj1 (Qgt_alt _ _)); lra).
    rewrite C. unfold round64_pos. cbv zeta.
    assert (O : Qle_bool (pow2 1024) (nearest64 (inject_Z m * pow2 e)) = false).
    { apply not_true_iff_false. rewrite Qle_bool_iff. lra. }
    rewrite O. f_equal. apply Qred_eq. exact N.
Qed.

End Rounding.

(** *** The operators and the formulas *)

Lemma num_add_comm (x y : number) : (x + y)%js = (y + x)%js.
Proof.
  destruct x as [a | | s], y as [b | | t]; unfold num_add; try reflexivity.
  - apply round64_comp, Qplus_comm.
  - destruct s, t; reflexivity.
Qed.

Lemma num_sub_finite (a b : Q) : (Num a - Num b)%js = round64 (a - b).
Proof.
  unfold num_sub, num_neg, num_add. apply round64_comp.
  rewrite Qred_correct. reflexivity.
Qed.

Lemma num_sub_antisym (a b : Q) : (Num a - Num b)%js = num_neg (Num b - Num a)%js.
Proof.
  rewrite !num_sub_finite, <- round64_opp. apply round64_comp. ring.
Qed.


Lemma calculateOhmsLaw_division (V R : Q) :
  ~ (R == 0)%Q -> calculateOhmsLaw (Num V) (Num R) = round64 (V / R).
Proof.
  intros HR. unfold calculateOhmsLaw.
  apply strict_equal_zero_false in HR as E. rewrite E.
  unfold strict_equal in E. unfold num_div. rewrite E. reflexivity.
Qed.

Example toFixed_examples (f : Q -> string) :
  toFixed f 2 (Num 11) = "11.00" /\
  toFixed f 1 (Num 12) = "12.0" /\
  toFixed f 2 (literal 2.345) = "2.35" /\
  toFixed f 2 (literal 1.005) = "1.00" /\
  toFixed f 2 (literal (-0.001)) = "-0.00" /\
  toFixed f 2 (literal 0.999) = "1.00" /\
  toFixed f 2 NaN = "NaN" /\
  toFixed f 2 (Num 5 / Num 0)%js = "Infinity".
Proof. repeat split; vm_compute; reflexivity. Qed.

(** Binary64 arithmetic at work: the sum of [0.1] and [0.2] is not [0.3],
    [1.5 / 20] is below [0.075], and a quotient beyond the range is an
    infinity. *)
Example binary64_examples (f : Q -> string) :
  literal 0.01 = Num tolerance64 /\
  (literal 0.1 + literal 0.2)%js =
    Num (Qred 0.3000000000000000444089209850062616169452667236328125) /\
  (literal 0.1 + literal 0.2 === literal 0.3)%js = false /\
  toFixed f 17 (literal 0.1 + literal 0.2)%js = "0.30000000000000004" /\
  toFixed f 2 (literal 1.5 / literal 20)%js = "0.07" /\
  toFixed f 2 (literal 0.005 + literal 1)%js = "1.00" /\
  (literal 1e308 / literal 1e-10)%js = Infinity false /\
  (literal 1e308 + literal 1e308)%js = Infinity false /\
  (literal 1e-320 / literal 1e10)%js = Num 0.
Proof. repeat split; vm_compute; reflexivity. Qed.

(** Rounding costs the formulas the laws of the reals: the sum is not
    associative, the current of a sum of voltages is not the sum of the
    currents, and adding the same voltage to both sides can change the
    balance. *)
Example laws_lost_to_rounding :
  calculateKCL (calculateKCL (literal 0.1) (literal 0.2)) (literal 0.3) <>
    calculateKCL (literal 0.1) (calculateKCL (literal 0.2) (literal 0.3)) /\
  calculateOhmsLaw (literal 0.1 + literal 0.2)%js (Num 3) <>
    (calculateOhmsLaw (literal 0.1) (Num 3) + calculateOhmsLaw (literal 0.2) (Num 3))%js /\
  isKVLBalanced (Num 0) (literal 0.5) = false /\
  isKVLBalanced (Num 0 + literal 1e17)%js (literal 0.5 + literal 1e17)%js = true.
Proof.
  repeat split; try (vm_compute; reflexivity); vm_compute; intros H; discriminate H.
Qed.

Example queries_on_lab_page :
  nodes_of_class "nav-btn" lab_page = [0; 1; 2] /\
  nodes_of_class "content-section" lab_page = [3; 4] /\
  element_by_id "kvl" lab_page = Some 4 /\
  element_by_id "power" lab_page = None /\
  attribute_of 2 "data-section" lab_page = Some "power".
Proof. repeat split; vm_compute; reflexivity. Qed.

(** [initApp] of [lab.js] on its page: the navigation and the voltage-law
    panel are set up, the two panels the page lacks are reported. *)
Example lab_initApp_on_lab_page :
  exists s',
    Lab.initApp (fun _ => "") lab_state = Normal tt s' /\
    length (listeners s') = 6 /\
    console s' =
      [ (LevelWarn, ["Ohm's Law elements not found, skipping initialization"]);
        (LevelWarn, ["KCL elements not found, skipping initialization"]);
        (LevelLog, ["Electrical Circuit Laws application initialized successfully!"]) ] /\
    shown (validationDisplay lab_kvl) (document s') =
      Some "⚠ Difference: 1.00 V".
Proof.
  eexists. split; [vm_compute; reflexivity |].
  repeat split; vm_compute; reflexivity.
Qed.

(** The guard of [calculateOhmsLaw] decides the result: without it a zero
    resistance gives a non-finite current. *)
Example division_by_zero_is_not_finite :
  (Num 5 / Num 0)%js = Infinity false /\
  (Num (-5) / Num 0)%js = Infinity true /\
  (Num 0 / Num 0)%js = NaN.
Proof. repeat split. Qed.

(** Outside the reals: a resistance or a voltage that is not a number gives
    a current that is not a number. *)
Example calculateOhmsLaw_not_a_number :
  calculateOhmsLaw (Num 0) NaN = NaN /\
  calculateOhmsLaw NaN (Num 5) = NaN /\
  calculateOhmsLaw NaN (Num 0) = Num 0.
Proof. repeat split. Qed.

Lemma isKVLBalanced_threshold (S D : Q) :
  isKVLBalanced (Num S) (Num D) = true <-> (Qabs (S - D) <= balance_threshold)%Q.
Proof.
  unfold isKVLBalanced. cbv zeta. rewrite literal_tolerance.
  rewrite num_sub_finite. apply round64_below_tolerance.
Qed.

(** C1 as stated fails: the difference is rounded before it is compared.
    The binary64 numbers nearest to [0.01] and to [5e-19] differ by less
    than [0.01], and [isKVLBalanced] is false of them, because their
    difference rounds to the tolerance itself. *)
Lemma isKVLBalanced_within_tolerance_counterexample :
  isKVLBalanced (literal 0.01) (literal 5e-19) = false /\
  exists S D : Q,
    literal 0.01 = Num S /\ literal 5e-19 = Num D /\ (Qabs (S - D) < 0.01)%Q.
Proof.
  split; [vm_compute; reflexivity |].
  eexists _, _. split; [vm_compute; reflexivity |].
  split; [vm_compute; reflexivity |]. vm_compute. reflexivity.
Qed.

(** C1, as the code has it.  For all finite [S] and [D],
    [isKVLBalanced S D] is true exactly when [|S - D|] is at most
    [11529215046068469 / 2^60], the largest difference that rounds below the
    tolerance; that bound is below [0.01], and the tolerance, the binary64
    number nearest to [0.01], is above it.  At the boundary,
    [isKVLBalanced 10 10.009] is true and [isKVLBalanced 10 10.02] is
    false. *)
Theorem isKVLBalanced_iff_within_threshold :
  (forall S D : Q,
     isKVLBalanced (Num S) (Num D) = true <-> (Qabs (S - D) <= balance_threshold)%Q) /\
  literal 0.01 = Num tolerance64 /\
  (balance_threshold < 0.01)%Q /\
  (0.01 < tolerance64)%Q /\
  (0.01 - balance_threshold < pow2 (-60))%Q /\
  isKVLBalanced (literal 10) (literal 10.009) = true /\
  isKVLBalanced (literal 10) (literal 10.02) = false.
Proof.
  split; [exact isKVLBalanced_threshold |].
  repeat split; vm_compute; reflexivity.
Qed.

(** C2 as stated fails: the quotient is rounded.  [1 / 49] is no binary64
    number, so [calculateOhmsLaw 1 49] is not [1 / 49]; [1.5 / 20] rounds
    below [0.075], so the panel shows [0.07] where the exact quotient would
    show [0.08]; and a quotient beyond the range is [Infinity]. *)
Lemma calculateOhmsLaw_exact_quotient_counterexample :
  ~ (49 == 0)%Q /\
  (exists I : Q, calculateOhmsLaw (Num 1) (Num 49) = Num I /\ ~ (I == 1 / 49)%Q) /\
  toFixed (fun _ => "") 2 (calculateOhmsLaw (Num 1.5) (Num 20)) = "0.07" /\
  toFixed (fun _ => "") 2 (Num (1.5 / 20)) = "0.08" /\
  calculateOhmsLaw (literal 1e308) (literal 1e-10) = Infinity false.
Proof.
  split; [intros H; discriminate H |].
  split; [eexists; split; [vm_compute; reflexivity | intros H; discriminate H] |].
  repeat split; vm_compute; reflexivity.
Qed.

(** C2, as the code has it.  For every finite voltage [V] and resistance
    [R] other than zero, [calculateOhmsLaw V R] is the quotient [V / R]
    rounded to binary64: it is the quotient itself when that is a binary64
    number; when finite it is within half a unit in the last place of the
    quotient, which in the normal range is within [2^-53] of it relatively;
    and it is finite when the quotient is below [2^1024 - 2^970]. *)
Theorem calculateOhmsLaw_rounded_quotient (V R : Q) :
  ~ (R == 0)%Q ->
  calculateOhmsLaw (Num V) (Num R) = round64 (V / R) /\
  (binary64 (V / R) -> calculateOhmsLaw (Num V) (Num R) = Num (Qred (V / R))) /\
  (forall I : Q, calculateOhmsLaw (Num V) (Num R) = Num I ->
     (Qabs (I - V / R) <= ulp64 (Qabs (V / R)) / 2)%Q /\
     ((pow2 (-1022) <= Qabs (V / R))%Q ->
      (Qabs (I - V / R) <= Qabs (V / R) * pow2 (-53))%Q)) /\
  ((Qabs (V / R) < pow2 1024 - pow2 970)%Q ->
   exists I : Q, calculateOhmsLaw (Num V) (Num R) = Num I).
Proof.
  intros HR. rewrite (calculateOhmsLaw_division V R HR).
  split; [reflexivity |]. split; [apply round64_exact |]. split.
  - intros I H. split; [apply round64_error, H |].
    intros Hn. apply round64_relative; assumption.
  - apply round64_finite.
Qed.

(** The scenario of C2: 10 V over 5 Ω is 2 A, shown as [2.00 A]. *)
Lemma calculateOhmsLaw_rounded_quotient_witness :
  ~ (5 == 0)%Q /\
  binary64 (10 / 5) /\
  calculateOhmsLaw (Num 10) (Num 5) = Num 2 /\
  toFixed (fun _ => "") 2 (calculateOhmsLaw (Num 10) (Num 5)) ++ " A" = "2.00 A".
Proof.
  assert (H5 : ~ (5 == 0)%Q) by (intros H; discriminate H).
  assert (B : binary64 (10 / 5)).
  { exists 2%Z, 0%Z. split; [reflexivity |]. split; [lia | reflexivity]. }
  split; [exact H5 |]. split; [exact B |].
  destruct (calculateOhmsLaw_rounded_quotient 10 5 H5) as (_ & E & _).
  rewrite (E B). split; reflexivity.
Defined.

(** C3.  For every voltage [V], finite or not, [calculateOhmsLaw V 0] is the
    number 0: the guard returns before the division. *)
Theorem calculateOhmsLaw_zero_resistance (V : number) :
  calculateOhmsLaw V (Num 0) = Num 0.
Proof. reflexivity. Qed.

(** C4 as stated fails in its first part: the sum is rounded.  The sum of
    the binary64 numbers nearest to [0.1] and [0.2] is not their exact sum
    (it prints as [0.30000000000000004]), and a sum beyond the range is
    [Infinity]. *)
Lemma calculateKCL_exact_sum_counterexample :
  (exists a b I : Q,
     literal 0.1 = Num a /\ literal 0.2 = Num b /\
     calculateKCL (Num a) (Num b) = Num I /\ ~ (I == a + b)%Q) /\
  toFixed (fun _ => "") 17 (calculateKCL (literal 0.1) (literal 0.2)) =
    "0.30000000000000004" /\
  calculateKCL (literal 1e308) (literal 1e308) = Infinity false.
Proof.
  split.
  - eexists _, _, _. split; [vm_compute; reflexivity |].
    split; [vm_compute; reflexivity |]. split; [vm_compute; reflexivity |].
    intros H. discriminate H.
  - split; vm_compute; reflexivity.
Qed.

(** C4, as the code has it.  For all finite [i1] and [i2],
    [calculateKCL i1 i2] is the sum [i1 + i2] rounded to binary64: the sum
    itself when that is a binary64 number, and when finite within half a
    unit in the last place of it.  [calculateKCL] is commutative on all
    numbers, and [calculateKCL 3 4 = 7]. *)
Theorem calculateKCL_rounded_sum_commutative :
  (forall i1 i2 : Q, calculateKCL (Num i1) (Num i2) = round64 (i1 + i2)) /\
  (forall i1 i2 : Q,
     binary64 (i1 + i2) -> calculateKCL (Num i1) (Num i2) = Num (Qred (i1 + i2))) /\
  (forall i1 i2 I : Q,
     calculateKCL (Num i1) (Num i2) = Num I ->
     (Qabs (I - (i1 + i2)) <= ulp64 (Qabs (i1 + i2)) / 2)%Q) /\
  (forall i1 i2 : number, calculateKCL i1 i2 = calculateKCL i2 i1) /\
  calculateKCL (Num 3) (Num 4) = Num 7.
Proof.
  split; [reflexivity |].
  split; [intros i1 i2; apply round64_exact |].
  split; [intros i1 i2 I; apply round64_error |].
  split; [intros i1 i2; apply num_add_comm | reflexivity].
Qed.

(** The scenario of C4: 3 A and 4 A, whose sum is a binary64 number. *)
Lemma calculateKCL_rounded_sum_commutative_witness :
  binary64 (3 + 4) /\
  calculateKCL (Num 3) (Num 4) = Num 7 /\
  (Qabs (7 - (3 + 4)) <= ulp64 (Qabs (3 + 4)) / 2)%Q.
Proof.
  assert (B : binary64 (3 + 4)).
  { exists 7%Z, 0%Z. split; [reflexivity |]. split; [lia | reflexivity]. }
  destruct calculateKCL_rounded_sum_commutative as (_ & E & R & _).
  split; [exact B |]. split; [exact (E 3%Q 4%Q B) |].
  apply (R 3%Q 4%Q 7%Q). exact (E 3%Q 4%Q B).
Defined.

(** C6.  For every real resistance [R], zero included,
    [calculateOhmsLaw 0 R] is 0: the guard gives it for [R = 0] and the
    division gives it otherwise. *)
Theorem calculateOhmsLaw_zero_voltage (R : Q) :
  calculateOhmsLaw (Num 0) (Num R) = Num 0.
Proof.
  unfold calculateOhmsLaw.
  destruct (Num R === Num 0)%js eqn:E; [reflexivity |].
  unfold strict_equal in E. unfold num_div. rewrite E.
  assert (H : (0 / R == 0)%Q) by (unfold Qdiv; apply Qmult_0_l).
  rewrite (round64_comp _ _ H). reflexivity.
Qed.

(** C10.  [calculateOhmsLaw] never divides by zero: over the division that
    reports a zero divisor, it returns on every input, with the value of
    [calculateOhmsLaw]; and on finite inputs that value is never [NaN], the
    value of [0 / 0]. *)
Theorem calculateOhmsLaw_never_divides_by_zero :
  (forall V R : number,
     calculateOhmsLaw_checked V R = Some (calculateOhmsLaw V R)) /\
  (forall V R : Q, calculateOhmsLaw (Num V) (Num R) <> NaN).
Proof.
  split.
  - intros V R. unfold calculateOhmsLaw_checked, calculateOhmsLaw, checked_div.
    destruct (R === Num 0)%js; reflexivity.
  - intros V R. unfold calculateOhmsLaw.
    destruct (Num R === Num 0)%js eqn:E; [discriminate |].
    unfold strict_equal in E. unfold num_div. rewrite E.
    unfold round64, round64_pos. cbv zeta.
    destruct (V / R ?= 0)%Q; [discriminate | |];
      destruct (Qle_bool _ _); discriminate.
Qed.


(** ** Documents under class-list updates *)

Section Documents.
Implicit Types (d : Document) (n x : node) (c : string) (f : Element -> Element).

Lemma contains_alter_ne f d n x c :
  n <> x -> contains (alter f n d) x c = contains d x c.
Proof.
  intros Hne. unfold contains. rewrite list_lookup_alter_ne by done. reflexivity.
Qed.

Lemma contains_add_token_eq d n c :
  n < length d -> contains (alter (add_token c) n d) n c = true.
Proof.
  intros Hn. unfold contains. rewrite list_lookup_alter_eq.
  destruct (lookup_lt_is_Some_2 d n Hn) as [e ->]. simpl.
  unfold add_token, has_class. simpl.
  destruct (bool_decide (c ∈ classList e)) eqn:E.
  - exact E.
  - apply bool_decide_eq_true, elem_of_app. right. apply list_elem_of_singleton. reflexivity.
Qed.

Lemma contains_remove_token d n x c :
  contains d x c = false -> contains (alter (remove_token c) n d) x c = false.
Proof.
  intros H. destruct (decide (n = x)) as [-> | Hne].
  - unfold contains in *. rewrite list_lookup_alter_eq.
    destruct (d !! x) as [e |]; [| reflexivity].
    apply bool_decide_eq_false. simpl. rewrite list_elem_of_filter. tauto.
  - rewrite contains_alter_ne; done.
Qed.

Lemma contains_remove_token_eq d n c :
  contains (alter (remove_token c) n d) n c = false.
Proof.
  unfold contains. rewrite list_lookup_alter_eq.
  destruct (d !! n) as [e |]; [| reflexivity].
  apply bool_decide_eq_false. simpl. rewrite list_elem_of_filter. tauto.
Qed.

Lemma remove_all_cons c n (l : list node) d :
  remove_all c (n :: l) d = remove_all c l (alter (remove_token c) n d).
Proof. reflexivity. Qed.

Lemma remove_all_length c (l : list node) d :
  length (remove_all c l d) = length d.
Proof.
  revert d. induction l as [| n l IH]; intros d; [reflexivity |].
  rewrite remove_all_cons, IH. apply length_alter.
Qed.

Lemma remove_all_keeps_removed c (l : list node) d x :
  contains d x c = false -> contains (remove_all c l d) x c = false.
Proof.
  revert d. induction l as [| n l IH]; intros d H; [exact H |].
  rewrite remove_all_cons. apply IH. apply contains_remove_token. exact H.
Qed.

Lemma remove_all_removes c (l : list node) d x :
  x ∈ l -> contains (remove_all c l d) x c = false.
Proof.
  revert d. induction l as [| n l IH]; intros d Hx; [by apply elem_of_nil in Hx |].
  rewrite remove_all_cons. apply elem_of_cons in Hx as [-> | Hx].
  - apply remove_all_keeps_removed, contains_remove_token_eq.
  - apply IH. exact Hx.
Qed.

Lemma remove_all_lookup_other c (l : list node) d x :
  x ∉ l -> remove_all c l d !! x = d !! x.
Proof.
  revert d. induction l as [| n l IH]; intros d Hx; [reflexivity |].
  apply not_elem_of_cons in Hx as [Hne Hx].
  rewrite remove_all_cons, IH by exact Hx.
  apply list_lookup_alter_ne. congruence.
Qed.

Lemma remove_all_contains_other c (l : list node) d x c' :
  x ∉ l -> contains (remove_all c l d) x c' = contains d x c'.
Proof.
  intros Hx. unfold contains. rewrite remove_all_lookup_other by exact Hx. reflexivity.
Qed.

Lemma alter_lookup (g : Element -> Element) (i n : node) (d : Document) :
  alter g i d !! n = (fun e => if bool_decide (n = i) then g e else e) <$> d !! n.
Proof.
  destruct (decide (n = i)) as [-> | Hne].
  - rewrite list_lookup_alter_eq. destruct (d !! i); [| reflexivity].
    simpl. rewrite bool_decide_eq_true_2 by reflexivity. reflexivity.
  - rewrite list_lookup_alter_ne by congruence. destruct (d !! n); [| reflexivity].
    simpl. rewrite bool_decide_eq_false_2 by exact Hne. reflexivity.
Qed.

(** Queries by id and by attribute do not see the class list. *)

Lemma element_by_id_alter f id n d :
  (forall e, el_id (f e) = el_id e) ->
  (forall e, connected (f e) = connected e) ->
  element_by_id id (alter f n d) = element_by_id id d.
Proof.
  intros Hf Hc. unfold element_by_id.
  revert n. induction d as [| e d IH]; intros n; [reflexivity |].
  destruct n as [| n]; simpl.
  - rewrite Hf, Hc.
    destruct (decide (connected e = true ∧ el_id e = Some id ∧ id ≠ "")); reflexivity.
  - destruct (decide (connected e = true ∧ el_id e = Some id ∧ id ≠ ""));
      [reflexivity |].
    specialize (IH n).
    change (list_alter f n d) with (alter f n d).
    destruct (list_find _ (alter f n d)) as [[i y] |],
             (list_find _ d) as [[j z] |]; simpl in *; congruence.
Qed.

Lemma element_by_id_remove_all id c (l : list node) d :
  element_by_id id (remove_all c l d) = element_by_id id d.
Proof.
  revert d. induction l as [| n l IH]; intros d; [reflexivity |].
  rewrite remove_all_cons, IH.
  apply element_by_id_alter; reflexivity.
Qed.

Lemma element_by_id_lt id d n :
  element_by_id id d = Some n -> n < length d.
Proof.
  unfold element_by_id. intros H.
  destruct (list_find _ d) as [[i e] |] eqn:E; simpl in H; [| discriminate].
  injection H as <-. apply list_find_Some in E as [E _].
  eapply lookup_lt_Some, E.
Qed.
End Documents.

Section Selection.
Context (selectors sections : list node) (selector target : node).
Hypothesis selector_in : selector ∈ selectors.
Hypothesis target_in : target ∈ sections.
Hypothesis disjoint : forall x, x ∈ selectors -> x ∉ sections.

Lemma activated_exclusive (d : Document) :
  selector < length d -> target < length d ->
  (forall x, x ∈ selectors -> (active (activated selectors sections selector target d) x <-> x = selector)) /\
  (forall x, x ∈ sections -> (active (activated selectors sections selector target d) x <-> x = target)).
Proof.
  intros Hs Ht.
  assert (Hne : selector <> target) by (intros ->; exact (disjoint _ selector_in target_in)).
  unfold active, activated. split; intros x Hx; split.
  - intros H. destruct (decide (x = selector)) as [| Hxs]; [assumption | exfalso].
    assert (Hxt : x <> target) by (intros ->; exact (disjoint _ Hx target_in)).
    rewrite !contains_alter_ne in H by congruence.
    rewrite remove_all_contains_other in H by (apply disjoint, Hx).
    rewrite remove_all_removes in H by exact Hx. discriminate.
  - intros ->. rewrite contains_alter_ne by congruence.
    apply contains_add_token_eq. rewrite !remove_all_length. exact Hs.
  - intros H. destruct (decide (x = target)) as [| Hxt]; [assumption | exfalso].
    assert (Hxs : x <> selector) by (intros ->; exact (disjoint _ selector_in Hx)).
    rewrite !contains_alter_ne in H by congruence.
    rewrite remove_all_removes in H by exact Hx. discriminate.
  - intros ->. apply contains_add_token_eq.
    rewrite length_alter, !remove_all_length. exact Ht.
Qed.
End Selection.

(** ** Running the listeners *)

Section Running.
Context {L : Type}.
Implicit Types (s : State L).

Lemma state_eta s : mkState (document s) (console s) (listeners s) = s.
Proof. destruct s; reflexivity. Qed.

Lemma forEach_classList_remove c (l : list node) s :
  forEach l (fun n => classList_remove n c) s =
  Normal tt (mkState (remove_all c l (document s)) (console s) (listeners s)).
Proof.
  revert s. induction l as [| n l IH]; intros s.
  - simpl. unfold ret. rewrite state_eta. reflexivity.
  - simpl. unfold bind, classList_remove, modify. rewrite IH. reflexivity.
Qed.

(** The two removals and the first addition, which every listener runs
    in this order. *)
Lemma clear_and_mark (selectors sections : list node) (selector : node) {A}
    (k : M L A) s :
  bind (forEach selectors (fun n => classList_remove n "active")) (fun _ =>
  bind (forEach sections (fun n => classList_remove n "active")) (fun _ =>
  bind (classList_add selector "active") (fun _ => k))) s =
  k (mkState
       (alter (add_token "active") selector
          (remove_all "active" sections (remove_all "active" selectors (document s))))
       (console s) (listeners s)).
Proof.
  unfold bind at 1. rewrite forEach_classList_remove.
  unfold bind at 1. rewrite forEach_classList_remove.
  reflexivity.
Qed.

Lemma attribute_of_lt (n : node) name (d : Document) a :
  attribute_of n name d = Some a -> n < length d.
Proof.
  unfold attribute_of. intros H.
  destruct (d !! n) as [e |] eqn:E; [| discriminate].
  eapply lookup_lt_Some, E.
Qed.
End Running.

(** ** A selection whose target exists *)

Section Handlers.
Context (selectors sections : list node) (selector target : node).

Lemma lab_navButton_onclick_found (s : State Lab.Listener) a :
  attribute_of selector "data-section" (document s) = Some a ->
  a <> "" ->
  element_by_id a (document s) = Some target ->
  Lab.navButton_onclick selectors sections selector s =
  Normal tt (mkState (activated selectors sections selector target (document s))
               (console s) (listeners s)).
Proof.
  intros Ha Hne Ht. unfold Lab.navButton_onclick.
  unfold bind at 1. unfold getAttribute, gets. rewrite Ha.
  destruct a as [| c a]; [congruence |].
  unfold bind at 1. unfold getElementById, gets. rewrite Ht.
  rewrite clear_and_mark. reflexivity.
Qed.

Lemma lab_elementTab_onclick_found (s : State Lab.Listener) a :
  attribute_of selector "data-element" (document s) = Some a ->
  a <> "" ->
  element_by_id (a ++ "-panel") (document s) = Some target ->
  Lab.elementTab_onclick selectors sections selector s =
  Normal tt (mkState (activated selectors sections selector target (document s))
               (console s) (listeners s)).
Proof.
  intros Ha Hne Ht. unfold Lab.elementTab_onclick.
  unfold bind at 1. unfold getAttribute, gets. rewrite Ha.
  destruct a as [| c a]; [congruence |].
  unfold bind at 1. unfold getElementById, gets. rewrite Ht.
  rewrite clear_and_mark. reflexivity.
Qed.

Lemma part000_elementTab_onclick_found (s : State Part000.Listener) a :
  attribute_of selector "data-element" (document s) = Some a ->
  a <> "" ->
  element_by_id (a ++ "-panel") (document s) = Some target ->
  Part000.elementTab_onclick selectors sections selector s =
  Normal tt (mkState (activated selectors sections selector target (document s))
               (console s) (listeners s)).
Proof.
  intros Ha Hne Ht. unfold Part000.elementTab_onclick.
  unfold bind at 1. unfold getAttribute, gets. rewrite Ha.
  destruct a as [| c a]; [congruence |].
  unfold bind at 1. unfold getElementById, gets. rewrite Ht.
  rewrite clear_and_mark. reflexivity.
Qed.

(** The two listeners of [part_000] that look the target up after the
    class lists have changed: the lookup goes by id and finds the same
    element. *)
Lemma element_by_id_cleared id (d : Document) :
  element_by_id id
    (alter (add_token "active") selector
       (remove_all "active" sections (remove_all "active" selectors d))) =
  element_by_id id d.
Proof.
  rewrite element_by_id_alter by reflexivity.
  rewrite !element_by_id_remove_all. reflexivity.
Qed.

Lemma part000_navLink_onclick_found (s : State Part000.Listener) :
  element_by_id (ToString (attribute_of selector "data-section" (document s)))
    (document s) = Some target ->
  Part000.navLink_onclick selectors sections selector s =
  Normal tt (mkState (activated selectors sections selector target (document s))
               (console s) (listeners s)).
Proof.
  intros Ht. unfold Part000.navLink_onclick.
  unfold bind at 1. unfold getAttribute, gets.
  rewrite clear_and_mark.
  unfold bind at 1. unfold getElementById, gets. cbn [document].
  rewrite element_by_id_cleared, Ht. reflexivity.
Qed.

Lemma part000_dataNavButton_onclick_found (s : State Part000.Listener) :
  element_by_id
    (ToString (attribute_of selector "data-subsection" (document s)) ++ "-subsection")
    (document s) = Some target ->
  Part000.dataNavButton_onclick selectors sections selector s =
  Normal tt (mkState (activated selectors sections selector target (document s))
               (console s) (listeners s)).
Proof.
  intros Ht. unfold Part000.dataNavButton_onclick.
  unfold bind at 1. unfold getAttribute, gets.
  rewrite clear_and_mark.
  unfold bind at 1. unfold getElementById, gets. cbn [document].
  rewrite element_by_id_cleared, Ht. reflexivity.
Qed.

(** With no target element the data navigation listener still clears the
    group and marks the button. *)
Lemma part000_dataNavButton_onclick_missing (s : State Part000.Listener) :
  element_by_id
    (ToString (attribute_of selector "data-subsection" (document s)) ++ "-subsection")
    (document s) = None ->
  Part000.dataNavButton_onclick selectors sections selector s =
  Normal tt (mkState
               (alter (add_token "active") selector
                  (remove_all "active" sections
                     (remove_all "active" selectors (document s))))
               (console s) (listeners s)).
Proof.
  intros Ht. unfold Part000.dataNavButton_onclick.
  unfold bind at 1. unfold getAttribute, gets.
  rewrite clear_and_mark.
  unfold bind at 1. unfold getElementById, gets. cbn [document].
  rewrite element_by_id_cleared, Ht. reflexivity.
Qed.

(** With no target element the navigation link listener clears the group,
    marks the link and throws. *)
Lemma part000_navLink_onclick_missing (s : State Part000.Listener) :
  element_by_id (ToString (attribute_of selector "data-section" (document s)))
    (document s) = None ->
  Part000.navLink_onclick selectors sections selector s =
  Throw (TypeError "Cannot read properties of null")
    (mkState
       (alter (add_token "active") selector
          (remove_all "active" sections
             (remove_all "active" selectors (document s))))
       (console s) (listeners s)).
Proof.
  intros Ht. unfold Part000.navLink_onclick.
  unfold bind at 1. unfold getAttribute, gets.
  rewrite clear_and_mark.
  unfold bind at 1. unfold getElementById, gets. cbn [document].
  rewrite element_by_id_cleared, Ht. reflexivity.
Qed.
End Handlers.

(** A selection leaves exactly one selector and exactly one section
    active. *)
Lemma selects_exactly_one {L} (selectors sections : list node) (selector target : node)
    (c : Completion L unit) :
  selector ∈ selectors -> target ∈ sections ->
  selects selectors sections selector target c ->
  exists s', c = Normal tt s' /\
    exactly_one_active (document s') selectors /\
    exactly_one_active (document s') sections.
Proof.
  intros Hs Ht (s' & Hc & H1 & H2).
  exists s'. split; [exact Hc |].
  split; [exists selector | exists target]; split; assumption.
Qed.

(** Membership in an explicit list of nodes. *)
Ltac node_lists :=
  intros;
  repeat match goal with
  | H : _ ∈ _ |- _ => rewrite ?elem_of_cons, ?elem_of_nil in H
  end;
  rewrite ?elem_of_cons, ?elem_of_nil;
  try lia.

(** C7, as the code has it.  When the target of the activated selector
    exists and is one of the group's sections, and no element of the group is
    both a selector and a section, each of the five click listeners returns
    with exactly the clicked selector active among the selectors and exactly
    its target active among the sections. *)
Theorem activation_selects_selector_and_target
    (selectors sections : list node) (selector target : node) :
  selector ∈ selectors ->
  target ∈ sections ->
  (forall x, x ∈ selectors -> x ∉ sections) ->
  (forall (s : State Lab.Listener) a,
     attribute_of selector "data-section" (document s) = Some a -> a <> "" ->
     element_by_id a (document s) = Some target ->
     selects selectors sections selector target
       (Lab.navButton_onclick selectors sections selector s)) /\
  (forall (s : State Lab.Listener) a,
     attribute_of selector "data-element" (document s) = Some a -> a <> "" ->
     element_by_id (a ++ "-panel") (document s) = Some target ->
     selects selectors sections selector target
       (Lab.elementTab_onclick selectors sections selector s)) /\
  (forall (s : State Part000.Listener),
     selector < length (document s) ->
     element_by_id (ToString (attribute_of selector "data-section" (document s)))
       (document s) = Some target ->
     selects selectors sections selector target
       (Part000.navLink_onclick selectors sections selector s)) /\
  (forall (s : State Part000.Listener),
     selector < length (document s) ->
     element_by_id
       (ToString (attribute_of selector "data-subsection" (document s)) ++ "-subsection")
       (document s) = Some target ->
     selects selectors sections selector target
       (Part000.dataNavButton_onclick selectors sections selector s)) /\
  (forall (s : State Part000.Listener) a,
     attribute_of selector "data-element" (document s) = Some a -> a <> "" ->
     element_by_id (a ++ "-panel") (document s) = Some target ->
     selects selectors sections selector target
       (Part000.elementTab_onclick selectors sections selector s)).
Proof.
  intros Hsel Htgt Hdisj.
  assert (Hx : forall L (s : State L),
             selector < length (document s) ->
             target < length (document s) ->
             selects selectors sections selector target
               (Normal tt (mkState
                  (activated selectors sections selector target (document s))
                  (console s) (listeners s)))).
  { intros L s Hs Ht. eexists. split; [reflexivity |].
    apply activated_exclusive; assumption. }
  repeat split.
  - intros s a Ha Hne Ht.
    rewrite (lab_navButton_onclick_found _ _ _ target s a) by assumption.
    apply Hx; eauto using attribute_of_lt, element_by_id_lt.
  - intros s a Ha Hne Ht.
    rewrite (lab_elementTab_onclick_found _ _ _ target s a) by assumption.
    apply Hx; eauto using attribute_of_lt, element_by_id_lt.
  - intros s Hs Ht.
    rewrite (part000_navLink_onclick_found _ _ _ target s) by assumption.
    apply Hx; eauto using element_by_id_lt.
  - intros s Hs Ht.
    rewrite (part000_dataNavButton_onclick_found _ _ _ target s) by assumption.
    apply Hx; eauto using element_by_id_lt.
  - intros s a Ha Hne Ht.
    rewrite (part000_elementTab_onclick_found _ _ _ target s a) by assumption.
    apply Hx; eauto using attribute_of_lt, element_by_id_lt.
Qed.

(** On the page of [lab.js], a click on the second navigation button
    selects it and its section [kvl]. *)
Lemma activation_selects_selector_and_target_witness :
  1 ∈ [0; 1; 2] /\
  4 ∈ [3; 4] /\
  (forall x, x ∈ [0; 1; 2] -> x ∉ [3; 4]) /\
  attribute_of 1 "data-section" lab_page = Some "kvl" /\
  element_by_id "kvl" lab_page = Some 4 /\
  selects [0; 1; 2] [3; 4] 1 4 (Lab.navButton_onclick [0; 1; 2] [3; 4] 1 lab_state).
Proof.
  assert (H1 : 1 ∈ [0; 1; 2]) by (node_lists; tauto).
  assert (H2 : 4 ∈ [3; 4]) by (node_lists; tauto).
  assert (H3 : forall x, x ∈ [0; 1; 2] -> x ∉ [3; 4]) by (node_lists; lia).
  split; [exact H1 |]. split; [exact H2 |]. split; [exact H3 |].
  split; [reflexivity |]. split; [reflexivity |].
  apply (proj1 (activation_selects_selector_and_target
                  [0; 1; 2] [3; 4] 1 4 H1 H2 H3) lab_state "kvl");
    [reflexivity | discriminate | reflexivity].
Defined.

(** C7 as stated fails when the target is missing.  On the page of
    [lab.js], the click on the button of the missing section [power] returns
    with that button not active.  On the page of [part_000], the click on the
    data navigation button of the missing subsection [charts] returns with
    no subsection active. *)
Lemma activation_without_target_counterexample :
  (element_by_id "power" lab_page = None /\
   exists s',
     Lab.navButton_onclick [0; 1; 2] [3; 4] 2 lab_state = Normal tt s' /\
     ~ active (document s') 2) /\
  (element_by_id "charts-subsection" part000_page = None /\
   exists s',
     Part000.dataNavButton_onclick [3; 4] [5] 4 part000_state = Normal tt s' /\
     ~ exactly_one_active (document s') [5]).
Proof.
  split; (split; [reflexivity |]); eexists; (split; [reflexivity |]).
  - unfold active. vm_compute. discriminate.
  - intros [x [Hx H]].
    assert (E : 5 ∈ [5]) by (node_lists; tauto).
    assert (Hx5 : x = 5) by (node_lists; tauto). subst x.
    apply H in E. destruct E as [_ E]. specialize (E eq_refl).
    unfold active in E. vm_compute in E. discriminate E.
Qed.

(** ** A selection whose target is missing *)

(** C9.  In [part_000] a click on a data navigation button whose subsection
    does not exist returns with the clicked button the only active button
    and no subsection active, without a console call; in [lab.js] a click on
    a navigation button whose section does not exist changes no element and
    reports the missing section.  The button is an element of the document
    and not itself a subsection. *)
Theorem missing_target_clears_in_part000_not_in_lab
    (buttons subsections : list node) (button : node) :
  button ∉ subsections ->
  (forall s : State Part000.Listener,
     button < length (document s) ->
     element_by_id
       (ToString (attribute_of button "data-subsection" (document s)) ++ "-subsection")
       (document s) = None ->
     exists s',
       Part000.dataNavButton_onclick buttons subsections button s = Normal tt s' /\
       document s' =
         alter (add_token "active") button
           (remove_all "active" subsections
              (remove_all "active" buttons (document s))) /\
       (forall x, x ∈ buttons -> (active (document s') x <-> x = button)) /\
       (forall x, x ∈ subsections -> ~ active (document s') x) /\
       console s' = console s) /\
  (forall (s : State Lab.Listener) a,
     attribute_of button "data-section" (document s) = Some a -> a <> "" ->
     element_by_id a (document s) = None ->
     early_return (Lab.navButton_onclick buttons subsections button) s
       [(LevelError, ["Target section not found:"; a])]).
Proof.
  intros Hb. split.
  - intros s Hlt Hnone.
    rewrite part000_dataNavButton_onclick_missing by exact Hnone.
    eexists. split; [reflexivity |]. cbn [document console].
    split; [reflexivity |]. split; [| split; [| reflexivity]].
    + intros x Hx. unfold active. split.
      * intros H. destruct (decide (x = button)) as [| Hne]; [assumption | exfalso].
        rewrite contains_alter_ne in H by congruence.
        destruct (decide (x ∈ subsections)) as [Hin | Hout].
        -- rewrite remove_all_removes in H by exact Hin. discriminate.
        -- rewrite remove_all_contains_other in H by exact Hout.
           rewrite remove_all_removes in H by exact Hx. discriminate.
      * intros ->. apply contains_add_token_eq.
        rewrite !remove_all_length. exact Hlt.
    + intros x Hx H. unfold active in H.
      rewrite contains_alter_ne in H by (intros ->; exact (Hb Hx)).
      rewrite remove_all_removes in H by exact Hx. discriminate.
  - intros s a Ha Hne Hnone. unfold early_return, Lab.navButton_onclick.
    unfold bind at 1. unfold getAttribute, gets. rewrite Ha.
    destruct a as [| c a]; [congruence |].
    unfold bind at 1. unfold getElementById, gets. rewrite Hnone.
    reflexivity.
Qed.

(** On the page of [part_000] the subsection [tables] is active before the
    click on the button of the missing subsection [charts] and no
    subsection is active after it; on the page of [lab.js] the click on the
    button of the missing section [power] only reports it. *)
Lemma missing_target_clears_in_part000_not_in_lab_witness :
(4 ∉ [5]) /\
  active part000_page 5 /\
  (exists s',
     Part000.dataNavButton_onclick [3; 4] [5] 4 part000_state = Normal tt s' /\
     document s' =
       alter (add_token "active") 4
         (remove_all "active" [5] (remove_all "active" [3; 4] part000_page)) /\
     (forall x, x ∈ [3; 4] -> (active (document s') x <-> x = 4)) /\
     (forall x, x ∈ [5] -> ~ active (document s') x) /\
     console s' = console part000_state) /\
  early_return (Lab.navButton_onclick [0; 1; 2] [3; 4] 2) lab_state
    [(LevelError, ["Target section not found:"; "power"])].
Proof.
  assert (H : 4 ∉ [5]) by (node_lists; lia).
  destruct (missing_target_clears_in_part000_not_in_lab [3; 4] [5] 4 H) as [P _].
  destruct (missing_target_clears_in_part000_not_in_lab [0; 1; 2] [3; 4] 2) as [_ R].
  { node_lists; lia. }
  split; [exact H |]. split; [reflexivity |]. split.
  - apply (P part000_state); [simpl; lia | reflexivity].
  - apply (R lab_state "power"); [reflexivity | discriminate | reflexivity].
Defined.

(** ** The displays *)

Section Displays.
Implicit Types (d : Document) (n m : node) (g : Element -> Element).

Lemma value_of_alter g m n d :
  (forall e, value (g e) = value e) -> value_of n (alter g m d) = value_of n d.
Proof.
  intros Hg. unfold value_of. rewrite alter_lookup.
  destruct (d !! n) as [e |]; [| reflexivity]. simpl.
  case_bool_decide; [apply Hg | reflexivity].
Qed.

Lemma own_text_set n t d :
  n < length d -> own_text n (alter (with_textContent t) n d) = Some t.
Proof.
  intros Hn. unfold own_text. rewrite list_lookup_alter_eq.
  destruct (lookup_lt_is_Some_2 d n Hn) as [e ->]. reflexivity.
Qed.

Lemma own_text_alter_ne g n m d :
  n <> m -> own_text n (alter g m d) = own_text n d.
Proof.
  intros Hne. unfold own_text. rewrite list_lookup_alter_ne by congruence.
  reflexivity.
Qed.

Lemma own_text_color c n m d :
  own_text n (alter (with_color c) m d) = own_text n d.
Proof.
  unfold own_text. rewrite alter_lookup.
  destruct (d !! n) as [e |]; [| reflexivity]. simpl.
  case_bool_decide; reflexivity.
Qed.

Lemma assigned_color_set n c d :
  n < length d -> assigned_color n (alter (with_color c) n d) = Some c.
Proof.
  intros Hn. unfold assigned_color. rewrite list_lookup_alter_eq.
  destruct (lookup_lt_is_Some_2 d n Hn) as [e ->]. reflexivity.
Qed.

(** What a query by id finds is in the document. *)
Lemma element_by_id_connected id d n :
  element_by_id id d = Some n -> exists e, d !! n = Some e /\ connected e = true.
Proof.
  unfold element_by_id. intros H.
  destruct (list_find _ d) as [[i e] |] eqn:E; simpl in H; [| discriminate].
  injection H as <-. apply list_find_Some in E as (L & (C & _) & _).
  exists e. split; assumption.
Qed.

(** Two ids that lead to the same element are the same id. *)
Lemma element_by_id_inj id1 id2 d n :
  element_by_id id1 d = Some n -> element_by_id id2 d = Some n -> id1 = id2.
Proof.
  unfold element_by_id. intros H1 H2.
  destruct (list_find _ d) as [[i1 e1] |] eqn:E1; simpl in H1; [| discriminate].
  destruct (list_find (fun e => connected e = true ∧ el_id e = Some id2 ∧ id2 ≠ "") d)
    as [[i2 e2] |] eqn:E2; simpl in H2; [| discriminate].
  injection H1 as ->. injection H2 as ->.
  apply list_find_Some in E1 as (L1 & (_ & I1 & _) & _).
  apply list_find_Some in E2 as (L2 & (_ & I2 & _) & _).
  congruence.
Qed.

(** Nothing is inside an element without children. *)
Lemma inside_childless fuel d n i : childless n d -> inside fuel d n i = false.
Proof.
  intros H. revert i. induction fuel as [| fuel IH]; intros i; [reflexivity |].
  simpl. destruct (d !! i) as [e |] eqn:E; [| reflexivity].
  destruct (parent e) as [p |] eqn:P; [| reflexivity].
  rewrite IH, orb_false_r. apply bool_decide_eq_false. intros ->.
  unfold childless in H. rewrite Forall_lookup in H. exact (H i e E P).
Qed.

(** Assigning the text of an element without children only changes its
    text. *)
Lemma assign_textContent_childless n t d :
  childless n d -> assign_textContent n t d = alter (with_textContent t) n d.
Proof.
  intros H. apply list_eq. intros i.
  unfold assign_textContent. rewrite list_lookup_imap, alter_lookup.
  destruct (d !! i) as [e |]; [| reflexivity]. simpl.
  unfold is_descendant. rewrite (inside_childless _ _ _ _ H). reflexivity.
Qed.

Lemma childless_alter g m n d :
  (forall e, parent (g e) = parent e) -> childless n d -> childless n (alter g m d).
Proof.
  intros Hg H. unfold childless in *. rewrite Forall_lookup in *.
  intros i e. rewrite alter_lookup. destruct (d !! i) as [e0 |] eqn:E; [| discriminate].
  simpl. intros [= <-]. case_bool_decide; [rewrite Hg |]; exact (H i e0 E).
Qed.

(** An assignment of text gives no element a new parent. *)
Lemma childless_assign m t n d :
  childless n d -> childless n (assign_textContent m t d).
Proof.
  intros H. unfold childless in *. rewrite Forall_lookup in *.
  intros i e. unfold assign_textContent. rewrite list_lookup_imap.
  destruct (d !! i) as [e0 |] eqn:E; [| discriminate].
  simpl. intros [= <-]. specialize (H i e0 E).
  case_bool_decide; [exact H |].
  destruct (is_descendant d m i); [| exact H].
  simpl. case_bool_decide; [discriminate | exact H].
Qed.

Lemma display_alter g m n d :
  (forall e, parent (g e) = parent e) ->
  (forall e, connected (g e) = connected e) ->
  display n d -> display n (alter g m d).
Proof.
  intros Hp Hc ((e & E & C) & H). split; [| apply childless_alter; assumption].
  rewrite alter_lookup, E. simpl.
  case_bool_decide; eexists; (split; [reflexivity |]); rewrite ?Hc; exact C.
Qed.

(** A display shows its own text. *)
Lemma shown_display n d : display n d -> shown n d = own_text n d.
Proof.
  intros ((e & E & C) & H). unfold shown, own_text. rewrite E, C.
  rewrite bool_decide_eq_true_2 by exact H. reflexivity.
Qed.

Lemma display_decide d n e :
  d !! n = Some e -> connected e = true -> bool_decide (childless n d) = true ->
  display n d.
Proof.
  intros E C H. split; [exists e; split; assumption |].
  apply bool_decide_eq_true in H. exact H.
Qed.

Lemma display_lt n d : display n d -> n < length d.
Proof. intros ((e & E & _) & _). eapply lookup_lt_Some, E. Qed.

Lemma element_by_id_display id d n :
  element_by_id id d = Some n -> childless n d -> display n d.
Proof.
  intros H C. split; [eapply element_by_id_connected, H | exact C].
Qed.
End Displays.

(** The displays of a panel have no children: each assignment of text is
    an [alter], and the displays stay displays. *)
Ltac solve_childless :=
  repeat first
    [ apply childless_assign
    | apply childless_alter; [reflexivity |] ];
  match goal with
  | H : childless ?n _ |- childless ?n _ => exact H
  | H : display ?n _ |- childless ?n _ => exact (proj2 H)
  end.

Ltac solve_display :=
  repeat (apply display_alter; [reflexivity | reflexivity |]);
  first
    [ assumption
    | match goal with
      | H : element_by_id _ ?d = Some ?n |- display ?n ?d =>
          apply (element_by_id_display _ _ _ H); solve_childless
      end ].

(** Running a panel function: the reads come first and do not see the
    writes, each write is an [alter]. *)
Ltac run_panel :=
  unfold bind, parseFloat_value, gets, set_textContent, set_color, modify;
  cbn [document console listeners];
  repeat rewrite assign_textContent_childless by solve_childless;
  rewrite ?value_of_alter by reflexivity.

Ltac read_text :=
  rewrite shown_display by solve_display;
  rewrite ?own_text_color;
  repeat first
    [ rewrite own_text_set by (rewrite ?length_alter; eauto using display_lt)
    | rewrite own_text_alter_ne by congruence
    | rewrite own_text_color ];
  try reflexivity.

(** ** The voltage-law panel *)



(** ** Missing elements *)

Section Returning.
Context {L : Type}.
Implicit Types (s : State L).

Lemma returns_ret {A} (a : A) s : returns (ret a) s.
Proof. eexists _, _. reflexivity. Qed.

Lemma returns_bind {A B} (m : M L A) (k : A -> M L B) s :
  returns m s -> (forall a s', returns (k a) s') -> returns (bind m k) s.
Proof.
  intros (a & s' & Hm) Hk. unfold returns, bind. rewrite Hm. apply Hk.
Qed.

Lemma returns_gets {A} (g : Document -> A) s : returns (gets g) s.
Proof. eexists _, _. reflexivity. Qed.

Lemma returns_modify (g : Document -> Document) s : returns (modify g) s.
Proof. eexists _, _. reflexivity. Qed.

Lemma returns_console_call lvl args s : returns (console_call lvl args) s.
Proof. eexists _, _. reflexivity. Qed.

Lemma returns_addEventListener target type (f : L) s :
  returns (addEventListener target type f) s.
Proof. eexists _, _. reflexivity. Qed.

Lemma returns_forEach {A} (l : list A) (f : A -> M L unit) s :
  (forall x s', returns (f x) s') -> returns (forEach l f) s.
Proof.
  intros Hf. revert s. induction l as [| x l IH]; intros s; simpl.
  - apply returns_ret.
  - apply returns_bind; [apply Hf | intros _ s'; apply IH].
Qed.
End Returning.

Create HintDb scripts.

#[local] Hint Unfold
  Lab.initNavigation Lab.navButton_onclick Lab.initElementTabs Lab.elementTab_onclick
  Lab.initOhmsLaw Lab.updateVoltage Lab.updateResistance Lab.updateOhmsLawCurrent
  Lab.initKCL Lab.updateI1 Lab.updateI2 Lab.updateKCLCurrent
  Lab.initKVL Lab.updateSourceVoltage Lab.updateV1 Lab.updateV2 Lab.validateKVL
  Lab.initApp Lab.script
  Part000.initMainNavigation Part000.initDataNavigation Part000.dataNavButton_onclick
  Part000.initElementTabs Part000.elementTab_onclick
  Part000.initOhmsLaw Part000.updateVoltage Part000.updateResistance Part000.updateCurrent
  Part000.initKCL Part000.updateI1 Part000.updateI2 Part000.updateKCLCurrent
  Part000.initKVL Part000.updateSourceVoltage Part000.updateV1 Part000.updateV2
  Part000.validateKVL Part000.initApp Part000.script
  querySelectorAll getElementById getAttribute parseFloat_value
  classList_add classList_remove set_textContent set_color
  console_log console_warn console_error : scripts.

(** One step through a computation that has no [throw] in it. *)
Ltac returns_step :=
  lazymatch goal with
  | |- returns (bind _ _) _ => apply returns_bind; [| intros ? ?]
  | |- returns (ret _) _ => apply returns_ret
  | |- returns (gets _) _ => apply returns_gets
  | |- returns (modify _) _ => apply returns_modify
  | |- returns (console_call _ _) _ => apply returns_console_call
  | |- returns (addEventListener _ _ _) _ => apply returns_addEventListener
  | |- returns (forEach _ _) _ => apply returns_forEach; intros ? ?
  | |- returns (match ?x with _ => _ end) _ => destruct x
  end.

Ltac returns_all := autounfold with scripts; cbv zeta; repeat returns_step.

Section NoThrow.
Variable f : Q -> string.

Lemma lab_functions_return m (s : State Lab.Listener) :
  m ∈ lab_functions f -> returns m s.
Proof.
  unfold lab_functions. intros H. node_lists.
  destruct H as [-> | [-> | [-> | [-> | [-> | [-> | [-> | []]]]]]]]; returns_all.
Qed.

Lemma lab_listeners_return l (s : State Lab.Listener) :
  returns (Lab.call f l) s.
Proof.
  destruct l; unfold Lab.call; returns_all.
Qed.

Lemma part000_functions_return m (s : State Part000.Listener) :
  m ∈ part000_functions f -> returns m s.
Proof.
  unfold part000_functions. intros H. node_lists.
  destruct H as [-> | [-> | [-> | [-> | [-> | [-> | [-> | [-> | []]]]]]]]]; returns_all.
Qed.

Lemma part000_listeners_return l (s : State Part000.Listener) :
  is_NavLinkClick l = false -> returns (Part000.call f l) s.
Proof.
  destruct l; intros H; try discriminate H; unfold Part000.call; returns_all.
Qed.
End NoThrow.

(** A calculator's lookups, outermost first: a missing element ends in the
    guard, and all present contradicts [some_missing]. *)
Ltac lookups :=
  repeat lazymatch goal with
  | |- (match ?x with _ => _ end) _ = _ =>
      destruct x eqn:?; [| rewrite ?app_nil_r, ?state_eta; reflexivity]
  end.

Ltac none_missing H :=
  exfalso; destruct H as (id & Hin & Hnone);
  unfold ohms_law_ids, kcl_ids, kvl_ids in Hin;
  rewrite ?elem_of_cons, ?elem_of_nil in Hin;
  repeat (destruct Hin as [-> | Hin]; [congruence |]);
  exact Hin.

Section Guards.
Variable f : Q -> string.

Lemma lab_guards_return m d report (s : State Lab.Listener) :
  lab_guard f m d report -> document s = d -> early_return m s report.
Proof.
  intros H Hd. unfold early_return.
  destruct H as [d H | d H0 H | d nb cs b H | d nb cs b a Ha Hne H | d H
                | d ts ps t H | d ts ps t a Ha Hne H | d H | d H | d H];
    subst d.
  - unfold Lab.initNavigation, bind, querySelectorAll, gets. rewrite H. reflexivity.
  - unfold Lab.initNavigation, bind, querySelectorAll, gets. rewrite H.
    destruct (nodes_of_class "nav-btn" (document s)); [congruence | reflexivity].
  - unfold Lab.navButton_onclick, bind, getAttribute, gets.
    destruct H as [-> | ->]; reflexivity.
  - unfold Lab.navButton_onclick, bind, getAttribute, getElementById, gets.
    rewrite Ha. destruct a; [congruence |]. rewrite H. reflexivity.
  - unfold Lab.initElementTabs, bind, querySelectorAll, gets.
    rewrite app_nil_r, state_eta.
    destruct H as [-> | ->]; [reflexivity |].
    rewrite orb_true_r. reflexivity.
  - unfold Lab.elementTab_onclick, bind, getAttribute, gets.
    destruct H as [-> | ->]; reflexivity.
  - unfold Lab.elementTab_onclick, bind, getAttribute, getElementById, gets.
    rewrite Ha. destruct a; [congruence |]. rewrite H. reflexivity.
  - unfold Lab.initOhmsLaw, bind, getElementById, gets. lookups. none_missing H.
  - unfold Lab.initKCL, bind, getElementById, gets. lookups. none_missing H.
  - unfold Lab.initKVL, bind, getElementById, gets. lookups. none_missing H.
Qed.

Lemma part000_guards_return m d (s : State Part000.Listener) :
  part000_guard f m d -> document s = d -> early_return m s [].
Proof.
  intros H Hd. unfold early_return. rewrite app_nil_r, state_eta.
  destruct H as [d ts ps t H | d ts ps t a Ha Hne H | d H | d H | d H]; subst d.
  - unfold Part000.elementTab_onclick, bind, getAttribute, gets.
    destruct H as [-> | ->]; reflexivity.
  - unfold Part000.elementTab_onclick, bind, getAttribute, getElementById, gets.
    rewrite Ha. destruct a; [congruence |]. rewrite H. reflexivity.
  - unfold Part000.initOhmsLaw, bind, getElementById, gets. lookups. none_missing H.
  - unfold Part000.initKCL, bind, getElementById, gets. lookups. none_missing H.
  - unfold Part000.initKVL, bind, getElementById, gets. lookups. none_missing H.
Qed.
End Guards.

(** C8, as the code has it.  In [lab.js] every guard of [lab_guard] returns
    early, changing no element and registering no listener, after the one
    console warning or error of its row ([initElementTabs] makes none), and
    no function and no listener throws.  In [part_000] every guard of
    [part000_guard] returns early without a console call, and no function
    and no listener other than the click listener of a navigation link
    throws. *)
Theorem missing_elements_return_early (f : Q -> string) :
  (forall m d report (s : State Lab.Listener),
     lab_guard f m d report -> document s = d -> early_return m s report) /\
  (forall m (s : State Lab.Listener), m ∈ lab_functions f -> returns m s) /\
  (forall l (s : State Lab.Listener), returns (Lab.call f l) s) /\
  (forall m d (s : State Part000.Listener),
     part000_guard f m d -> document s = d -> early_return m s []) /\
  (forall m (s : State Part000.Listener), m ∈ part000_functions f -> returns m s) /\
  (forall l (s : State Part000.Listener),
     is_NavLinkClick l = false -> returns (Part000.call f l) s).
Proof.
  repeat split.
  - intros m d report s. apply lab_guards_return.
  - intros m s. apply lab_functions_return.
  - apply lab_listeners_return.
  - intros m d s. apply part000_guards_return.
  - intros m s. apply part000_functions_return.
  - intros l s. apply part000_listeners_return.
Qed.

(** On the page of [lab.js], which has no Ohm's law panel, [initOhmsLaw]
    warns and returns; on the page of [part_000], which has no panel
    [diode], the click on its tab returns having done nothing. *)
Lemma missing_elements_return_early_witness :
  some_missing ohms_law_ids lab_page /\
  early_return (Lab.initOhmsLaw (fun _ => "")) lab_state
    [(LevelWarn, ["Ohm's Law elements not found, skipping initialization"])] /\
  element_by_id "diode-panel" part000_page = None /\
  early_return (Part000.elementTab_onclick [6; 7] [8] 7) part000_state [].
Proof.
  assert (H : some_missing ohms_law_ids lab_page).
  { exists "voltage". split; [| reflexivity].
    unfold ohms_law_ids. node_lists. tauto. }
  destruct (missing_elements_return_early (fun _ => "")) as (G & _ & _ & P & _).
  split; [exact H |]. split; [| split; [reflexivity |]].
  - apply (G _ lab_page); [constructor; exact H | reflexivity].
  - apply (P _ part000_page); [| reflexivity].
    apply part000_tab_no_target with (a := "diode");
      [reflexivity | discriminate | reflexivity].
Defined.

(** C8 as stated fails on the page of [part_000]: the click on the tab of the
    missing panel [diode] returns without any console call, and the click on
    the link of the missing section [about] throws. *)
Lemma missing_element_counterexample :
  element_by_id "diode-panel" part000_page = None /\
  console part000_state = [] /\
  Part000.elementTab_onclick [6; 7] [8] 7 part000_state = Normal tt part000_state /\
  element_by_id "about" part000_page = None /\
  exists s',
    Part000.navLink_onclick [0; 1] [2] 1 part000_state =
    Throw (TypeError "Cannot read properties of null") s'.
Proof.
  repeat split. eexists. reflexivity.
Qed.

(** * Further properties *)

(** ** What a call may change *)


Lemma same_identity_trans e1 e2 e3 :
  same_identity e1 e2 -> same_identity e2 e3 -> same_identity e1 e3.
Proof. unfold same_identity. intros (-> & -> & ->) (-> & -> & ->). repeat split. Qed.

Lemma same_but_active_refl e : same_but_active e e.
Proof. repeat split; auto. Qed.

Lemma same_but_active_trans e1 e2 e3 :
  same_but_active e1 e2 -> same_but_active e2 e3 -> same_but_active e1 e3.
Proof.
  intros (I1 & T1 & C1 & P1 & N1 & A1) (I2 & T2 & C2 & P2 & N2 & A2).
  split; [eapply same_identity_trans; eassumption |].
  split; [congruence |]. split; [congruence |].
  split; [congruence |]. split; [congruence |].
  intros c Hc. rewrite (A1 c Hc). apply A2, Hc.
Qed.



Lemma same_but_display_refl e : same_but_display e e.
Proof. repeat split. Qed.

Lemma same_but_display_trans e1 e2 e3 :
  same_but_display e1 e2 -> same_but_display e2 e3 -> same_but_display e1 e3.
Proof.
  intros (I1 & C1) (I2 & C2).
  split; [eapply same_identity_trans; eassumption | congruence].
Qed.

Lemma add_token_same_but_active e : same_but_active e (add_token "active" e).
Proof.
  split; [repeat split |]. do 4 (split; [reflexivity |]).
  intros c Hc. simpl. destruct (has_class "active" e); [tauto |].
  rewrite elem_of_app, list_elem_of_singleton. split; [tauto |].
  intros [H | H]; [exact H | congruence].
Qed.

Lemma remove_token_same_but_active e : same_but_active e (remove_token "active" e).
Proof.
  split; [repeat split |]. do 4 (split; [reflexivity |]).
  intros c Hc. simpl. rewrite list_elem_of_filter. tauto.
Qed.

Section Within.
Context {L : Type} (R : Element -> Element -> Prop).
Hypothesis R_refl : forall e, R e e.
Hypothesis R_trans : forall e1 e2 e3, R e1 e2 -> R e2 e3 -> R e1 e3.
Implicit Types (s : State L).

Lemma Forall2_R_refl (d : Document) : Forall2 R d d.
Proof. induction d; constructor; auto. Qed.

Lemma within_same {A} (m : M L A) s :
  state_of (m s) = s -> changes_within R m s.
Proof.
  intros E. unfold changes_within. rewrite E.
  split; [apply Forall2_R_refl | split; reflexivity].
Qed.

Lemma within_ret {A} (a : A) s : changes_within R (ret a) s.
Proof. apply within_same. reflexivity. Qed.

Lemma within_throw {A} e s : changes_within R (throw (A := A) e) s.
Proof. apply within_same. reflexivity. Qed.

Lemma within_gets {A} (g : Document -> A) s : changes_within R (gets g) s.
Proof. apply within_same. reflexivity. Qed.

Lemma within_console_call lvl args s : changes_within R (console_call lvl args) s.
Proof.
  split; [apply Forall2_R_refl |]. simpl.
  split; [apply prefix_app_r |]; reflexivity.
Qed.

Lemma within_addEventListener target type (f : L) s :
  changes_within R (addEventListener target type f) s.
Proof.
  split; [apply Forall2_R_refl |]. simpl.
  split; [| apply prefix_app_r]; reflexivity.
Qed.

Lemma within_modify_alter (g : Element -> Element) (n : node) s :
  (forall e, R e (g e)) -> changes_within R (modify (alter g n)) s.
Proof.
  intros Hg. split; [| split; reflexivity]. simpl.
  apply Forall2_alter_r; [apply Forall2_R_refl |].
  intros x y _ _ Hxy. eapply R_trans; [exact Hxy | apply Hg].
Qed.

Lemma within_modify_assign (n : node) (t : string) s :
  (forall e, R e (with_textContent t e)) -> (forall e, R e (removed n e)) ->
  changes_within R (modify (assign_textContent n t)) s.
Proof.
  intros Ht Hr. split; [| split; reflexivity]. simpl.
  apply Forall2_same_length_lookup. unfold assign_textContent.
  split; [rewrite length_imap; reflexivity |].
  intros i x y Hx Hy. rewrite list_lookup_imap, Hx in Hy. simpl in Hy.
  injection Hy as <-.
  case_bool_decide; [apply Ht |].
  destruct (is_descendant (document s) n i); [apply Hr | apply R_refl].
Qed.

Lemma within_bind {A B} (m : M L A) (k : A -> M L B) s :
  changes_within R m s ->
  (forall a s', changes_within R (k a) s') ->
  changes_within R (bind m k) s.
Proof.
  unfold changes_within, bind. intros (D & C & F) Hk.
  destruct (m s) as [a s1 | e s1]; simpl in *; [| tauto].
  destruct (Hk a s1) as (D' & C' & F').
  split; [| split; etransitivity; eassumption].
  eapply Forall2_trans; [exact R_trans | exact D | exact D'].
Qed.

Lemma within_forEach {A} (l : list A) (f : A -> M L unit) s :
  (forall x s', changes_within R (f x) s') -> changes_within R (forEach l f) s.
Proof.
  intros Hf. revert s. induction l as [| x l IH]; intros s; simpl.
  - apply within_ret.
  - apply within_bind; [apply Hf | intros _ s'; apply IH].
Qed.

Lemma within_member_of (o : option node) s : changes_within R (member_of o) s.
Proof. destruct o; [apply within_ret | apply within_throw]. Qed.
End Within.

(** One step through a computation, whatever it does. *)
Ltac within_step Hrefl Htrans :=
  lazymatch goal with
  | |- changes_within _ (bind _ _) _ =>
      apply (within_bind _ Htrans); [| intros ? ?]
  | |- changes_within _ (ret _) _ => apply (within_ret _ Hrefl)
  | |- changes_within _ (gets _) _ => apply (within_gets _ Hrefl)
  | |- changes_within _ (member_of _) _ => apply (within_member_of _ Hrefl)
  | |- changes_within _ (modify (assign_textContent _ _)) _ =>
      apply (within_modify_assign _ Hrefl); intros ?
  | |- changes_within _ (modify (alter _ _)) _ =>
      apply (within_modify_alter _ Hrefl Htrans); intros ?
  | |- changes_within _ (console_call _ _) _ => apply (within_console_call _ Hrefl)
  | |- changes_within _ (addEventListener _ _ _) _ =>
      apply (within_addEventListener _ Hrefl)
  | |- changes_within _ (forEach _ _) _ =>
      apply (within_forEach _ Hrefl Htrans); intros ? ?
  | |- changes_within _ (match ?x with _ => _ end) _ => destruct x
  end.

Ltac within_all Hrefl Htrans :=
  try unfold Part000.navLink_onclick; autounfold with scripts; cbv zeta;
  repeat within_step Hrefl Htrans.

Section Frames.
Variable f : Q -> string.





End Frames.

(** Queries on two versions of a document. *)

Lemma element_by_id_same_but_active id (d d' : Document) :
  Forall2 same_but_active d d' -> element_by_id id d' = element_by_id id d.
Proof.
  unfold element_by_id.
  induction 1 as [| e e' d d' ((Hid & _) & _ & _ & _ & Hc & _) _ IH]; [reflexivity |].
  simpl. rewrite <- Hid, <- Hc.
  destruct (decide (connected e = true ∧ el_id e = Some id ∧ id ≠ "")); [reflexivity |].
  destruct (list_find _ d') as [[i y] |], (list_find _ d) as [[j z] |];
    simpl in *; congruence.
Qed.

Lemma attribute_of_same_but_active n name (d d' : Document) :
  Forall2 same_but_active d d' -> attribute_of n name d' = attribute_of n name d.
Proof.
  intros H. unfold attribute_of.
  destruct (d !! n) as [e |] eqn:E.
  - destruct (Forall2_lookup_l _ _ _ _ _ H E) as (e' & -> & (_ & Ha & _) & _).
    simpl. rewrite Ha. reflexivity.
  - apply lookup_ge_None in E. rewrite (Forall2_length _ _ _ H) in E.
    apply lookup_ge_None in E. rewrite E. reflexivity.
Qed.

Lemma nodes_of_class_same_but_active c (d d' : Document) :
  c <> "active" ->
  Forall2 same_but_active d d' -> nodes_of_class c d' = nodes_of_class c d.
Proof.
  intros Hc H. unfold nodes_of_class.
  assert (G : forall g : nat -> nat,
             omap (fun x => x) (imap (fun i e => if matches c e then Some (g i) else None) d') =
             omap (fun x => x) (imap (fun i e => if matches c e then Some (g i) else None) d)).
  { induction H as [| e e' d d' (_ & _ & _ & _ & Hn & Ha) _ IH]; intros g; [reflexivity |].
    simpl.
    assert (E : matches c e' = matches c e).
    { unfold matches, has_class. rewrite <- Hn. f_equal.
      apply bool_decide_ext. symmetry. apply Ha, Hc. }
    rewrite E. specialize (IH (fun i => g (S i))).
    cbv beta delta [compose]. cbv beta in IH.
    destruct (matches c e); simpl; [f_equal |]; exact IH. }
  apply (G (fun i => i)).
Qed.

(** ** What the scripts never change *)


Ltac but_active :=
  within_all same_but_active_refl same_but_active_trans;
  first [apply add_token_same_but_active | apply remove_token_same_but_active].

Lemma keeps_groups_intro {L} (m : M L unit) (s : State L) :
  changes_within same_but_active m s -> keeps_groups m s.
Proof.
  intros H. split; [exact H |].
  intros c Hc. apply nodes_of_class_same_but_active; [exact Hc | apply H].
Qed.

(** X3.  Each of the five click listeners changes at most the [active] mark
    of elements, whether it returns or throws: ids, attributes, values,
    texts, colours and every other class stay, so a query by any other class
    finds the same nodes afterwards. *)
Theorem click_listeners_change_only_active
    (selectors sections : list node) (selector : node) :
  (forall s : State Lab.Listener,
     keeps_groups (Lab.navButton_onclick selectors sections selector) s) /\
  (forall s : State Lab.Listener,
     keeps_groups (Lab.elementTab_onclick selectors sections selector) s) /\
  (forall s : State Part000.Listener,
     keeps_groups (Part000.navLink_onclick selectors sections selector) s) /\
  (forall s : State Part000.Listener,
     keeps_groups (Part000.dataNavButton_onclick selectors sections selector) s) /\
  (forall s : State Part000.Listener,
     keeps_groups (Part000.elementTab_onclick selectors sections selector) s).
Proof.
  repeat apply conj; intros s; apply keeps_groups_intro; but_active.
Qed.

Section Display.
Variable f : Q -> string.

Ltac but_display :=
  within_all same_but_display_refl same_but_display_trans; repeat split.

Lemma lab_functions_keep_classes m (s : State Lab.Listener) :
  m ∈ lab_functions f -> changes_within same_but_display m s.
Proof.
  unfold lab_functions. intros H. node_lists.
  destruct H as [-> | [-> | [-> | [-> | [-> | [-> | [-> | []]]]]]]]; but_display.
Qed.

Lemma lab_input_listeners_keep_classes l (s : State Lab.Listener) :
  lab_is_click l = false -> changes_within same_but_display (Lab.call f l) s.
Proof.
  destruct l; intros H; try discriminate H; unfold Lab.call; but_display.
Qed.

Lemma part000_functions_keep_classes m (s : State Part000.Listener) :
  m ∈ part000_functions f -> changes_within same_but_display m s.
Proof.
  unfold part000_functions. intros H. node_lists.
  destruct H as [-> | [-> | [-> | [-> | [-> | [-> | [-> | [-> | []]]]]]]]]; but_display.
Qed.

Lemma part000_input_listeners_keep_classes l (s : State Part000.Listener) :
  part000_is_click l = false -> changes_within same_but_display (Part000.call f l) s.
Proof.
  destruct l; intros H; try discriminate H; unfold Part000.call; but_display.
Qed.
End Display.

(** X4.  No function of either script and no listener other than a click
    listener changes a class list: initialisation and slider input leave
    every [active] mark where it is. *)
Theorem only_clicks_change_classes (f : Q -> string) :
  (forall m (s : State Lab.Listener),
     m ∈ lab_functions f -> changes_within same_but_display m s) /\
  (forall l (s : State Lab.Listener),
     lab_is_click l = false -> changes_within same_but_display (Lab.call f l) s) /\
  (forall m (s : State Part000.Listener),
     m ∈ part000_functions f -> changes_within same_but_display m s) /\
  (forall l (s : State Part000.Listener),
     part000_is_click l = false ->
     changes_within same_but_display (Part000.call f l) s).
Proof.
  repeat apply conj.
  - intros m s. apply lab_functions_keep_classes.
  - intros l s. apply lab_input_listeners_keep_classes.
  - intros m s. apply part000_functions_keep_classes.
  - intros l s. apply part000_input_listeners_keep_classes.
Qed.

(** The voltage-law listener of [lab.js] on its page, and the click
    listeners of the other script apart. *)
Lemma only_clicks_change_classes_witness :
  Lab.initApp (fun _ => "") ∈ lab_functions (fun _ => "") /\
  changes_within same_but_display (Lab.initApp (fun _ => "")) lab_state /\
  lab_is_click (Lab.UpdateV1 lab_kvl) = false /\
  changes_within same_but_display (Lab.call (fun _ => "") (Lab.UpdateV1 lab_kvl)) lab_state.
Proof.
  destruct (only_clicks_change_classes (fun _ => "")) as (F & I & _).
  assert (H : Lab.initApp (fun _ => "") ∈ lab_functions (fun _ => "")).
  { unfold lab_functions. node_lists. tauto. }
  split; [exact H |]. split; [apply F, H |]. split; [reflexivity |].
  apply I. reflexivity.
Defined.

(** ** Selections one after the other *)

Lemma remove_token_idem c e : remove_token c (remove_token c e) = remove_token c e.
Proof.
  unfold remove_token. simpl. f_equal.
  induction (classList e) as [| x l IH]; [reflexivity |].
  rewrite filter_cons. case_decide.
  - rewrite !filter_cons. rewrite decide_True by assumption. f_equal. exact IH.
  - exact IH.
Qed.

Lemma remove_add_token c e : remove_token c (add_token c e) = remove_token c e.
Proof.
  unfold remove_token, add_token. simpl. f_equal.
  destruct (has_class c e); [reflexivity |].
  rewrite filter_app, filter_cons, decide_False by tauto.
  rewrite filter_nil. apply app_nil_r.
Qed.

Lemma add_token_idem c e : add_token c (add_token c e) = add_token c e.
Proof.
  assert (H : has_class c (add_token c e) = true).
  { unfold add_token, has_class. simpl.
    destruct (bool_decide (c ∈ classList e)) eqn:E; [exact E |].
    apply bool_decide_eq_true, elem_of_app. right.
    apply list_elem_of_singleton. reflexivity. }
  unfold add_token at 1. rewrite H. reflexivity.
Qed.

Create Rewrite HintDb tokens.
#[local] Hint Rewrite remove_token_idem remove_add_token add_token_idem : tokens.

Lemma remove_all_lookup c (l : list node) (d : Document) (n : node) :
  remove_all c l d !! n =
  (fun e => if bool_decide (n ∈ l) then remove_token c e else e) <$> d !! n.
Proof.
  revert d. induction l as [| x l IH]; intros d.
  - change (remove_all c [] d) with d. destruct (d !! n); reflexivity.
  - rewrite remove_all_cons, IH. destruct (decide (x = n)) as [-> | Hne].
    + rewrite list_lookup_alter_eq. destruct (d !! n) as [e |]; [| reflexivity].
      simpl. rewrite (bool_decide_eq_true_2 (n ∈ n :: l)) by (apply elem_of_cons; left; reflexivity).
      case_bool_decide; [rewrite remove_token_idem |]; reflexivity.
    + rewrite list_lookup_alter_ne by exact Hne.
      destruct (d !! n) as [e |]; [| reflexivity]. simpl.
      rewrite (bool_decide_ext (n ∈ x :: l) (n ∈ l)); [reflexivity |].
      rewrite elem_of_cons. split; [intros [-> | H]; [congruence | exact H] | tauto].
Qed.

Lemma activated_lookup (selectors sections : list node) (selector target : node)
    (d : Document) (n : node) :
  activated selectors sections selector target d !! n =
  (fun e =>
     let e := if bool_decide (n ∈ selectors) then remove_token "active" e else e in
     let e := if bool_decide (n ∈ sections) then remove_token "active" e else e in
     let e := if bool_decide (n = selector) then add_token "active" e else e in
     if bool_decide (n = target) then add_token "active" e else e) <$> d !! n.
Proof.
  unfold activated.
  rewrite !alter_lookup, !remove_all_lookup.
  destruct (d !! n) as [e |]; reflexivity.
Qed.

Lemma activated_same_but_active (selectors sections : list node) (selector target : node)
    (d : Document) :
  Forall2 same_but_active d (activated selectors sections selector target d).
Proof.
  apply Forall2_same_length_lookup. split.
  - unfold activated. rewrite !length_alter, !remove_all_length. reflexivity.
  - intros i x y Hx Hy. rewrite activated_lookup, Hx in Hy. simpl in Hy.
    injection Hy as <-.
    repeat case_bool_decide;
      repeat first
        [ apply same_but_active_refl
        | eapply same_but_active_trans;
          [| first [apply add_token_same_but_active | apply remove_token_same_but_active]] ].
Qed.

Section OneAfterTheOther.
Context (selectors sections : list node).

(** A click again gives the same document. *)
Lemma activated_twice (selector target : node) (d : Document) :
  activated selectors sections selector target
    (activated selectors sections selector target d) =
  activated selectors sections selector target d.
Proof.
  apply list_eq. intros n. rewrite !activated_lookup.
  destruct (d !! n) as [e |]; [| reflexivity]. simpl. f_equal.
  repeat case_bool_decide; autorewrite with tokens; reflexivity.
Qed.

(** The later of two clicks decides the document. *)
Lemma activated_last (selector1 target1 selector2 target2 : node) (d : Document) :
  selector1 ∈ selectors -> target1 ∈ sections ->
  activated selectors sections selector2 target2
    (activated selectors sections selector1 target1 d) =
  activated selectors sections selector2 target2 d.
Proof.
  intros H1 H2. apply list_eq. intros n. rewrite !activated_lookup.
  destruct (d !! n) as [e |]; [| reflexivity]. simpl. f_equal.
  repeat case_bool_decide; subst; autorewrite with tokens;
    try reflexivity; contradiction.
Qed.
End OneAfterTheOther.

(** The targets in terms of the two queries. *)

Lemma lab_nav_target_Some b d t :
  lab_nav_target b d = Some t ->
  exists a, attribute_of b "data-section" d = Some a /\ a <> "" /\
            element_by_id a d = Some t.
Proof.
  unfold lab_nav_target. destruct (attribute_of b "data-section" d) as [[| c a] |];
    try discriminate.
  intros H. exists (String c a). repeat split; [discriminate | exact H].
Qed.

Lemma tab_target_Some b d t :
  tab_target b d = Some t ->
  exists a, attribute_of b "data-element" d = Some a /\ a <> "" /\
            element_by_id (a ++ "-panel") d = Some t.
Proof.
  unfold tab_target. destruct (attribute_of b "data-element" d) as [[| c a] |];
    try discriminate.
  intros H. exists (String c a). repeat split; [discriminate | exact H].
Qed.

Lemma targets_same_but_active b (d d' : Document) :
  Forall2 same_but_active d d' ->
  lab_nav_target b d' = lab_nav_target b d /\
  tab_target b d' = tab_target b d /\
  part000_nav_target b d' = part000_nav_target b d /\
  part000_data_target b d' = part000_data_target b d.
Proof.
  intros H.
  unfold lab_nav_target, tab_target, part000_nav_target, part000_data_target.
  rewrite !(attribute_of_same_but_active _ _ _ _ H).
  repeat split;
    repeat match goal with |- context [match ?x with _ => _ end] => destruct x end;
    try reflexivity; apply element_by_id_same_but_active, H.
Qed.

Section Clicks.
Context {L : Type} (click : node -> M L unit)
  (target_of : node -> Document -> option node)
  (selectors sections : list node).
Hypothesis click_found : forall b t (s : State L),
  target_of b (document s) = Some t ->
  click b s = Normal tt (mkState (activated selectors sections b t (document s))
                           (console s) (listeners s)).
Hypothesis target_stable : forall b (d d' : Document),
  Forall2 same_but_active d d' -> target_of b d' = target_of b d.

Lemma click_twice b t (s : State L) :
  target_of b (document s) = Some t ->
  bind (click b) (fun _ => click b) s = click b s.
Proof.
  intros Ht. unfold bind. rewrite (click_found b t s Ht).
  rewrite (click_found b t); cbn [document console listeners].
  - rewrite activated_twice. reflexivity.
  - rewrite (target_stable b (document s)); [exact Ht |].
    apply activated_same_but_active.
Qed.

Lemma click_last b1 t1 b2 t2 (s : State L) :
  b1 ∈ selectors -> t1 ∈ sections ->
  target_of b1 (document s) = Some t1 ->
  target_of b2 (document s) = Some t2 ->
  bind (click b1) (fun _ => click b2) s = click b2 s.
Proof.
  intros Hb Ht H1 H2. unfold bind. rewrite (click_found b1 t1 s H1).
  rewrite (click_found b2 t2 s H2).
  rewrite (click_found b2 t2); cbn [document console listeners].
  - rewrite activated_last by assumption. reflexivity.
  - rewrite (target_stable b2 (document s)); [exact H2 |].
    apply activated_same_but_active.
Qed.
End Clicks.

Section Found.
Context (selectors sections : list node).

Lemma lab_nav_click_found b t (s : State Lab.Listener) :
  lab_nav_target b (document s) = Some t ->
  Lab.navButton_onclick selectors sections b s =
  Normal tt (mkState (activated selectors sections b t (document s))
               (console s) (listeners s)).
Proof.
  intros H. apply lab_nav_target_Some in H as (a & Ha & Hne & Ht).
  eapply lab_navButton_onclick_found; eassumption.
Qed.

Lemma lab_tab_click_found b t (s : State Lab.Listener) :
  tab_target b (document s) = Some t ->
  Lab.elementTab_onclick selectors sections b s =
  Normal tt (mkState (activated selectors sections b t (document s))
               (console s) (listeners s)).
Proof.
  intros H. apply tab_target_Some in H as (a & Ha & Hne & Ht).
  eapply lab_elementTab_onclick_found; eassumption.
Qed.

Lemma part000_tab_click_found b t (s : State Part000.Listener) :
  tab_target b (document s) = Some t ->
  Part000.elementTab_onclick selectors sections b s =
  Normal tt (mkState (activated selectors sections b t (document s))
               (console s) (listeners s)).
Proof.
  intros H. apply tab_target_Some in H as (a & Ha & Hne & Ht).
  eapply part000_elementTab_onclick_found; eassumption.
Qed.
End Found.

(** X5.  A second click on the same selector changes nothing: when its
    target exists, each click listener run twice leaves the state it leaves
    when run once. *)
Theorem click_again_changes_nothing (selectors sections : list node) (b t : node) :
  (forall s : State Lab.Listener,
     lab_nav_target b (document s) = Some t ->
     bind (Lab.navButton_onclick selectors sections b)
       (fun _ => Lab.navButton_onclick selectors sections b) s =
     Lab.navButton_onclick selectors sections b s) /\
  (forall s : State Lab.Listener,
     tab_target b (document s) = Some t ->
     bind (Lab.elementTab_onclick selectors sections b)
       (fun _ => Lab.elementTab_onclick selectors sections b) s =
     Lab.elementTab_onclick selectors sections b s) /\
  (forall s : State Part000.Listener,
     part000_nav_target b (document s) = Some t ->
     bind (Part000.navLink_onclick selectors sections b)
       (fun _ => Part000.navLink_onclick selectors sections b) s =
     Part000.navLink_onclick selectors sections b s) /\
  (forall s : State Part000.Listener,
     part000_data_target b (document s) = Some t ->
     bind (Part000.dataNavButton_onclick selectors sections b)
       (fun _ => Part000.dataNavButton_onclick selectors sections b) s =
     Part000.dataNavButton_onclick selectors sections b s) /\
  (forall s : State Part000.Listener,
     tab_target b (document s) = Some t ->
     bind (Part000.elementTab_onclick selectors sections b)
       (fun _ => Part000.elementTab_onclick selectors sections b) s =
     Part000.elementTab_onclick selectors sections b s).
Proof.
  repeat apply conj; intros s;
    apply (click_twice _ _ selectors sections); intros;
    try (apply targets_same_but_active; assumption).
  - apply lab_nav_click_found; assumption.
  - apply lab_tab_click_found; assumption.
  - apply part000_navLink_onclick_found; assumption.
  - apply part000_dataNavButton_onclick_found; assumption.
  - apply part000_tab_click_found; assumption.
Qed.

(** X6.  The later of two clicks decides: when both targets exist and the
    first selector and its target belong to the group, a click on one
    selector followed by a click on another leaves the state the second
    click alone leaves. *)
Theorem last_click_decides (selectors sections : list node) (b1 t1 b2 t2 : node) :
  b1 ∈ selectors -> t1 ∈ sections ->
  (forall s : State Lab.Listener,
     lab_nav_target b1 (document s) = Some t1 ->
     lab_nav_target b2 (document s) = Some t2 ->
     bind (Lab.navButton_onclick selectors sections b1)
       (fun _ => Lab.navButton_onclick selectors sections b2) s =
     Lab.navButton_onclick selectors sections b2 s) /\
  (forall s : State Lab.Listener,
     tab_target b1 (document s) = Some t1 ->
     tab_target b2 (document s) = Some t2 ->
     bind (Lab.elementTab_onclick selectors sections b1)
       (fun _ => Lab.elementTab_onclick selectors sections b2) s =
     Lab.elementTab_onclick selectors sections b2 s) /\
  (forall s : State Part000.Listener,
     part000_nav_target b1 (document s) = Some t1 ->
     part000_nav_target b2 (document s) = Some t2 ->
     bind (Part000.navLink_onclick selectors sections b1)
       (fun _ => Part000.navLink_onclick selectors sections b2) s =
     Part000.navLink_onclick selectors sections b2 s) /\
  (forall s : State Part000.Listener,
     part000_data_target b1 (document s) = Some t1 ->
     part000_data_target b2 (document s) = Some t2 ->
     bind (Part000.dataNavButton_onclick selectors sections b1)
       (fun _ => Part000.dataNavButton_onclick selectors sections b2) s =
     Part000.dataNavButton_onclick selectors sections b2 s) /\
  (forall s : State Part000.Listener,
     tab_target b1 (document s) = Some t1 ->
     tab_target b2 (document s) = Some t2 ->
     bind (Part000.elementTab_onclick selectors sections b1)
       (fun _ => Part000.elementTab_onclick selectors sections b2) s =
     Part000.elementTab_onclick selectors sections b2 s).
Proof.
  intros Hb Ht.
  repeat apply conj; intros s;
    apply (click_last _ _ selectors sections); try assumption; intros;
    try (apply targets_same_but_active; assumption).
  - apply lab_nav_click_found; assumption.
  - apply lab_tab_click_found; assumption.
  - apply part000_navLink_onclick_found; assumption.
  - apply part000_dataNavButton_onclick_found; assumption.
  - apply part000_tab_click_found; assumption.
Qed.

(** On the page of [lab.js]: a click on the first button, whose section
    [ohms-law] exists, then one on the second, is the click on the second. *)
Lemma last_click_decides_witness :
  0 ∈ [0; 1; 2] /\ 3 ∈ [3; 4] /\
  lab_nav_target 0 lab_page = Some 3 /\
  lab_nav_target 1 lab_page = Some 4 /\
  bind (Lab.navButton_onclick [0; 1; 2] [3; 4] 0)
    (fun _ => Lab.navButton_onclick [0; 1; 2] [3; 4] 1) lab_state =
  Lab.navButton_onclick [0; 1; 2] [3; 4] 1 lab_state.
Proof.
  assert (H1 : 0 ∈ [0; 1; 2]) by (node_lists; tauto).
  assert (H2 : 3 ∈ [3; 4]) by (node_lists; tauto).
  split; [exact H1 |]. split; [exact H2 |].
  split; [reflexivity |]. split; [reflexivity |].
  apply (proj1 (last_click_decides [0; 1; 2] [3; 4] 0 3 1 4 H1 H2) lab_state);
    reflexivity.
Defined.

(** The clicks of X5 on the page of [lab.js]. *)
Lemma click_again_changes_nothing_witness :
  lab_nav_target 1 lab_page = Some 4 /\
  bind (Lab.navButton_onclick [0; 1; 2] [3; 4] 1)
    (fun _ => Lab.navButton_onclick [0; 1; 2] [3; 4] 1) lab_state =
  Lab.navButton_onclick [0; 1; 2] [3; 4] 1 lab_state.
Proof.
  split; [reflexivity |].
  apply (proj1 (click_again_changes_nothing [0; 1; 2] [3; 4] 1 4) lab_state).
  reflexivity.
Defined.

(** ** What the navigation functions register *)

Lemma forEach_addEventListener {L} (make : node -> L) (l : list node) (s : State L) :
  forEach l (fun x => addEventListener (TheNode x) "click" (make x)) s =
  Normal tt (mkState (document s) (console s) (listeners s ++ click_listeners make l)).
Proof.
  revert s. induction l as [| x l IH]; intros s.
  - simpl. unfold ret, click_listeners. simpl. rewrite app_nil_r, state_eta. reflexivity.
  - simpl. unfold bind, addEventListener. rewrite IH. cbn [document console listeners].
    unfold click_listeners. simpl. rewrite <- app_assoc. reflexivity.
Qed.

(** X7.  In [lab.js], when the page has navigation buttons and content
    sections, [initNavigation] changes no element, makes no console call and
    registers one click listener per button, in document order, each with
    the two node lists found at that moment; [initElementTabs] does the same
    for the tabs and panels. *)
Theorem lab_navigation_registers_one_listener_per_selector (s : State Lab.Listener) :
  (nodes_of_class "nav-btn" (document s) <> [] ->
   nodes_of_class "content-section" (document s) <> [] ->
   Lab.initNavigation s =
   Normal tt
     (mkState (document s) (console s)
        (listeners s ++
         click_listeners
           (Lab.NavButtonClick (nodes_of_class "nav-btn" (document s))
              (nodes_of_class "content-section" (document s)))
           (nodes_of_class "nav-btn" (document s))))) /\
  (nodes_of_class "element-tab" (document s) <> [] ->
   nodes_of_class "element-panel" (document s) <> [] ->
   Lab.initElementTabs s =
   Normal tt
     (mkState (document s) (console s)
        (listeners s ++
         click_listeners
           (Lab.ElementTabClick (nodes_of_class "element-tab" (document s))
              (nodes_of_class "element-panel" (document s)))
           (nodes_of_class "element-tab" (document s))))).
Proof.
  split; intros H1 H2.
  - unfold Lab.initNavigation, bind, querySelectorAll, gets.
    destruct (nodes_of_class "nav-btn" (document s)) eqn:E1; [congruence |].
    destruct (nodes_of_class "content-section" (document s)) eqn:E2; [congruence |].
    cbn [length Nat.eqb]. apply forEach_addEventListener.
  - unfold Lab.initElementTabs, bind, querySelectorAll, gets.
    destruct (nodes_of_class "element-tab" (document s)) eqn:E1; [congruence |].
    destruct (nodes_of_class "element-panel" (document s)) eqn:E2; [congruence |].
    cbn [length Nat.eqb orb]. apply forEach_addEventListener.
Qed.

(** On the page of [lab.js], [initNavigation] registers the three click
    listeners of its three buttons. *)
Lemma lab_navigation_registers_one_listener_per_selector_witness :
  nodes_of_class "nav-btn" lab_page = [0; 1; 2] /\
  nodes_of_class "content-section" lab_page = [3; 4] /\
  Lab.initNavigation lab_state =
  Normal tt
    (mkState lab_page []
       [ (TheNode 0, "click", Lab.NavButtonClick [0; 1; 2] [3; 4] 0);
         (TheNode 1, "click", Lab.NavButtonClick [0; 1; 2] [3; 4] 1);
         (TheNode 2, "click", Lab.NavButtonClick [0; 1; 2] [3; 4] 2) ]).
Proof.
  split; [reflexivity |]. split; [reflexivity |].
  apply (proj1 (lab_navigation_registers_one_listener_per_selector lab_state));
    discriminate.
Defined.

(** X8.  In [part_000] the three navigation functions change no element,
    make no console call and register one click listener per selector, in
    document order, each with the two node lists found at that moment; on a
    page without selectors they leave the state as it is. *)
Theorem part000_navigation_registers_one_listener_per_selector
    (s : State Part000.Listener) :
  Part000.initMainNavigation s =
    Normal tt
      (mkState (document s) (console s)
         (listeners s ++
          click_listeners
            (Part000.NavLinkClick (nodes_of_class "nav-link" (document s))
               (nodes_of_class "content-section" (document s)))
            (nodes_of_class "nav-link" (document s)))) /\
  Part000.initDataNavigation s =
    Normal tt
      (mkState (document s) (console s)
         (listeners s ++
          click_listeners
            (Part000.DataNavButtonClick (nodes_of_class "data-nav-btn" (document s))
               (nodes_of_class "data-subsection" (document s)))
            (nodes_of_class "data-nav-btn" (document s)))) /\
  Part000.initElementTabs s =
    Normal tt
      (mkState (document s) (console s)
         (listeners s ++
          click_listeners
            (Part000.ElementTabClick (nodes_of_class "element-tab" (document s))
               (nodes_of_class "element-panel" (document s)))
            (nodes_of_class "element-tab" (document s)))) /\
  (nodes_of_class "nav-link" (document s) = [] ->
   Part000.initMainNavigation s = Normal tt s) /\
  (nodes_of_class "data-nav-btn" (document s) = [] ->
   Part000.initDataNavigation s = Normal tt s) /\
  (nodes_of_class "element-tab" (document s) = [] ->
   Part000.initElementTabs s = Normal tt s).
Proof.
  repeat apply conj;
    try (unfold Part000.initMainNavigation, Part000.initDataNavigation,
           Part000.initElementTabs, bind, querySelectorAll, gets;
         apply forEach_addEventListener);
    intros H;
    unfold Part000.initMainNavigation, Part000.initDataNavigation,
      Part000.initElementTabs, bind, querySelectorAll, gets;
    rewrite H; reflexivity.
Qed.

(** ** The panels *)

(** X9.  [validateKVL] colours the validation display by the balance: it
    assigns the green [#4ade80] when the sliders are balanced, and then the
    display shows the script's message of balance, and the amber [#fbbf24]
    when they are not.  The validation display is a display of the page and
    the sum display has no child element. *)
Theorem validateKVL_shows_balance
    (f : Q -> string) (els : KVLElements) (d : Document)
    (sourceVoltage v1 v2 : number) :
  value_of (sourceVoltageSlider els) d = sourceVoltage ->
  value_of (v1Slider els) d = v1 ->
  value_of (v2Slider els) d = v2 ->
  childless (voltageSumDisplay els) d ->
  display (validationDisplay els) d ->
  (forall s : State Lab.Listener, document s = d ->
     exists s',
       Lab.validateKVL f els s = Normal tt s' /\
       assigned_color (validationDisplay els) (document s') =
         Some (if isKVLBalanced sourceVoltage (v1 + v2)%js
               then "#4ade80" else "#fbbf24") /\
       (isKVLBalanced sourceVoltage (v1 + v2)%js = true ->
        shown (validationDisplay els) (document s') =
          Some "✓ Equation is balanced")) /\
  (forall s : State Part000.Listener, document s = d ->
     exists s',
       Part000.validateKVL f els s = Normal tt s' /\
       assigned_color (validationDisplay els) (document s') =
         Some (if isKVLBalanced sourceVoltage (v1 + v2)%js
               then "#4ade80" else "#fbbf24") /\
       (isKVLBalanced sourceVoltage (v1 + v2)%js = true ->
        shown (validationDisplay els) (document s') =
          Some "✓ معادله متعادل است")).
Proof.
  intros Hs H1 H2 Csum Dval.
  pose proof (display_lt _ _ Dval) as Hval.
  split; intros s Hd; subst d.
  - unfold Lab.validateKVL, calculateKVL. run_panel. rewrite Hs, H1, H2.
    destruct (isKVLBalanced sourceVoltage (v1 + v2)%js); run_panel;
      (eexists; split; [reflexivity |]); cbn [document]; split.
    + apply assigned_color_set. rewrite !length_alter. exact Hval.
    + intros _. read_text.
    + apply assigned_color_set. rewrite !length_alter. exact Hval.
    + discriminate.
  - unfold Part000.validateKVL, calculateKVL. run_panel. rewrite Hs, H1, H2.
    destruct (isKVLBalanced sourceVoltage (v1 + v2)%js); run_panel;
      (eexists; split; [reflexivity |]); cbn [document]; split.
    + apply assigned_color_set. rewrite !length_alter. exact Hval.
    + intros _. read_text.
    + apply assigned_color_set. rewrite !length_alter. exact Hval.
    + discriminate.
Qed.

(** With 12 V, 5 V and 7 V the panel is balanced and says so in green; so
    it is with 2.08 V against 1 V and 1.07 V, whose binary64 sum is within
    the tolerance of 2.08. *)
Lemma validateKVL_shows_balance_witness :
  (isKVLBalanced (Num 12) (Num 5 + Num 7)%js = true /\
   exists s',
     Lab.validateKVL (fun _ => "") kvl_panel
       (mkState (kvl_panel_page (Num 12) (Num 5) (Num 7)) [] []) = Normal tt s' /\
     assigned_color (validationDisplay kvl_panel) (document s') = Some "#4ade80" /\
     shown (validationDisplay kvl_panel) (document s') =
       Some "✓ Equation is balanced") /\
  (isKVLBalanced (literal 2.08) (literal 1 + literal 1.07)%js = true /\
   exists s',
     Lab.validateKVL (fun _ => "") kvl_panel
       (mkState (kvl_panel_page (literal 2.08) (literal 1) (literal 1.07)) [] []) =
       Normal tt s' /\
     assigned_color (validationDisplay kvl_panel) (document s') = Some "#4ade80" /\
     shown (validationDisplay kvl_panel) (document s') =
       Some "✓ Equation is balanced").
Proof.
  assert (B1 : isKVLBalanced (Num 12) (Num 5 + Num 7)%js = true)
    by (vm_compute; reflexivity).
  assert (B2 : isKVLBalanced (literal 2.08) (literal 1 + literal 1.07)%js = true)
    by (vm_compute; reflexivity).
  split; (split; [assumption |]).
  - destruct (proj1 (validateKVL_shows_balance (fun _ => "") kvl_panel
                       (kvl_panel_page (Num 12) (Num 5) (Num 7)) (Num 12) (Num 5) (Num 7)
                       eq_refl eq_refl eq_refl
                       (proj2 (display_decide (kvl_panel_page (Num 12) (Num 5) (Num 7))
                                 6 _ eq_refl eq_refl eq_refl))
                       (display_decide (kvl_panel_page (Num 12) (Num 5) (Num 7))
                          7 _ eq_refl eq_refl eq_refl))
                    (mkState (kvl_panel_page (Num 12) (Num 5) (Num 7)) [] []) eq_refl)
      as (s' & H & Hc & Ht).
    exists s'. split; [exact H |]. rewrite B1 in Hc. split; [exact Hc | exact (Ht B1)].
  - destruct (proj1 (validateKVL_shows_balance (fun _ => "") kvl_panel
                       (kvl_panel_page (literal 2.08) (literal 1) (literal 1.07))
                       (literal 2.08) (literal 1) (literal 1.07)
                       eq_refl eq_refl eq_refl
                       (proj2 (display_decide
                                 (kvl_panel_page (literal 2.08) (literal 1) (literal 1.07))
                                 6 _ eq_refl eq_refl eq_refl))
                       (display_decide
                          (kvl_panel_page (literal 2.08) (literal 1) (literal 1.07))
                          7 _ eq_refl eq_refl eq_refl))
                    (mkState (kvl_panel_page (literal 2.08) (literal 1) (literal 1.07))
                       [] []) eq_refl)
      as (s' & H & Hc & Ht).
    exists s'. split; [exact H |]. rewrite B2 in Hc. split; [exact Hc | exact (Ht B2)].
Defined.

(** X10.  Each function of the Ohm's law panel leaves the current display
    showing the current of the two sliders to two decimals, and
    [updateVoltage] and [updateResistance] leave their own display showing
    the slider to one decimal; the three displays are displays of the page,
    and the current display is neither of the other two. *)
Theorem ohms_law_panel_shows_current
    (f : Q -> string) (els : OhmsLawElements) (d : Document) (voltage resistance : number) :
  value_of (voltageSlider els) d = voltage ->
  value_of (resistanceSlider els) d = resistance ->
  display (voltageDisplay els) d ->
  display (resistanceDisplay els) d ->
  display (currentDisplay els) d ->
  voltageDisplay els <> currentDisplay els ->
  resistanceDisplay els <> currentDisplay els ->
  (forall s : State Lab.Listener, document s = d ->
     shows (Lab.updateOhmsLawCurrent f els s) (currentDisplay els)
       (toFixed f 2 (calculateOhmsLaw voltage resistance) ++ " A") /\
     shows (Lab.updateVoltage f els s) (currentDisplay els)
       (toFixed f 2 (calculateOhmsLaw voltage resistance) ++ " A") /\
     shows (Lab.updateVoltage f els s) (voltageDisplay els)
       (toFixed f 1 voltage ++ " V") /\
     shows (Lab.updateResistance f els s) (currentDisplay els)
       (toFixed f 2 (calculateOhmsLaw voltage resistance) ++ " A") /\
     shows (Lab.updateResistance f els s) (resistanceDisplay els)
       (toFixed f 1 resistance ++ " Ω")) /\
  (forall s : State Part000.Listener, document s = d ->
     shows (Part000.updateCurrent f els s) (currentDisplay els)
       (toFixed f 2 (calculateOhmsLaw voltage resistance) ++ " A") /\
     shows (Part000.updateVoltage f els s) (currentDisplay els)
       (toFixed f 2 (calculateOhmsLaw voltage resistance) ++ " A") /\
     shows (Part000.updateVoltage f els s) (voltageDisplay els)
       (toFixed f 1 voltage ++ " V") /\
     shows (Part000.updateResistance f els s) (currentDisplay els)
       (toFixed f 2 (calculateOhmsLaw voltage resistance) ++ " A") /\
     shows (Part000.updateResistance f els s) (resistanceDisplay els)
       (toFixed f 1 resistance ++ " Ω")).
Proof.
  intros Hv Hr Dv Dr Dc Nv Nr.
  split; intros s Hd; subst d; repeat apply conj;
    unfold shows, Lab.updateVoltage, Lab.updateResistance, Lab.updateOhmsLawCurrent,
      Part000.updateVoltage, Part000.updateResistance, Part000.updateCurrent;
    run_panel; rewrite ?Hv, ?Hr;
    (eexists; split; [reflexivity |]); cbn [document]; read_text.
Qed.

(** The scenario of the panel: 10 V over 5 Ω shows [2.00 A] and [10.0 V];
    and 1.5 V over 20 Ω shows [0.07 A], the quotient being the binary64
    number below [0.075]. *)
Lemma ohms_law_panel_shows_current_witness :
  shows (Lab.updateVoltage (fun _ => "") lab_ohms_law (mkState lab_panels_page [] []))
    (currentDisplay lab_ohms_law) "2.00 A" /\
  shows (Lab.updateVoltage (fun _ => "") lab_ohms_law (mkState lab_panels_page [] []))
    (voltageDisplay lab_ohms_law) "10.0 V" /\
  shows (Lab.updateVoltage (fun _ => "") lab_ohms_law
           (mkState (panels_page (literal 1.5) (literal 20) (Num 3) (Num 4)) [] []))
    (currentDisplay lab_ohms_law) "0.07 A".
Proof.
  destruct (proj1 (ohms_law_panel_shows_current (fun _ => "") lab_ohms_law
                     lab_panels_page (Num 10) (Num 5) eq_refl eq_refl
                     (display_decide lab_panels_page 2 _ eq_refl eq_refl eq_refl)
                     (display_decide lab_panels_page 3 _ eq_refl eq_refl eq_refl)
                     (display_decide lab_panels_page 4 _ eq_refl eq_refl eq_refl)
                     ltac:(discriminate) ltac:(discriminate))
                  (mkState lab_panels_page [] []) eq_refl)
    as (_ & H1 & H2 & _).
  destruct (proj1 (ohms_law_panel_shows_current (fun _ => "") lab_ohms_law
                     (panels_page (literal 1.5) (literal 20) (Num 3) (Num 4))
                     (literal 1.5) (literal 20) eq_refl eq_refl
                     (display_decide (panels_page (literal 1.5) (literal 20) (Num 3) (Num 4)) 2 _ eq_refl eq_refl eq_refl)
                     (display_decide (panels_page (literal 1.5) (literal 20) (Num 3) (Num 4)) 3 _ eq_refl eq_refl eq_refl)
                     (display_decide (panels_page (literal 1.5) (literal 20) (Num 3) (Num 4)) 4 _ eq_refl eq_refl eq_refl)
                     ltac:(discriminate) ltac:(discriminate))
                  (mkState (panels_page (literal 1.5) (literal 20) (Num 3) (Num 4)) [] [])
                  eq_refl)
    as (_ & H3 & _).
  split; [exact H1 |]. split; [exact H2 |].
  assert (E : toFixed (fun _ => "") 2 (calculateOhmsLaw (literal 1.5) (literal 20)) ++ " A"
              = "0.07 A") by (vm_compute; reflexivity).
  rewrite E in H3. exact H3.
Defined.

(** X11.  Each function of the current-law panel leaves the outgoing
    display showing the sum of the two sliders to two decimals, and
    [updateI1] and [updateI2] leave their own display showing the slider to
    one decimal; the three displays are displays of the page, and the
    outgoing display is neither of the other two. *)
Theorem kcl_panel_shows_sum
    (f : Q -> string) (els : KCLElements) (d : Document) (i1 i2 : number) :
  value_of (i1Slider els) d = i1 ->
  value_of (i2Slider els) d = i2 ->
  display (i1Display els) d ->
  display (i2Display els) d ->
  display (i3Display els) d ->
  i1Display els <> i3Display els ->
  i2Display els <> i3Display els ->
  (forall s : State Lab.Listener, document s = d ->
     shows (Lab.updateKCLCurrent f els s) (i3Display els)
       (toFixed f 2 (calculateKCL i1 i2) ++ " A") /\
     shows (Lab.updateI1 f els s) (i3Display els)
       (toFixed f 2 (calculateKCL i1 i2) ++ " A") /\
     shows (Lab.updateI1 f els s) (i1Display els) (toFixed f 1 i1 ++ " A") /\
     shows (Lab.updateI2 f els s) (i3Display els)
       (toFixed f 2 (calculateKCL i1 i2) ++ " A") /\
     shows (Lab.updateI2 f els s) (i2Display els) (toFixed f 1 i2 ++ " A")) /\
  (forall s : State Part000.Listener, document s = d ->
     shows (Part000.updateKCLCurrent f els s) (i3Display els)
       (toFixed f 2 (calculateKCL i1 i2) ++ " A") /\
     shows (Part000.updateI1 f els s) (i3Display els)
       (toFixed f 2 (calculateKCL i1 i2) ++ " A") /\
     shows (Part000.updateI1 f els s) (i1Display els) (toFixed f 1 i1 ++ " A") /\
     shows (Part000.updateI2 f els s) (i3Display els)
       (toFixed f 2 (calculateKCL i1 i2) ++ " A") /\
     shows (Part000.updateI2 f els s) (i2Display els) (toFixed f 1 i2 ++ " A")).
Proof.
  intros H1 H2 D1 D2 D3 N1 N2.
  split; intros s Hd; subst d; repeat apply conj;
    unfold shows, Lab.updateI1, Lab.updateI2, Lab.updateKCLCurrent,
      Part000.updateI1, Part000.updateI2, Part000.updateKCLCurrent;
    run_panel; rewrite ?H1, ?H2;
    (eexists; split; [reflexivity |]); cbn [document]; read_text.
Qed.

(** The scenario of the panel: 3 A and 4 A show [7.00 A]; and 0.005 A and
    1 A show [1.00 A], their binary64 sum being below [1.005]. *)
Lemma kcl_panel_shows_sum_witness :
  shows (Lab.updateI1 (fun _ => "") lab_kcl (mkState lab_panels_page [] []))
    (i3Display lab_kcl) "7.00 A" /\
  shows (Lab.updateI1 (fun _ => "") lab_kcl (mkState lab_panels_page [] []))
    (i1Display lab_kcl) "3.0 A" /\
  shows (Lab.updateI1 (fun _ => "") lab_kcl
           (mkState (panels_page (Num 10) (Num 5) (literal 0.005) (literal 1)) [] []))
    (i3Display lab_kcl) "1.00 A".
Proof.
  destruct (proj1 (kcl_panel_shows_sum (fun _ => "") lab_kcl
                     lab_panels_page (Num 3) (Num 4) eq_refl eq_refl
                     (display_decide lab_panels_page 7 _ eq_refl eq_refl eq_refl)
                     (display_decide lab_panels_page 8 _ eq_refl eq_refl eq_refl)
                     (display_decide lab_panels_page 9 _ eq_refl eq_refl eq_refl)
                     ltac:(discriminate) ltac:(discriminate))
                  (mkState lab_panels_page [] []) eq_refl)
    as (_ & H1 & H2 & _).
  destruct (proj1 (kcl_panel_shows_sum (fun _ => "") lab_kcl
                     (panels_page (Num 10) (Num 5) (literal 0.005) (literal 1))
                     (literal 0.005) (literal 1) eq_refl eq_refl
                     (display_decide (panels_page (Num 10) (Num 5) (literal 0.005) (literal 1)) 7 _ eq_refl eq_refl eq_refl)
                     (display_decide (panels_page (Num 10) (Num 5) (literal 0.005) (literal 1)) 8 _ eq_refl eq_refl eq_refl)
                     (display_decide (panels_page (Num 10) (Num 5) (literal 0.005) (literal 1)) 9 _ eq_refl eq_refl eq_refl)
                     ltac:(discriminate) ltac:(discriminate))
                  (mkState (panels_page (Num 10) (Num 5) (literal 0.005) (literal 1)) [] [])
                  eq_refl)
    as (_ & H3 & _).
  split; [exact H1 |]. split; [exact H2 |].
  assert (E : toFixed (fun _ => "") 2 (calculateKCL (literal 0.005) (literal 1)) ++ " A"
              = "1.00 A") by (vm_compute; reflexivity).
  rewrite E in H3. exact H3.
Defined.

(** ** Setting a panel up *)

(** Distinct ids lead to distinct elements. *)
Ltac distinct_nodes :=
  repeat match goal with
  | H1 : element_by_id ?a ?d = Some ?n, H2 : element_by_id ?b ?d = Some ?m
    |- ?n <> ?m =>
      let E := fresh in
      intros E; rewrite E in H1;
      pose proof (element_by_id_inj _ _ _ _ H1 H2); discriminate
  end.

Ltac found_node :=
  match goal with
  | H : element_by_id _ ?d = Some ?n |- ?n < length _ =>
      rewrite ?length_alter; exact (element_by_id_lt _ _ _ H)
  end.

Ltac read_display :=
  rewrite ?shown_display by solve_display;
  rewrite ?own_text_color;
  repeat first
    [ rewrite own_text_set by found_node
    | rewrite own_text_alter_ne by distinct_nodes
    | rewrite own_text_color ];
  try reflexivity.

(** X12.  On a page that has the five elements of the Ohm's law panel, the
    three displays without child elements, [initOhmsLaw] makes no console
    call, registers exactly the two [input] listeners of the sliders, and
    leaves the three displays showing the sliders' values and their
    current. *)
Theorem initOhmsLaw_sets_the_panel_up
    (f : Q -> string) (els : OhmsLawElements) (d : Document) :
  element_by_id "voltage" d = Some (voltageSlider els) ->
  element_by_id "resistance" d = Some (resistanceSlider els) ->
  element_by_id "voltage-value" d = Some (voltageDisplay els) ->
  element_by_id "resistance-value" d = Some (resistanceDisplay els) ->
  element_by_id "current-value" d = Some (currentDisplay els) ->
  childless (voltageDisplay els) d ->
  childless (resistanceDisplay els) d ->
  childless (currentDisplay els) d ->
  (forall s : State Lab.Listener, document s = d ->
     exists s',
       Lab.initOhmsLaw f s = Normal tt s' /\
       console s' = console s /\
       listeners s' =
         (listeners s ++
          [ (TheNode (voltageSlider els), "input", Lab.UpdateVoltage els);
            (TheNode (resistanceSlider els), "input", Lab.UpdateResistance els) ])%list /\
       shown (voltageDisplay els) (document s') =
         Some (toFixed f 1 (value_of (voltageSlider els) d) ++ " V") /\
       shown (resistanceDisplay els) (document s') =
         Some (toFixed f 1 (value_of (resistanceSlider els) d) ++ " Ω") /\
       shown (currentDisplay els) (document s') =
         Some (toFixed f 2 (calculateOhmsLaw (value_of (voltageSlider els) d)
                              (value_of (resistanceSlider els) d)) ++ " A")) /\
  (forall s : State Part000.Listener, document s = d ->
     exists s',
       Part000.initOhmsLaw f s = Normal tt s' /\
       console s' = console s /\
       listeners s' =
         (listeners s ++
          [ (TheNode (voltageSlider els), "input", Part000.UpdateVoltage els);
            (TheNode (resistanceSlider els), "input", Part000.UpdateResistance els) ])%list /\
       shown (voltageDisplay els) (document s') =
         Some (toFixed f 1 (value_of (voltageSlider els) d) ++ " V") /\
       shown (resistanceDisplay els) (document s') =
         Some (toFixed f 1 (value_of (resistanceSlider els) d) ++ " Ω") /\
       shown (currentDisplay els) (document s') =
         Some (toFixed f 2 (calculateOhmsLaw (value_of (voltageSlider els) d)
                              (value_of (resistanceSlider els) d)) ++ " A")).
Proof.
  destruct els as [vs rs vd rd cd]. cbn [voltageSlider resistanceSlider
    voltageDisplay resistanceDisplay currentDisplay].
  intros H1 H2 H3 H4 H5 C3 C4 C5.
  split; intros s Hd; subst d.
  - unfold Lab.initOhmsLaw, bind at 1 2 3 4 5, getElementById, gets.
    rewrite H1, H2, H3, H4, H5.
    unfold Lab.updateVoltage, Lab.updateResistance, Lab.updateOhmsLawCurrent,
      addEventListener.
    run_panel. cbn [voltageSlider resistanceSlider voltageDisplay resistanceDisplay
      currentDisplay].
    eexists. split; [reflexivity |]. cbn [document console listeners].
    split; [reflexivity |]. split; [rewrite <- app_assoc; reflexivity |].
    repeat split; read_display.
  - unfold Part000.initOhmsLaw, bind at 1 2 3 4 5, getElementById, gets.
    rewrite H1, H2, H3, H4, H5.
    unfold Part000.updateVoltage, Part000.updateResistance, Part000.updateCurrent,
      addEventListener.
    run_panel. cbn [voltageSlider resistanceSlider voltageDisplay resistanceDisplay
      currentDisplay].
    eexists. split; [reflexivity |]. cbn [document console listeners].
    split; [reflexivity |]. split; [rewrite <- app_assoc; reflexivity |].
    repeat split; read_display.
Qed.

(** The Ohm's law panel of the page with both panels, set up. *)
Lemma initOhmsLaw_sets_the_panel_up_witness :
  exists s',
    Lab.initOhmsLaw (fun _ => "") (mkState lab_panels_page [] []) = Normal tt s' /\
    console s' = [] /\
    listeners s' =
      [ (TheNode 0, "input", Lab.UpdateVoltage lab_ohms_law);
        (TheNode 1, "input", Lab.UpdateResistance lab_ohms_law) ] /\
    shown 2 (document s') = Some "10.0 V" /\
    shown 3 (document s') = Some "5.0 Ω" /\
    shown 4 (document s') = Some "2.00 A".
Proof.
  apply (proj1 (initOhmsLaw_sets_the_panel_up (fun _ => "") lab_ohms_law lab_panels_page
                  eq_refl eq_refl eq_refl eq_refl eq_refl
                  (proj2 (display_decide lab_panels_page 2 _ eq_refl eq_refl eq_refl))
                  (proj2 (display_decide lab_panels_page 3 _ eq_refl eq_refl eq_refl))
                  (proj2 (display_decide lab_panels_page 4 _ eq_refl eq_refl eq_refl)))
               (mkState lab_panels_page [] []) eq_refl).
Defined.

(** X13.  On a page that has the five elements of the current-law panel,
    the three displays without child elements, [initKCL] makes no console
    call, registers exactly the two [input] listeners of the sliders, and
    leaves the three displays showing the sliders' values and their sum. *)
Theorem initKCL_sets_the_panel_up
    (f : Q -> string) (els : KCLElements) (d : Document) :
  element_by_id "i1" d = Some (i1Slider els) ->
  element_by_id "i2" d = Some (i2Slider els) ->
  element_by_id "i1-value" d = Some (i1Display els) ->
  element_by_id "i2-value" d = Some (i2Display els) ->
  element_by_id "i3-value" d = Some (i3Display els) ->
  childless (i1Display els) d ->
  childless (i2Display els) d ->
  childless (i3Display els) d ->
  (forall s : State Lab.Listener, document s = d ->
     exists s',
       Lab.initKCL f s = Normal tt s' /\
       console s' = console s /\
       listeners s' =
         (listeners s ++
          [ (TheNode (i1Slider els), "input", Lab.UpdateI1 els);
            (TheNode (i2Slider els), "input", Lab.UpdateI2 els) ])%list /\
       shown (i1Display els) (document s') =
         Some (toFixed f 1 (value_of (i1Slider els) d) ++ " A") /\
       shown (i2Display els) (document s') =
         Some (toFixed f 1 (value_of (i2Slider els) d) ++ " A") /\
       shown (i3Display els) (document s') =
         Some (toFixed f 2 (calculateKCL (value_of (i1Slider els) d)
                              (value_of (i2Slider els) d)) ++ " A")) /\
  (forall s : State Part000.Listener, document s = d ->
     exists s',
       Part000.initKCL f s = Normal tt s' /\
       console s' = console s /\
       listeners s' =
         (listeners s ++
          [ (TheNode (i1Slider els), "input", Part000.UpdateI1 els);
            (TheNode (i2Slider els), "input", Part000.UpdateI2 els) ])%list /\
       shown (i1Display els) (document s') =
         Some (toFixed f 1 (value_of (i1Slider els) d) ++ " A") /\
       shown (i2Display els) (document s') =
         Some (toFixed f 1 (value_of (i2Slider els) d) ++ " A") /\
       shown (i3Display els) (document s') =
         Some (toFixed f 2 (calculateKCL (value_of (i1Slider els) d)
                              (value_of (i2Slider els) d)) ++ " A")).
Proof.
  destruct els as [s1 s2 d1 d2 d3].
  cbn [i1Slider i2Slider i1Display i2Display i3Display].
  intros H1 H2 H3 H4 H5 C3 C4 C5.
  split; intros s Hd; subst d.
  - unfold Lab.initKCL, bind at 1 2 3 4 5, getElementById, gets.
    rewrite H1, H2, H3, H4, H5.
    unfold Lab.updateI1, Lab.updateI2, Lab.updateKCLCurrent, addEventListener.
    run_panel. cbn [i1Slider i2Slider i1Display i2Display i3Display].
    eexists. split; [reflexivity |]. cbn [document console listeners].
    split; [reflexivity |]. split; [rewrite <- app_assoc; reflexivity |].
    repeat split; read_display.
  - unfold Part000.initKCL, bind at 1 2 3 4 5, getElementById, gets.
    rewrite H1, H2, H3, H4, H5.
    unfold Part000.updateI1, Part000.updateI2, Part000.updateKCLCurrent, addEventListener.
    run_panel. cbn [i1Slider i2Slider i1Display i2Display i3Display].
    eexists. split; [reflexivity |]. cbn [document console listeners].
    split; [reflexivity |]. split; [rewrite <- app_assoc; reflexivity |].
    repeat split; read_display.
Qed.

(** The current-law panel of the page with both panels, set up. *)
Lemma initKCL_sets_the_panel_up_witness :
  exists s',
    Lab.initKCL (fun _ => "") (mkState lab_panels_page [] []) = Normal tt s' /\
    console s' = [] /\
    listeners s' =
      [ (TheNode 5, "input", Lab.UpdateI1 lab_kcl);
        (TheNode 6, "input", Lab.UpdateI2 lab_kcl) ] /\
    shown 7 (document s') = Some "3.0 A" /\
    shown 8 (document s') = Some "4.0 A" /\
    shown 9 (document s') = Some "7.00 A".
Proof.
  apply (proj1 (initKCL_sets_the_panel_up (fun _ => "") lab_kcl lab_panels_page
                  eq_refl eq_refl eq_refl eq_refl eq_refl
                  (proj2 (display_decide lab_panels_page 7 _ eq_refl eq_refl eq_refl))
                  (proj2 (display_decide lab_panels_page 8 _ eq_refl eq_refl eq_refl))
                  (proj2 (display_decide lab_panels_page 9 _ eq_refl eq_refl eq_refl)))
               (mkState lab_panels_page [] []) eq_refl).
Defined.

(** X14.  On a page that has the eight elements of the voltage-law panel,
    the five displays without child elements, [initKVL] makes no console
    call, registers exactly the three [input] listeners of the sliders, and
    leaves the displays showing the sliders' values and the sum of the
    drops, with the colour of the balance assigned to the validation
    display. *)
Theorem initKVL_sets_the_panel_up
    (f : Q -> string) (els : KVLElements) (d : Document) :
  element_by_id "source-voltage" d = Some (sourceVoltageSlider els) ->
  element_by_id "v1" d = Some (v1Slider els) ->
  element_by_id "v2" d = Some (v2Slider els) ->
  element_by_id "source-voltage-value" d = Some (sourceVoltageDisplay els) ->
  element_by_id "v1-value" d = Some (v1Display els) ->
  element_by_id "v2-value" d = Some (v2Display els) ->
  element_by_id "voltage-sum-value" d = Some (voltageSumDisplay els) ->
  element_by_id "kvl-validation" d = Some (validationDisplay els) ->
  childless (sourceVoltageDisplay els) d ->
  childless (v1Display els) d ->
  childless (v2Display els) d ->
  childless (voltageSumDisplay els) d ->
  childless (validationDisplay els) d ->
  (forall s : State Lab.Listener, document s = d ->
     exists s',
       Lab.initKVL f s = Normal tt s' /\
       console s' = console s /\
       listeners s' =
         (listeners s ++
          [ (TheNode (sourceVoltageSlider els), "input", Lab.UpdateSourceVoltage els);
            (TheNode (v1Slider els), "input", Lab.UpdateV1 els);
            (TheNode (v2Slider els), "input", Lab.UpdateV2 els) ])%list /\
       shown (sourceVoltageDisplay els) (document s') =
         Some (toFixed f 1 (value_of (sourceVoltageSlider els) d) ++ " V") /\
       shown (v1Display els) (document s') =
         Some (toFixed f 1 (value_of (v1Slider els) d) ++ " V") /\
       shown (v2Display els) (document s') =
         Some (toFixed f 1 (value_of (v2Slider els) d) ++ " V") /\
       shown (voltageSumDisplay els) (document s') =
         Some (toFixed f 2 (calculateKVL (value_of (v1Slider els) d)
                              (value_of (v2Slider els) d)) ++ " V") /\
       assigned_color (validationDisplay els) (document s') =
         Some (if isKVLBalanced (value_of (sourceVoltageSlider els) d)
                    (calculateKVL (value_of (v1Slider els) d) (value_of (v2Slider els) d))
               then "#4ade80" else "#fbbf24")) /\
  (forall s : State Part000.Listener, document s = d ->
     exists s',
       Part000.initKVL f s = Normal tt s' /\
       console s' = console s /\
       listeners s' =
         (listeners s ++
          [ (TheNode (sourceVoltageSlider els), "input", Part000.UpdateSourceVoltage els);
            (TheNode (v1Slider els), "input", Part000.UpdateV1 els);
            (TheNode (v2Slider els), "input", Part000.UpdateV2 els) ])%list /\
       shown (sourceVoltageDisplay els) (document s') =
         Some (toFixed f 1 (value_of (sourceVoltageSlider els) d) ++ " V") /\
       shown (v1Display els) (document s') =
         Some (toFixed f 1 (value_of (v1Slider els) d) ++ " V") /\
       shown (v2Display els) (document s') =
         Some (toFixed f 1 (value_of (v2Slider els) d) ++ " V") /\
       shown (voltageSumDisplay els) (document s') =
         Some (toFixed f 2 (calculateKVL (value_of (v1Slider els) d)
                              (value_of (v2Slider els) d)) ++ " V") /\
       assigned_color (validationDisplay els) (document s') =
         Some (if isKVLBalanced (value_of (sourceVoltageSlider els) d)
                    (calculateKVL (value_of (v1Slider els) d) (value_of (v2Slider els) d))
               then "#4ade80" else "#fbbf24")).
Proof.
  destruct els as [ss s1 s2 sd d1 d2 sum vd].
  cbn [sourceVoltageSlider v1Slider v2Slider sourceVoltageDisplay v1Display v2Display
       voltageSumDisplay validationDisplay].
  intros H1 H2 H3 H4 H5 H6 H7 H8 C4 C5 C6 C7 C8.
  split; intros s Hd; subst d.
  - destruct (isKVLBalanced (value_of ss (document s))
                (calculateKVL (value_of s1 (document s)) (value_of s2 (document s))))
      eqn:E;
      unfold Lab.initKVL, bind at 1 2 3 4 5 6 7 8, getElementById, gets;
      rewrite H1, H2, H3, H4, H5, H6, H7, H8;
      unfold Lab.updateSourceVoltage, Lab.updateV1, Lab.updateV2, Lab.validateKVL,
        addEventListener;
      cbn [sourceVoltageSlider v1Slider v2Slider sourceVoltageDisplay v1Display
           v2Display voltageSumDisplay validationDisplay];
      repeat (run_panel; rewrite ?E);
      (eexists; split; [reflexivity |]); cbn [document console listeners];
      (split; [reflexivity |]); (split; [rewrite <- !app_assoc; reflexivity |]);
      repeat split; read_display;
      apply assigned_color_set; found_node.
  - destruct (isKVLBalanced (value_of ss (document s))
                (calculateKVL (value_of s1 (document s)) (value_of s2 (document s))))
      eqn:E;
      unfold Part000.initKVL, bind at 1 2 3 4 5 6 7 8, getElementById, gets;
      rewrite H1, H2, H3, H4, H5, H6, H7, H8;
      unfold Part000.updateSourceVoltage, Part000.updateV1, Part000.updateV2,
        Part000.validateKVL, addEventListener;
      cbn [sourceVoltageSlider v1Slider v2Slider sourceVoltageDisplay v1Display
           v2Display voltageSumDisplay validationDisplay];
      repeat (run_panel; rewrite ?E);
      (eexists; split; [reflexivity |]); cbn [document console listeners];
      (split; [reflexivity |]); (split; [rewrite <- !app_assoc; reflexivity |]);
      repeat split; read_display;
      apply assigned_color_set; found_node.
Qed.

(** The voltage-law panel of the page of [lab.js], set up: 12 V against
    5 V and 6 V is not balanced. *)
Lemma initKVL_sets_the_panel_up_witness :
  exists s',
    Lab.initKVL (fun _ => "") lab_state = Normal tt s' /\
    console s' = [] /\
    listeners s' =
      [ (TheNode 5, "input", Lab.UpdateSourceVoltage lab_kvl);
        (TheNode 6, "input", Lab.UpdateV1 lab_kvl);
        (TheNode 7, "input", Lab.UpdateV2 lab_kvl) ] /\
    shown 8 (document s') = Some "12.0 V" /\
    shown 9 (document s') = Some "5.0 V" /\
    shown 10 (document s') = Some "6.0 V" /\
    shown 11 (document s') = Some "11.00 V" /\
    assigned_color 12 (document s') = Some "#fbbf24".
Proof.
  apply (proj1 (initKVL_sets_the_panel_up (fun _ => "") lab_kvl lab_page
                  eq_refl eq_refl eq_refl eq_refl eq_refl eq_refl eq_refl eq_refl
                  (proj2 (display_decide lab_page 8 _ eq_refl eq_refl eq_refl))
                  (proj2 (display_decide lab_page 9 _ eq_refl eq_refl eq_refl))
                  (proj2 (display_decide lab_page 10 _ eq_refl eq_refl eq_refl))
                  (proj2 (display_decide lab_page 11 _ eq_refl eq_refl eq_refl))
                  (proj2 (display_decide lab_page 12 _ eq_refl eq_refl eq_refl)))
               lab_state eq_refl).
Defined.

(** ** A display with content *)

Lemma nodes_of_class_matches c (d : Document) (n : node) :
  n ∈ nodes_of_class c d -> exists e, d !! n = Some e /\ matches c e = true.
Proof.
  unfold nodes_of_class. rewrite list_elem_of_omap.
  intros (o & Ho & ->). apply elem_of_lookup_imap in Ho as (i & e & E & Hi).
  destruct (matches c e) eqn:M; [| discriminate].
  injection E as ->. exists e. split; assumption.
Qed.

(** What the assignment of a text does to a child of the element. *)
Lemma assign_textContent_child (n c : node) (t : string) (d : Document) (e : Element) :
  d !! c = Some e -> parent e = Some n -> c <> n ->
  assign_textContent n t d !! c = Some (removed n e).
Proof.
  intros E P Hne. unfold assign_textContent. rewrite list_lookup_imap, E. simpl.
  rewrite bool_decide_eq_false_2 by exact Hne.
  assert (Hd : is_descendant d n c = true).
  { unfold is_descendant.
    destruct (length d) as [| k] eqn:L.
    - apply lookup_lt_Some in E. lia.
    - simpl. rewrite E, P. rewrite bool_decide_eq_true_2 by reflexivity. reflexivity. }
  rewrite Hd. reflexivity.
Qed.

Lemma removed_not_found (c : node) (d : Document) (e : Element) :
  d !! c = Some e -> connected e = false ->
  (forall id, element_by_id id d <> Some c) /\
  (forall cl, c ∉ nodes_of_class cl d).
Proof.
  intros E C. split.
  - intros id H. apply element_by_id_connected in H as (e' & E' & C'). congruence.
  - intros cl H. apply nodes_of_class_matches in H as (e' & E' & M).
    unfold matches in M. apply andb_true_iff in M as [C' _]. congruence.
Qed.

(** X22.  A display with content loses it: when the current display of the
    Ohm's law panel has a child element, each update of the current removes
    that child from the document, so that afterwards it has no parent and
    neither [getElementById] nor [querySelectorAll] finds it (both
    scripts). *)
Theorem rewriting_a_display_removes_its_children
    (f : Q -> string) (els : OhmsLawElements) (d : Document) (c : node) (e : Element) :
  d !! c = Some e ->
  parent e = Some (currentDisplay els) ->
  c <> currentDisplay els ->
  (forall s : State Lab.Listener, document s = d ->
     exists s',
       Lab.updateOhmsLawCurrent f els s = Normal tt s' /\
       document s' !! c = Some (removed (currentDisplay els) e) /\
       (forall id, element_by_id id (document s') <> Some c) /\
       (forall cl, c ∉ nodes_of_class cl (document s'))) /\
  (forall s : State Part000.Listener, document s = d ->
     exists s',
       Part000.updateCurrent f els s = Normal tt s' /\
       document s' !! c = Some (removed (currentDisplay els) e) /\
       (forall id, element_by_id id (document s') <> Some c) /\
       (forall cl, c ∉ nodes_of_class cl (document s'))).
Proof.
  intros E P Hne.
  split; intros s Hd; subst d;
    unfold Lab.updateOhmsLawCurrent, Part000.updateCurrent, bind, parseFloat_value,
      gets, set_textContent, modify;
    cbn [document console listeners];
    (eexists; split; [reflexivity |]); cbn [document];
    pose proof (assign_textContent_child _ _
                  (toFixed f 2 (calculateOhmsLaw
                     (value_of (voltageSlider els) (document s))
                     (value_of (resistanceSlider els) (document s))) ++ " A")
                  _ _ E P Hne) as A;
    (split; [exact A |]);
    exact (removed_not_found _ _ _ A eq_refl).
Qed.

(** On a page whose current display holds an element for the unit: the
    query finds that element before the update and not after it, and the
    display then shows the current alone. *)
Lemma rewriting_a_display_removes_its_children_witness :
  element_by_id "unit" nested_page = Some 5 /\
  exists s',
    Lab.updateOhmsLawCurrent (fun _ => "") lab_ohms_law (mkState nested_page [] []) =
      Normal tt s' /\
    element_by_id "unit" (document s') = None /\
    nodes_of_class "unit" (document s') = [] /\
    shown (currentDisplay lab_ohms_law) (document s') = Some "2.00 A".
Proof.
  split; [reflexivity |].
  destruct (proj1 (rewriting_a_display_removes_its_children (fun _ => "") lab_ohms_law
                     nested_page 5 _ eq_refl eq_refl ltac:(discriminate))
                  (mkState nested_page [] []) eq_refl)
    as (s' & H & _ & _ & _).
  exists s'. split; [exact H |].
  vm_compute in H. injection H as <-.
  repeat split; vm_compute; reflexivity.
Defined.

(** ** Starting the application *)

Ltac next_init H :=
  unfold bind at 1;
  let s' := fresh "s" in
  destruct H as ([] & s' & ->).

(** X15.  [initApp] always returns, and its last console call is the
    message of success, whatever the page lacks. *)
Theorem initApp_always_reports_success (f : Q -> string) :
  (forall s : State Lab.Listener,
     exists s',
       Lab.initApp f s = Normal tt s' /\
       last (console s') =
         Some (LevelLog,
               ["Electrical Circuit Laws application initialized successfully!"])) /\
  (forall s : State Part000.Listener,
     exists s',
       Part000.initApp f s = Normal tt s' /\
       last (console s') =
         Some (LevelLog, ["Electrical Circuits platform initialized successfully!"])).
Proof.
  split; intros s.
  - unfold Lab.initApp.
    assert (R : forall m s, m ∈ lab_functions f -> returns m s)
      by (intros; apply (lab_functions_return f); assumption).
    unfold lab_functions in R.
    next_init (R Lab.initNavigation s ltac:(node_lists; tauto)).
    next_init (R Lab.initElementTabs s0 ltac:(node_lists; tauto)).
    next_init (R (Lab.initOhmsLaw f) s1 ltac:(node_lists; tauto)).
    next_init (R (Lab.initKCL f) s2 ltac:(node_lists; tauto)).
    next_init (R (Lab.initKVL f) s3 ltac:(node_lists; tauto)).
    eexists. split; [reflexivity |]. apply last_snoc.
  - unfold Part000.initApp.
    assert (R : forall m s, m ∈ part000_functions f -> returns m s)
      by (intros; apply (part000_functions_return f); assumption).
    unfold part000_functions in R.
    next_init (R Part000.initMainNavigation s ltac:(node_lists; tauto)).
    next_init (R Part000.initDataNavigation s0 ltac:(node_lists; tauto)).
    next_init (R Part000.initElementTabs s1 ltac:(node_lists; tauto)).
    next_init (R (Part000.initOhmsLaw f) s2 ltac:(node_lists; tauto)).
    next_init (R (Part000.initKCL f) s3 ltac:(node_lists; tauto)).
    next_init (R (Part000.initKVL f) s4 ltac:(node_lists; tauto)).
    eexists. split; [reflexivity |]. apply last_snoc.
Qed.

(** ** A navigation link without its section *)

(** X16.  In [part_000] a click on a navigation link whose section does not
    exist throws a [TypeError] after the group has been cleared: it leaves
    the link the only active link and no section active, and makes no
    console call.  The link is an element of the document and not itself a
    section. *)
Theorem navLink_without_section_throws_after_clearing
    (navLinks contentSections : list node) (link : node)
    (s : State Part000.Listener) :
  link < length (document s) ->
  link ∉ contentSections ->
  part000_nav_target link (document s) = None ->
  exists s',
    Part000.navLink_onclick navLinks contentSections link s =
      Throw (TypeError "Cannot read properties of null") s' /\
    (forall x, x ∈ navLinks -> (active (document s') x <-> x = link)) /\
    active (document s') link /\
    (forall x, x ∈ contentSections -> ~ active (document s') x) /\
    console s' = console s /\
    listeners s' = listeners s.
Proof.
  intros Hlt Hout Hnone.
  rewrite (part000_navLink_onclick_missing _ _ _ s Hnone).
  eexists. split; [reflexivity |]. cbn [document console listeners].
  assert (Hact : active
            (alter (add_token "active") link
               (remove_all "active" contentSections
                  (remove_all "active" navLinks (document s)))) link).
  { apply contains_add_token_eq. rewrite !remove_all_length. exact Hlt. }
  split; [| split; [exact Hact | split; [| split; reflexivity]]].
  - intros x Hx. split; [| intros ->; exact Hact].
    intros H. destruct (decide (x = link)) as [| Hne]; [assumption | exfalso].
    unfold active in H. rewrite contains_alter_ne in H by congruence.
    destruct (decide (x ∈ contentSections)) as [Hin | Hnin].
    + rewrite remove_all_removes in H by exact Hin. discriminate.
    + rewrite remove_all_contains_other in H by exact Hnin.
      rewrite remove_all_removes in H by exact Hx. discriminate.
  - intros x Hx H. unfold active in H.
    rewrite contains_alter_ne in H by (intros ->; exact (Hout Hx)).
    rewrite remove_all_removes in H by exact Hx. discriminate.
Qed.

(** On the page of [part_000]: the section [home] is active before the click
    on the link of the missing section [about], and none is after it. *)
Lemma navLink_without_section_throws_after_clearing_witness :
  active part000_page 2 /\
  exists s',
    Part000.navLink_onclick [0; 1] [2] 1 part000_state =
      Throw (TypeError "Cannot read properties of null") s' /\
    (forall x, x ∈ [0; 1] -> (active (document s') x <-> x = 1)) /\
    active (document s') 1 /\
    (forall x, x ∈ [2] -> ~ active (document s') x) /\
    console s' = console part000_state /\
    listeners s' = listeners part000_state.
Proof.
  split; [reflexivity |].
  apply (navLink_without_section_throws_after_clearing [0; 1] [2] 1 part000_state);
    [simpl; lia | node_lists; lia | reflexivity].
Defined.

(** ** The formulas, further *)

(** X19.  [isKVLBalanced] does not depend on the order of its arguments,
    whatever they are, and a finite voltage is balanced with itself. *)
Theorem isKVLBalanced_symmetric_reflexive :
  (forall x y : number, isKVLBalanced x y = isKVLBalanced y x) /\
  (forall a : Q, isKVLBalanced (Num a) (Num a) = true).
Proof.
  split.
  - intros [a | | s] [b | | t]; unfold isKVLBalanced; cbv zeta;
      rewrite literal_tolerance; try reflexivity.
    + rewrite (num_sub_antisym a b), Math_abs_num_neg. reflexivity.
    + destruct s, t; reflexivity.
  - intros a. apply isKVLBalanced_threshold.
    assert (E : (a - a == 0)%Q) by ring. rewrite E. discriminate.
Qed.

(** X20.  [calculateKVL] is commutative on all numbers: the drops can be
    given in any order. *)
Theorem calculateKVL_commutative (v1 v2 : number) :
  calculateKVL v1 v2 = calculateKVL v2 v1.
Proof. apply num_add_comm. Qed.

(** X23.  Reversing the voltage or the resistance reverses the current:
    rounding is odd, so [calculateOhmsLaw] is odd in each argument, for all
    finite voltages and resistances, zero included. *)
Theorem calculateOhmsLaw_odd (V R : Q) :
  calculateOhmsLaw (num_neg (Num V)) (Num R) = num_neg (calculateOhmsLaw (Num V) (Num R)) /\
  calculateOhmsLaw (Num V) (num_neg (Num R)) = num_neg (calculateOhmsLaw (Num V) (Num R)).
Proof.
  cbn [num_neg].
  destruct (Qeq_dec R 0) as [HR | HR].
  - assert (HR' : (Qred (- R) == 0)%Q) by (rewrite Qred_correct, HR; reflexivity).
    unfold calculateOhmsLaw.
    rewrite (proj2 (strict_equal_zero R) HR), (proj2 (strict_equal_zero _) HR').
    split; reflexivity.
  - assert (HR' : ~ (Qred (- R) == 0)%Q).
    { rewrite Qred_correct. intros H. apply HR.
      rewrite <- (Qopp_involutive R), H. reflexivity. }
    rewrite !calculateOhmsLaw_division by assumption.
    rewrite <- round64_opp.
    split; apply round64_comp; rewrite Qred_correct; field; exact HR.
Qed.

(** X24.  Voltages that are closer than balanced ones are balanced: the
    balance depends on the distance between the source voltage and the sum
    of the drops alone, and decreases with it. *)
Theorem closer_voltages_stay_balanced (S D S' D' : Q) :
  (Qabs (S - D) <= Qabs (S' - D'))%Q ->
  isKVLBalanced (Num S') (Num D') = true ->
  isKVLBalanced (Num S) (Num D) = true.
Proof.
  rewrite !isKVLBalanced_threshold. intros H H'.
  eapply Qle_trans; eassumption.
Qed.

Lemma closer_voltages_stay_balanced_witness :
  (Qabs (10 - 10.001) <= Qabs (10 - 10.005))%Q /\
  isKVLBalanced (Num 10) (Num 10.005) = true /\
  isKVLBalanced (Num 10) (Num 10.001) = true.
Proof.
  assert (H : (Qabs (10 - 10.001) <= Qabs (10 - 10.005))%Q) by (vm_compute; discriminate).
  assert (B : isKVLBalanced (Num 10) (Num 10.005) = true) by (vm_compute; reflexivity).
  split; [exact H |]. split; [exact B |].
  exact (closer_voltages_stay_balanced 10 10.001 10 10.005 H B).
Defined.

(** ** A navigation link, further *)

(** X21.  The click listener of a navigation link of [part_000] throws
    exactly when the section of the link does not exist: it returns if and
    only if [getElementById] finds the section. *)
Theorem navLink_returns_iff_section_exists
    (navLinks contentSections : list node) (link : node)
    (s : State Part000.Listener) :
  returns (Part000.navLink_onclick navLinks contentSections link) s <->
  is_Some (part000_nav_target link (document s)).
Proof.
  unfold returns.
  destruct (part000_nav_target link (document s)) as [t |] eqn:E.
  - split; [intros _; eexists; reflexivity |]. intros _.
    rewrite (part000_navLink_onclick_found _ _ _ t s E). eexists _, _. reflexivity.
  - rewrite (part000_navLink_onclick_missing _ _ _ s E). split.
    + intros (a & s' & H). discriminate H.
    + intros [t H]. discriminate H.
Qed.
